(** * mcp-telegram: the MTProto daemon, its control handlers and the user client

    A shallow embedding of [src/mcp_telegram/daemon.py],
    [src/mcp_telegram/user/client.py], [src/mcp_telegram/config.py] and the
    daemon commands of [src/mcp_telegram/cli.py].

    Python values are an inductive type with Python's truthiness; exceptions
    are values with their class; a coroutine or function with effects is a
    state transformer that returns either a value or a raised exception and
    keeps the effects done before the raise.  Telethon, the operating system
    and the HTTP transport are outside the repository: they are oracles of an
    environment record, and every theorem quantifies over them.  What a run
    does to them is kept as a list of events: the requests to the backend,
    the writes of the Process Record, the signals, the lines logged and
    printed.

    Strings are byte strings, the UTF-8 bytes of Python's str.  [str.lower]
    follows the Unicode tables of the interpreter and is an oracle of the
    environment too; [strip] is Python's on ASCII.  JSON numbers are
    integers. *)

From Stdlib Require Import ZArith String Ascii List Bool Lia.
From stdpp Require Import base option list strings pretty.

#[local] Set Warnings "-register-all".

(* ===================================================================== *)
(** ** Python values, exceptions and effects *)
(* ===================================================================== *)

Module Py.

(** What [json.loads] produces and [json.dumps] consumes.  Numbers are the
    integers; a JSON number with a fraction is outside this model.  A dict
    keeps its insertion order, as Python's does: it is an association list,
    read by its first binding of a key. *)
Inductive pyval : Type :=
  | PNone
  | PBool (b : bool)
  | PInt (z : Z)
  | PStr (s : string)
  | PList (l : list pyval)
  | PDict (d : list (string * pyval)).

Definition dict : Type := list (string * pyval).

(** [bool(s)] for a str. *)
Definition nonempty (s : string) : bool := negb (String.length s =? 0)%nat.

(** [bool(v)]: what [if v] and [not v] test. *)
Definition truthy (v : pyval) : bool :=
  match v with
  | PNone => false
  | PBool b => b
  | PInt z => negb (z =? 0)%Z
  | PStr s => nonempty s
  | PList l => match l with [] => false | _ :: _ => true end
  | PDict d => match d with [] => false | _ :: _ => true end
  end.

(** [d.get(key)]: the value bound to [key], if any. *)
Fixpoint dict_lookup (d : dict) (key : string) : option pyval :=
  match d with
  | [] => None
  | (k, v) :: r => if String.eqb k key then Some v else dict_lookup r key
  end.

(** [d[key] = v]: a bound key keeps its place, a new one goes last. *)
Fixpoint dict_set (d : dict) (key : string) (v : pyval) : dict :=
  match d with
  | [] => [(key, v)]
  | (k, v0) :: r =>
      if String.eqb k key then (k, v) :: r else (k, v0) :: dict_set r key v
  end.

(** [{**d, **more}] *)
Definition dict_update (d more : dict) : dict :=
  fold_left (fun acc kv => dict_set acc (fst kv) (snd kv)) more d.

(** [type(v).__name__], as it appears in the interpreter's error messages. *)
Definition type_name (v : pyval) : string :=
  match v with
  | PNone => "NoneType"
  | PBool _ => "bool"
  | PInt _ => "int"
  | PStr _ => "str"
  | PList _ => "list"
  | PDict _ => "dict"
  end.

(** The exception classes the code raises, catches or lets through. *)
Inductive ExnClass : Type :=
  | SystemExit (code : Z)
  | OSError
  | ProcessLookupError
  | PermissionError
  | FileNotFoundError
  | ConnectionError
  | ValueError
  | JSONDecodeError
  | RuntimeError
  | AttributeError
  | TypeError
  | OverflowError
  | RPCError
  | TyperExit (code : Z).

Record Exn : Type := mkExn { exn_class : ExnClass; exn_str : string }.

(** [isinstance(e, OSError)] *)
Definition is_OSError (e : Exn) : bool :=
  match exn_class e with
  | OSError | ProcessLookupError | PermissionError
  | FileNotFoundError | ConnectionError => true
  | _ => false
  end.

(** [isinstance(e, ValueError)] *)
Definition is_ValueError (e : Exn) : bool :=
  match exn_class e with
  | ValueError | JSONDecodeError => true
  | _ => false
  end.

(** [isinstance(e, Exception)]: [SystemExit] derives from [BaseException]
    only, so [except Exception] lets it through. *)
Definition is_Exception (e : Exn) : bool :=
  match exn_class e with
  | SystemExit _ => false
  | _ => true
  end.

Inductive Res (A : Type) : Type :=
  | Ok (a : A)
  | Raise (e : Exn).
Arguments Ok {A} a.
Arguments Raise {A} e.

(** A computation over a state [S]: effects done before a raise stay. *)
Definition M (S A : Type) : Type := S -> Res A * S.

Definition ret {S A} (a : A) : M S A := fun s => (Ok a, s).

Definition bind {S A B} (m : M S A) (k : A -> M S B) : M S B :=
  fun s =>
    match m s with
    | (Ok a, s') => k a s'
    | (Raise e, s') => (Raise e, s')
    end.

Definition raise {S A} (e : Exn) : M S A := fun s => (Raise e, s).

Definition gets {S A} (f : S -> A) : M S A := fun s => (Ok (f s), s).

Definition modify {S} (f : S -> S) : M S unit := fun s => (Ok tt, f s).

(** The outcome of an oracle, lifted into a computation. *)
Definition lift_res {S A} (r : Res A) : M S A := fun s => (r, s).

(** [try: body  except <classes> as e: handler e] *)
Definition try_except {S A} (body : M S A) (classes : Exn -> bool)
    (handler : Exn -> M S A) : M S A :=
  fun s =>
    match body s with
    | (Ok a, s') => (Ok a, s')
    | (Raise e, s') => if classes e then handler e s' else (Raise e, s')
    end.

(** [sys.exit(code)] *)
Definition sys_exit {S A} (code : Z) : M S A :=
  raise (mkExn (SystemExit code) (pretty code)).

Module Notations.
  Notation "x <- c1 ;; c2" := (bind c1 (fun x => c2))
    (at level 100, c1 at next level, right associativity).
  Notation "c1 ;; c2" := (bind c1 (fun _ => c2))
    (at level 100, right associativity).
End Notations.

(** *** Strings *)

(** [str.isspace] on the ASCII range. *)
Definition is_space (a : ascii) : bool :=
  let n := nat_of_ascii a in
  ((9 <=? n) && (n <=? 13) || (28 <=? n) && (n <=? 32))%nat.

Fixpoint lstrip (l : list ascii) : list ascii :=
  match l with
  | a :: r => if is_space a then lstrip r else l
  | [] => []
  end.

(** [s.strip()] *)
Definition strip (s : string) : string :=
  string_of_list_ascii (rev (lstrip (rev (lstrip (list_ascii_of_string s))))).

Definition digit_val (a : ascii) : option Z :=
  let n := nat_of_ascii a in
  if ((48 <=? n) && (n <=? 57))%nat then Some (Z.of_nat n - 48)%Z else None.

(** The digits of a decimal literal: [digit (["_"] digit)*].  [acc] is the
    value read so far; [first] says that a digit must come next. *)
Fixpoint int_digits (first : bool) (acc : Z) (l : list ascii) : option Z :=
  match l with
  | [] => if first then None else Some acc
  | a :: r =>
      match digit_val a with
      | Some d => int_digits false (acc * 10 + d)%Z r
      | None =>
          if (nat_of_ascii a =? 95)%nat && negb first
          then int_digits true acc r
          else None
      end
  end.

(** [int(s)] for a string in base 10: surrounding whitespace, one optional
    sign, digits with single underscores between them.  [None] is the
    [ValueError].  The interpreter's limit on the number of digits is not
    modelled. *)
Definition int_of_str (s : string) : option Z :=
  match list_ascii_of_string (strip s) with
  | a :: r =>
      if (nat_of_ascii a =? 45)%nat then Z.opp <$> int_digits true 0 r
      else if (nat_of_ascii a =? 43)%nat then int_digits true 0 r
      else int_digits true 0 (a :: r)
  | [] => None
  end.

Definition int_ValueError (s : string) : Exn :=
  mkExn ValueError ("invalid literal for int() with base 10: '" +:+ s +:+ "'").

Definition py_int {S} (s : string) : M S Z :=
  match int_of_str s with
  | Some z => ret z
  | None => raise (int_ValueError s)
  end.

Definition lower_ascii (a : ascii) : ascii :=
  let n := nat_of_ascii a in
  if ((65 <=? n) && (n <=? 90))%nat then ascii_of_nat (n + 32) else a.

(** [str.lower] is the interpreter's: it follows the Unicode tables, and the
    environment gives it (the field [str_lower] of [Env]).  On ASCII text it
    is this function, which the concrete surroundings of the examples take
    for it. *)
Fixpoint ascii_lower (s : string) : string :=
  match s with
  | EmptyString => EmptyString
  | String a r => String (lower_ascii a) (ascii_lower r)
  end.

(** [needle in hay] for two strings, on their UTF-8 bytes: a run of bytes
    that is a str occurs in a str only where its characters do. *)
Fixpoint contains (needle hay : string) : bool :=
  String.prefix needle hay
  || match hay with
     | EmptyString => false
     | String _ r => contains needle r
     end.

Definition join (sep : string) (l : list string) : string :=
  match l with
  | [] => ""
  | s :: r => fold_left (fun acc t => acc +:+ sep +:+ t) r s
  end.

(** [repr(v)].  A string is put between single quotes as it is: the escapes
    Python adds for quotes and control characters are not modelled. *)
Fixpoint py_repr (v : pyval) : string :=
  match v with
  | PNone => "None"
  | PBool b => if b then "True" else "False"
  | PInt z => pretty z
  | PStr s => "'" +:+ s +:+ "'"
  | PList l => "[" +:+ join ", " (map py_repr l) +:+ "]"
  | PDict d =>
      "{" +:+ join ", "
                (map (fun kv => "'" +:+ fst kv +:+ "': " +:+ py_repr (snd kv)) d)
          +:+ "}"
  end.

(** [str(v)], what an f-string inserts. *)
Definition py_str (v : pyval) : string :=
  match v with
  | PStr s => s
  | _ => py_repr v
  end.

Definition no_attribute (v : pyval) (attr : string) : Exn :=
  mkExn AttributeError
    ("'" +:+ type_name v +:+ "' object has no attribute '" +:+ attr +:+ "'").

(** [data.get(key, default)]: only a dict has [get]. *)
Definition py_get (data : pyval) (key : string) (default : pyval) : Res pyval :=
  match data with
  | PDict d =>
      match dict_lookup d key with
      | Some v => Ok v
      | None => Ok default
      end
  | _ => Raise (no_attribute data "get")
  end.

(** [len(v)] *)
Definition py_len (v : pyval) : Res Z :=
  match v with
  | PStr s => Ok (Z.of_nat (String.length s))
  | PList l => Ok (Z.of_nat (length l))
  | PDict d => Ok (Z.of_nat (length d))
  | _ => Raise (mkExn TypeError
                  ("object of type '" +:+ type_name v +:+ "' has no len()"))
  end.

(** [n >= v] for an int [n]: a bool compares as 0 or 1, anything else but a
    number does not compare. *)
Definition py_int_ge (n : Z) (v : pyval) : Res bool :=
  match v with
  | PInt z => Ok (z <=? n)%Z
  | PBool b => Ok ((if b then 1 else 0) <=? n)%Z
  | _ => Raise (mkExn TypeError
                  ("'>=' not supported between instances of 'int' and '"
                   +:+ type_name v +:+ "'"))
  end.

(** [v.lower()]: only a str has it; [lower] is the interpreter's
    [str.lower]. *)
Definition py_lower (lower : string -> string) (v : pyval) : Res string :=
  match v with
  | PStr s => Ok (lower s)
  | _ => Raise (no_attribute v "lower")
  end.

(** [Path(v)]: the path as a string; only a str is one. *)
Definition py_Path (v : pyval) : Res string :=
  match v with
  | PStr s => Ok s
  | _ => Raise (mkExn TypeError
                  ("argument should be a str or an os.PathLike object where "
                   +:+ "__fspath__ returns a str, not '" +:+ type_name v +:+ "'"))
  end.

Definition opt_str (o : option string) : pyval :=
  match o with Some s => PStr s | None => PNone end.

Definition opt_int (o : option Z) : pyval :=
  match o with Some z => PInt z | None => PNone end.

End Py.

Import Py Py.Notations.

(* ===================================================================== *)
(** ** Configuration ([config.py]) *)
(* ===================================================================== *)

Module Config.

Record UserConfig : Type := mkUserConfig {
  api_id : string;
  api_hash : string;
  phone : string
}.

(** [bool(self.api_id and self.api_hash and self.phone)] *)
Definition is_configured (u : UserConfig) : bool :=
  nonempty (api_id u) && nonempty (api_hash u) && nonempty (phone u).

Record DaemonConfig : Type := mkDaemonConfig {
  host : string;
  port : Z
}.

(** The bot section of the file is for the Bot API client, which the daemon
    never reads. *)
Record Config : Type := mkConfig {
  user : UserConfig;
  daemon : DaemonConfig
}.

Definition has_user (c : Config) : bool := is_configured (user c).

(** [Config()]: every field at its default. *)
Definition default : Config :=
  mkConfig (mkUserConfig "" "" "") (mkDaemonConfig "127.0.0.1" 19876).

End Config.

(* ===================================================================== *)
(** ** Telethon, as the code sees it *)
(* ===================================================================== *)

Module Telethon.

(** [types.User], the fields [get_me] reads. *)
Record User : Type := mkUser {
  u_id : Z;
  u_first_name : option string;
  u_last_name : option string;
  u_username : option string;
  u_phone : option string
}.

Inductive DocumentAttribute : Type :=
  | DocumentAttributeFilename (file_name : string)
  | DocumentAttributeAudio (voice : bool)
  | DocumentAttributeOther.

Record Document : Type := mkDocument {
  attributes : list DocumentAttribute
}.

Inductive MessageMedia : Type :=
  | MessageMediaPhoto
  | MessageMediaDocument (document : option Document)
  | MessageMediaOther.

(** [patched.Message], the fields [get_messages] reads.  [m_date] is the
    date already rendered by [isoformat()]. *)
Record Message : Type := mkMessage {
  m_id : Z;
  m_date : option string;
  m_text : option string;
  m_sender_id : option Z;
  m_media : option MessageMedia
}.

(** What [iter_messages] can yield. *)
Inductive Msg : Type :=
  | MsgMessage (m : Message)
  | MsgService (id : Z)
  | MsgEmpty (id : Z).

(** [dialog.entity] *)
Inductive Entity : Type :=
  | EUser (username : option string)
  | EChat
  | EChannel (broadcast : bool)
  | EOther.

Record Dialog : Type := mkDialog {
  d_id : Z;
  d_name : option string;
  d_unread_count : Z;
  d_entity : Entity
}.

(** The message object [send_message] and [send_file] return. *)
Record Sent : Type := mkSent { s_id : Z; s_chat_id : option Z }.

(** What an asynchronous iterator does when it is consumed to its end: the
    items in order, then a normal end or a raise. *)
Definition Stream (A : Type) : Type := (list A * option Exn)%type.

(** The requests a [TelegramClient] is asked to make. *)
Inductive Call : Type :=
  | CConnect
  | CDisconnect
  | CIsUserAuthorized
  | CGetMe
  | CSendMessage (entity message reply_to : pyval)
  | CSendFile (entity file caption voice_note : pyval)
  | CIterMessages (entity limit : pyval)
  | CIterDialogs (limit : pyval)
  | CGetMessages (entity ids : pyval)
  | CDownloadMedia (file : pyval)
  | CEditMessage (entity message_id text : pyval)
  | CDeleteMessages (entity message_ids : pyval).

(** The answers of the backend.  [download_media] answers with the path it
    wrote, already resolved; [delete_messages] with the count the backend
    says it removed. *)
Record Backend : Type := mkBackend {
  connect : Res unit;
  disconnect : Res unit;
  is_user_authorized : Res bool;
  get_me : Res (option User);
  send_message : pyval -> pyval -> pyval -> Res Sent;
  send_file : pyval -> pyval -> pyval -> pyval -> Res Sent;
  iter_messages : pyval -> pyval -> Stream Msg;
  iter_dialogs : pyval -> Stream Dialog;
  get_messages : pyval -> pyval -> Res (option Message);
  download_media : Message -> pyval -> Res (option string);
  edit_message : pyval -> pyval -> pyval -> Res unit;
  delete_messages : pyval -> pyval -> Res Z
}.

(** A [TelegramClient] object: what it was built with and whether its
    transport is up. *)
Record TelegramClient : Type := mkTelegramClient {
  tc_session : string;
  tc_api_id : Z;
  tc_api_hash : string;
  is_connected : bool
}.

End Telethon.

(* ===================================================================== *)
(** ** What a run leaves to observe *)
(* ===================================================================== *)

Inductive Event : Type :=
  | EvConstruct (session : string) (api_id : Z) (api_hash : string)
  | EvCall (c : Telethon.Call)
  | EvLog (level message : string)
  | EvPrint (message : string)
  | EvWritePid (text : string)
  | EvUnlinkPid
  | EvKill (pid signal : Z)
  | EvSleep
  | EvListen (host : string) (port : Z)
  | EvSpawn (argv : list string)
  | EvExec (argv : list string)
  | EvHealthProbe.

(** What surrounds the program: the files, the process table, the backend,
    the listener.  [kill n pid sig] is the outcome of the [n]-th [os.kill]
    of a run; [health n] is what the [n]-th [daemon_request("health")] of
    the command line returns, a dict in every case; [str_lower] is
    [str.lower] of the interpreter, of which nothing is assumed. *)
Record Env : Type := mkEnv {
  load_config : Config.Config;
  config_dir : string;
  path_exists : string -> bool;
  getpid : Z;
  kill : nat -> Z -> Z -> Res unit;
  backend : Telethon.Backend;
  site_start : Res unit;
  health : nat -> dict;
  python : string;
  str_lower : string -> string
}.

Definition SIGTERM : Z := 15.

(** [get_session_path()], [get_pid_path()] as strings. *)
Definition get_session_path (env : Env) : string := config_dir env +:+ "/session".
Definition get_pid_path (env : Env) : string := config_dir env +:+ "/daemon.pid".

(* ===================================================================== *)
(** ** The user client ([user/client.py]) *)
(* ===================================================================== *)

Module UserClient.

(** A [UserClient] object: [self.config] and [self._client]. *)
Record obj : Type := mkObj {
  config : Config.Config;
  _client : option Telethon.TelegramClient
}.

(** [UserClient(config)] *)
Definition new (c : Config.Config) : obj := mkObj c None.

(** The object a method runs on, and the events so far. *)
Record St : Type := mkSt {
  self : obj;
  trace : list Event
}.

Definition emit (e : Event) : M St unit :=
  modify (fun s => mkSt (self s) (trace s ++ [e])).

Definition set_client (c : Telethon.TelegramClient) : M St unit :=
  modify (fun s => mkSt (mkObj (config (self s)) (Some c)) (trace s)).

Section Methods.
Context (env : Env).

Local Abbreviation tg := (backend env).

(** The [client] property: the Telegram client, built on first use. *)
Definition client : M St Telethon.TelegramClient :=
  s <- gets self ;;
  match _client s with
  | Some c => ret c
  | None =>
      if negb (Config.is_configured (Config.user (config s)))
      then raise (mkExn RuntimeError "User not configured. Run 'tg login' first.")
      else
        id <- py_int (Config.api_id (Config.user (config s))) ;;
        let c := Telethon.mkTelegramClient (get_session_path env) id
                   (Config.api_hash (Config.user (config s))) false in
        emit (EvConstruct (get_session_path env) id
                (Config.api_hash (Config.user (config s)))) ;;
        set_client c ;;
        ret c
  end.

(** What a finished [connect()] leaves: [is_connected()] answers [b]. *)
Definition set_connected (b : bool) : M St unit :=
  c <- client ;;
  set_client (Telethon.mkTelegramClient (Telethon.tc_session c)
                (Telethon.tc_api_id c) (Telethon.tc_api_hash c) b).

(** One request to the backend: it is recorded, then answered. *)
Definition request {A} (c : Telethon.Call) (answer : Res A) : M St A :=
  _ <- client ;;
  emit (EvCall c) ;;
  lift_res answer.

(** [connect()]: connects the transport unless it is up. *)
Definition connect : M St unit :=
  c <- client ;;
  if negb (Telethon.is_connected c) then
    request Telethon.CConnect (Telethon.connect tg) ;;
    set_connected true
  else ret tt.

(** [disconnect()]: only a client that exists and is connected is asked. *)
Definition disconnect : M St unit :=
  s <- gets self ;;
  match _client s with
  | Some c =>
      if Telethon.is_connected c then
        emit (EvCall Telethon.CDisconnect) ;;
        lift_res (Telethon.disconnect tg) ;;
        set_client (Telethon.mkTelegramClient (Telethon.tc_session c)
                      (Telethon.tc_api_id c) (Telethon.tc_api_hash c) false)
      else ret tt
  | None => ret tt
  end.

(** [is_authorized()] *)
Definition is_authorized : M St bool :=
  connect ;;
  request Telethon.CIsUserAuthorized (Telethon.is_user_authorized tg).

(** [get_me()]: the fields of the current user, or [{}] when the backend
    knows none. *)
Definition get_me : M St dict :=
  connect ;;
  me <- request Telethon.CGetMe (Telethon.get_me tg) ;;
  match me with
  | Some u =>
      ret [("id", PInt (Telethon.u_id u));
           ("first_name", opt_str (Telethon.u_first_name u));
           ("last_name", opt_str (Telethon.u_last_name u));
           ("username", opt_str (Telethon.u_username u));
           ("phone", opt_str (Telethon.u_phone u))]
  | None => ret []
  end.

(** [{"message_id": result.id, "chat_id": result.chat_id}] *)
Definition sent_dict (result : Telethon.Sent) : dict :=
  [("message_id", PInt (Telethon.s_id result));
   ("chat_id", opt_int (Telethon.s_chat_id result))].

(** [send_message(entity, message, reply_to)] *)
Definition send_message (entity message reply_to : pyval) : M St dict :=
  connect ;;
  result <- request (Telethon.CSendMessage entity message reply_to)
              (Telethon.send_message tg entity message reply_to) ;;
  ret (sent_dict result).

(** [send_file(entity, file_path, caption, voice)]: the path is looked at
    after [connect()]. *)
Definition send_file (entity file_path caption voice : pyval) : M St dict :=
  connect ;;
  path <- lift_res (py_Path file_path) ;;
  if negb (path_exists env path)
  then raise (mkExn FileNotFoundError ("File not found: " +:+ py_str file_path))
  else
    result <- request (Telethon.CSendFile entity file_path caption voice)
                (Telethon.send_file tg entity file_path caption voice) ;;
    ret (sent_dict result).

(** One round of [for attr in msg.media.document.attributes]. *)
Definition attribute_step (msg_data : dict) (attr : Telethon.DocumentAttribute)
    : dict :=
  match attr with
  | Telethon.DocumentAttributeFilename file_name =>
      dict_set msg_data "file_name" (PStr file_name)
  | Telethon.DocumentAttributeAudio voice =>
      if voice then dict_set msg_data "media_type" (PStr "voice")
      else dict_set msg_data "media_type" (PStr "audio")
  | Telethon.DocumentAttributeOther => msg_data
  end.

(** [# Determine media type] *)
Definition media_type (msg_data : dict) (media : option Telethon.MessageMedia)
    : dict :=
  match media with
  | None => msg_data
  | Some Telethon.MessageMediaPhoto =>
      dict_set msg_data "media_type" (PStr "photo")
  | Some (Telethon.MessageMediaDocument document) =>
      let msg_data := dict_set msg_data "media_type" (PStr "document") in
      match document with
      | Some d => fold_left attribute_step (Telethon.attributes d) msg_data
      | None => msg_data
      end
  | Some Telethon.MessageMediaOther =>
      dict_set msg_data "media_type" (PStr "other")
  end.

(** The entry of the result for one real message. *)
Definition msg_data (msg : Telethon.Message) : dict :=
  media_type
    [("id", PInt (Telethon.m_id msg));
     ("date", opt_str (Telethon.m_date msg));
     ("text", PStr (match Telethon.m_text msg with
                    | Some t => if nonempty t then t else ""
                    | None => ""
                    end));
     ("from_id", opt_int (Telethon.m_sender_id msg));
     ("has_media", PBool (match Telethon.m_media msg with
                          | Some _ => true
                          | None => false
                          end))]
    (Telethon.m_media msg).

(** The body of [async for msg in ...] of [get_messages], over the
    messages the iterator yields. *)
Fixpoint get_messages_loop (stream : list Telethon.Msg) (messages : list dict)
    : list dict :=
  match stream with
  | [] => messages
  | Telethon.MsgService _ :: rest => get_messages_loop rest messages
  | Telethon.MsgEmpty _ :: rest => get_messages_loop rest messages
  | Telethon.MsgMessage msg :: rest =>
      get_messages_loop rest (messages ++ [msg_data msg])
  end.

(** What the end of an iterator does to the value the loop has built. *)
Definition at_end {S A} (stop : option Exn) (a : A) : M S A :=
  match stop with
  | None => ret a
  | Some e => raise e
  end.

(** [get_messages(entity, limit)] *)
Definition get_messages (entity limit : pyval) : M St (list dict) :=
  connect ;;
  _ <- client ;;
  emit (EvCall (Telethon.CIterMessages entity limit)) ;;
  let stream := Telethon.iter_messages tg entity limit in
  at_end (snd stream) (get_messages_loop (fst stream) []).

(** The entry of the result for one dialog, with its [# Determine type]. *)
Definition dialog_data (dialog : Telethon.Dialog) : dict :=
  let data := [("id", PInt (Telethon.d_id dialog));
               ("name", opt_str (Telethon.d_name dialog));
               ("unread_count", PInt (Telethon.d_unread_count dialog))] in
  match Telethon.d_entity dialog with
  | Telethon.EUser username =>
      dict_set (dict_set data "type" (PStr "user")) "username" (opt_str username)
  | Telethon.EChat => dict_set data "type" (PStr "group")
  | Telethon.EChannel broadcast =>
      if broadcast then dict_set data "type" (PStr "channel")
      else dict_set data "type" (PStr "supergroup")
  | Telethon.EOther => data
  end.

(** [(dialog.name or "").lower()] *)
Definition name_lower (dialog : Telethon.Dialog) : string :=
  str_lower env
    (match Telethon.d_name dialog with Some n => n | None => "" end).

(** The body of [async for dialog in ...] of [search_dialogs]: [stream] is
    what the iterator has still to yield, [stop] how it ends, [dialogs] the
    list built so far.  A [break] returns the list at once. *)
Fixpoint search_dialogs_loop (query limit : pyval)
    (stream : list Telethon.Dialog) (stop : option Exn) (dialogs : list dict)
    : Res (list dict) :=
  match stream with
  | [] => match stop with None => Ok dialogs | Some e => Raise e end
  | dialog :: rest =>
      let append :=
        let dialogs := dialogs ++ [dialog_data dialog] in
        match py_int_ge (Z.of_nat (length dialogs)) limit with
        | Raise e => Raise e
        | Ok true => Ok dialogs
        | Ok false => search_dialogs_loop query limit rest stop dialogs
        end in
      if truthy query then
        match py_lower (str_lower env) query with
        | Raise e => Raise e
        | Ok query_lower =>
            if negb (contains query_lower (name_lower dialog))
            then search_dialogs_loop query limit rest stop dialogs
            else append
        end
      else append
  end.

(** [search_dialogs(query, limit)] *)
Definition search_dialogs (query limit : pyval) : M St (list dict) :=
  connect ;;
  _ <- client ;;
  emit (EvCall (Telethon.CIterDialogs limit)) ;;
  let stream := Telethon.iter_dialogs tg limit in
  lift_res (search_dialogs_loop query limit (fst stream) (snd stream) []).

(** [download_media(entity, message_id, save_path)] *)
Definition download_media (entity message_id save_path : pyval) : M St dict :=
  connect ;;
  message <- request (Telethon.CGetMessages entity message_id)
               (Telethon.get_messages tg entity message_id) ;;
  match message with
  | None =>
      raise (mkExn ValueError ("Message " +:+ py_str message_id +:+ " not found"))
  | Some m =>
      match Telethon.m_media m with
      | None =>
          raise (mkExn ValueError
                   ("Message " +:+ py_str message_id +:+ " has no media"))
      | Some _ =>
          emit (EvCall (Telethon.CDownloadMedia save_path)) ;;
          downloaded <- lift_res (Telethon.download_media tg m save_path) ;;
          match downloaded with
          | Some p =>
              if nonempty p then ret [("path", PStr p)]
              else raise (mkExn ValueError "Failed to download media")
          | None => raise (mkExn ValueError "Failed to download media")
          end
      end
  end.

(** [edit_message(entity, message_id, text)] *)
Definition edit_message (entity message_id text : pyval) : M St dict :=
  connect ;;
  request (Telethon.CEditMessage entity message_id text)
    (Telethon.edit_message tg entity message_id text) ;;
  ret [("message_id", message_id)].

(** [delete_messages(entity, message_ids)]: [result] is not read. *)
Definition delete_messages (entity message_ids : pyval) : M St dict :=
  connect ;;
  result <- request (Telethon.CDeleteMessages entity message_ids)
              (Telethon.delete_messages tg entity message_ids) ;;
  n <- lift_res (py_len message_ids) ;;
  ret [("deleted", PInt n)].

End Methods.

End UserClient.

(** The state a run works on: the Process Record file, how many signals and
    probes were sent, the globals [_config] and [_client] of [daemon.py],
    and the events so far. *)
Record World : Type := mkWorld {
  w_pid_file : option string;
  w_kills : nat;
  w_probes : nat;
  w_config : option Config.Config;
  w_client : option UserClient.obj;
  w_trace : list Event
}.

Definition emit (e : Event) : M World unit :=
  modify (fun w => mkWorld (w_pid_file w) (w_kills w) (w_probes w)
                     (w_config w) (w_client w) (w_trace w ++ [e])).

Definition set_config (c : Config.Config) : M World unit :=
  modify (fun w => mkWorld (w_pid_file w) (w_kills w) (w_probes w)
                     (Some c) (w_client w) (w_trace w)).

Definition set_client (c : UserClient.obj) : M World unit :=
  modify (fun w => mkWorld (w_pid_file w) (w_kills w) (w_probes w)
                     (w_config w) (Some c) (w_trace w)).

(** [pid_path.write_text(text)] *)
Definition write_pid (text : string) : M World unit :=
  modify (fun w => mkWorld (Some text) (w_kills w) (w_probes w)
                     (w_config w) (w_client w) (w_trace w ++ [EvWritePid text])).

(** [pid_path.unlink(missing_ok=True)] *)
Definition unlink_pid : M World unit :=
  modify (fun w => mkWorld None (w_kills w) (w_probes w)
                     (w_config w) (w_client w) (w_trace w ++ [EvUnlinkPid])).

(** [os.kill(pid, sig)] *)
Definition os_kill (env : Env) (pid sig : Z) : M World unit :=
  fun w =>
    (kill env (w_kills w) pid sig,
     mkWorld (w_pid_file w) (S (w_kills w)) (w_probes w)
       (w_config w) (w_client w) (w_trace w ++ [EvKill pid sig])).

(** A method call on the object the global [_client] names. *)
Definition call_client {A} (method : string) (m : M UserClient.St A)
    : M World A :=
  fun w =>
    match w_client w with
    | Some c =>
        let (r, s) := m (UserClient.mkSt c (w_trace w)) in
        (r, mkWorld (w_pid_file w) (w_kills w) (w_probes w) (w_config w)
              (Some (UserClient.self s)) (UserClient.trace s))
    | None => (Raise (no_attribute PNone method), w)
    end.

(** A process that has just started: no globals set, nothing observed. *)
Definition fresh (pid_file : option string) : World :=
  mkWorld pid_file 0 0 None None [].

(* ===================================================================== *)
(** ** The daemon ([daemon.py]) *)
(* ===================================================================== *)

Module Daemon.

(** An inbound request, as far as a handler looks: what [request.json()]
    gives. *)
Record Request : Type := mkRequest { json : Res pyval }.

(** [web.json_response(body, status=status)] *)
Record Response : Type := json_response { body : dict; status : Z }.

Definition error_body (error : string) : dict :=
  [("ok", PBool false); ("error", PStr error)].

Section WithEnv.
Context (env : Env).

(** [get_client()]: the one client of the process, authorized. *)
Definition get_client : M World unit :=
  cfg <- gets w_config ;;
  config <- match cfg with
            | None => set_config (load_config env) ;; ret (load_config env)
            | Some c => ret c
            end ;;
  cl <- gets w_client ;;
  match cl with
  | None => set_client (UserClient.new config)
  | Some _ => ret tt
  end ;;
  authorized <- call_client "is_authorized" (UserClient.is_authorized env) ;;
  if negb authorized
  then raise (mkExn RuntimeError "Not authorized. Run 'tg login' first.")
  else ret tt.

(** [except Exception as e:] of the POST handlers. *)
Definition on_exception (what : string) (e : Exn) : M World Response :=
  emit (EvLog "ERROR" ("Error in " +:+ what)) ;;
  ret (json_response (error_body (exn_str e)) 500).

Definition handle_health (request : Request) : M World Response :=
  try_except
    (get_client ;;
     me <- call_client "get_me" (UserClient.get_me env) ;;
     ret (json_response
            [("ok", PBool true); ("status", PStr "connected"); ("user", PDict me)]
            200))
    is_Exception
    (fun e =>
       ret (json_response
              [("ok", PBool false); ("status", PStr "error");
               ("error", PStr (exn_str e))]
              500)).

Definition handle_send_message (request : Request) : M World Response :=
  try_except
    (data <- lift_res (json request) ;;
     entity <- lift_res (py_get data "entity" PNone) ;;
     message <- lift_res (py_get data "message" (PStr "")) ;;
     reply_to <- lift_res (py_get data "reply_to" PNone) ;;
     if negb (truthy entity)
     then ret (json_response (error_body "entity is required") 400)
     else
       get_client ;;
       result <- call_client "send_message"
                   (UserClient.send_message env entity message reply_to) ;;
       ret (json_response (dict_update [("ok", PBool true)] result) 200))
    is_Exception (on_exception "send_message").

Definition handle_send_file (request : Request) : M World Response :=
  try_except
    (data <- lift_res (json request) ;;
     entity <- lift_res (py_get data "entity" PNone) ;;
     file_path <- lift_res (py_get data "file_path" PNone) ;;
     caption <- lift_res (py_get data "caption" (PStr "")) ;;
     voice <- lift_res (py_get data "voice" (PBool false)) ;;
     if negb (truthy entity) || negb (truthy file_path)
     then ret (json_response (error_body "entity and file_path are required") 400)
     else
       path <- lift_res (py_Path file_path) ;;
       if negb (path_exists env path)
       then ret (json_response
                   (error_body ("File not found: " +:+ py_str file_path)) 400)
       else
         get_client ;;
         result <- call_client "send_file"
                     (UserClient.send_file env entity file_path caption voice) ;;
         ret (json_response (dict_update [("ok", PBool true)] result) 200))
    is_Exception (on_exception "send_file").

Definition handle_get_messages (request : Request) : M World Response :=
  try_except
    (data <- lift_res (json request) ;;
     entity <- lift_res (py_get data "entity" PNone) ;;
     limit <- lift_res (py_get data "limit" (PInt 10)) ;;
     if negb (truthy entity)
     then ret (json_response (error_body "entity is required") 400)
     else
       get_client ;;
       messages <- call_client "get_messages"
                     (UserClient.get_messages env entity limit) ;;
       ret (json_response
              [("ok", PBool true); ("messages", PList (map PDict messages))]
              200))
    is_Exception (on_exception "get_messages").

Definition handle_search_dialogs (request : Request) : M World Response :=
  try_except
    (data <- lift_res (json request) ;;
     query <- lift_res (py_get data "query" (PStr "")) ;;
     limit <- lift_res (py_get data "limit" (PInt 10)) ;;
     get_client ;;
     dialogs <- call_client "search_dialogs"
                  (UserClient.search_dialogs env query limit) ;;
     ret (json_response
            [("ok", PBool true); ("dialogs", PList (map PDict dialogs))]
            200))
    is_Exception (on_exception "search_dialogs").

Definition handle_download_media (request : Request) : M World Response :=
  try_except
    (data <- lift_res (json request) ;;
     entity <- lift_res (py_get data "entity" PNone) ;;
     message_id <- lift_res (py_get data "message_id" PNone) ;;
     save_path <- lift_res (py_get data "save_path" PNone) ;;
     if negb (truthy entity) || negb (truthy message_id) || negb (truthy save_path)
     then ret (json_response
                 (error_body "entity, message_id, and save_path are required") 400)
     else
       get_client ;;
       result <- call_client "download_media"
                   (UserClient.download_media env entity message_id save_path) ;;
       ret (json_response (dict_update [("ok", PBool true)] result) 200))
    is_Exception (on_exception "download_media").

Definition handle_edit_message (request : Request) : M World Response :=
  try_except
    (data <- lift_res (json request) ;;
     entity <- lift_res (py_get data "entity" PNone) ;;
     message_id <- lift_res (py_get data "message_id" PNone) ;;
     text <- lift_res (py_get data "text" PNone) ;;
     if negb (truthy entity) || negb (truthy message_id) || negb (truthy text)
     then ret (json_response
                 (error_body "entity, message_id, and text are required") 400)
     else
       get_client ;;
       result <- call_client "edit_message"
                   (UserClient.edit_message env entity message_id text) ;;
       ret (json_response (dict_update [("ok", PBool true)] result) 200))
    is_Exception (on_exception "edit_message").

Definition handle_delete_messages (request : Request) : M World Response :=
  try_except
    (data <- lift_res (json request) ;;
     entity <- lift_res (py_get data "entity" PNone) ;;
     message_ids <- lift_res (py_get data "message_ids" (PList [])) ;;
     if negb (truthy entity) || negb (truthy message_ids)
     then ret (json_response (error_body "entity and message_ids are required") 400)
     else
       get_client ;;
       result <- call_client "delete_messages"
                   (UserClient.delete_messages env entity message_ids) ;;
       ret (json_response (dict_update [("ok", PBool true)] result) 200))
    is_Exception (on_exception "delete_messages").

(** The routes of [create_app]. *)
Inductive Route : Type :=
  | health_route
  | send_message
  | send_file
  | get_messages
  | search_dialogs
  | download_media
  | edit_message
  | delete_messages.

Definition create_app (route : Route) : Request -> M World Response :=
  match route with
  | health_route => handle_health
  | send_message => handle_send_message
  | send_file => handle_send_file
  | get_messages => handle_get_messages
  | search_dialogs => handle_search_dialogs
  | download_media => handle_download_media
  | edit_message => handle_edit_message
  | delete_messages => handle_delete_messages
  end.

(** [me.get(key)] inside an f-string. *)
Definition show_field (me : dict) (key : string) : string :=
  match dict_lookup me key with
  | Some v => py_str v
  | None => "None"
  end.

(** [except (OSError, ValueError)] *)
Definition OSError_or_ValueError (e : Exn) : bool :=
  is_OSError e || is_ValueError e.

(** [run_daemon()], from its first line to the point where the daemon
    listens and sleeps forever.  It returns when the daemon serves; a
    [sys.exit] or an exception that escapes is a raise. *)
Definition run_daemon : M World unit :=
  let config := load_config env in
  set_config config ;;
  (if negb (Config.has_user config) then
     emit (EvLog "ERROR" "User not configured. Run 'tg login' first.") ;;
     sys_exit 1
   else ret tt) ;;
  (* Check for existing daemon *)
  pid_file <- gets w_pid_file ;;
  match pid_file with
  | Some text =>
      try_except
        (old_pid <- py_int (strip text) ;;
         os_kill env old_pid 0 ;;
         emit (EvLog "ERROR"
                 ("Daemon already running (PID " +:+ pretty old_pid +:+ ")")) ;;
         sys_exit 1)
        OSError_or_ValueError
        (fun _ => ret tt)
  | None => ret tt
  end ;;
  (* Write PID *)
  write_pid (pretty (getpid env)) ;;
  (* Connect to Telegram *)
  set_client (UserClient.new config) ;;
  try_except
    (me <- call_client "get_me" (UserClient.get_me env) ;;
     emit (EvLog "INFO"
             ("Connected as " +:+ show_field me "first_name"
              +:+ " (@" +:+ show_field me "username" +:+ ")")))
    is_Exception
    (fun e =>
       emit (EvLog "ERROR" ("Failed to connect: " +:+ exn_str e)) ;;
       unlink_pid ;;
       sys_exit 1) ;;
  (* Start HTTP server *)
  lift_res (site_start env) ;;
  emit (EvListen (Config.host (Config.daemon config))
          (Config.port (Config.daemon config))) ;;
  emit (EvLog "INFO"
          ("Daemon listening on " +:+ Config.host (Config.daemon config)
           +:+ ":" +:+ pretty (Config.port (Config.daemon config)))).

(** [shutdown()], the inner coroutine of [run_daemon]. *)
Definition shutdown : M World unit :=
  emit (EvLog "INFO" "Shutting down...") ;;
  cl <- gets w_client ;;
  match cl with
  | Some _ => call_client "disconnect" (UserClient.disconnect env)
  | None => ret tt
  end ;;
  unlink_pid.

(** [daemon_start()] of [daemon.py] *)
Definition daemon_start : M World unit := run_daemon.

(** [daemon_stop()] of [daemon.py] *)
Definition daemon_stop : M World unit :=
  pid_file <- gets w_pid_file ;;
  match pid_file with
  | None => emit (EvPrint "Daemon not running")
  | Some text =>
      try_except
        (pid <- py_int (strip text) ;;
         os_kill env pid SIGTERM ;;
         emit (EvPrint ("Sent SIGTERM to PID " +:+ pretty pid)))
        OSError_or_ValueError
        (fun e =>
           emit (EvPrint ("Failed to stop daemon: " +:+ exn_str e)) ;;
           unlink_pid)
  end.

End WithEnv.

End Daemon.

(* ===================================================================== *)
(** ** The daemon commands of the command line ([cli.py]) *)
(* ===================================================================== *)

Module Cli.

Section WithEnv.
Context (env : Env).

(** [daemon_request("health", method="GET")]: one probe of the daemon. *)
Definition health_request : M World dict :=
  fun w =>
    (Ok (health env (w_probes w)),
     mkWorld (w_pid_file w) (w_kills w) (S (w_probes w))
       (w_config w) (w_client w) (w_trace w ++ [EvHealthProbe])).

(** [result.get(key, default)] on a dict *)
Definition get_or (d : dict) (key : string) (default : pyval) : pyval :=
  match dict_lookup d key with
  | Some v => v
  | None => default
  end.

Definition is_daemon_running : M World bool :=
  result <- health_request ;;
  ret (truthy (get_or result "ok" (PBool false))).

Definition typer_Exit {A} (code : Z) : M World A :=
  raise (mkExn (TyperExit code) "").

(** [user.get(key)] inside an f-string; [user] is whatever the health
    answer carries under ["user"]. *)
Definition show_user (user : pyval) (key : string) : Res string :=
  match py_get user key PNone with
  | Ok v => Ok (py_str v)
  | Raise e => Raise e
  end.

(** [for _ in range(n): time.sleep(0.5); if is_daemon_running(): ...] of
    [daemon_start]: [true] when the daemon answered within the rounds, and
    the start was reported. *)
Fixpoint wait_for_start (rounds : nat) : M World bool :=
  match rounds with
  | O => ret false
  | S n =>
      emit EvSleep ;;
      up <- is_daemon_running ;;
      if up then
        result <- health_request ;;
        let user := get_or result "user" (PDict []) in
        first_name <- lift_res (show_user user "first_name") ;;
        username <- lift_res (show_user user "username") ;;
        emit (EvPrint ("[green]✓ Daemon started. Connected as " +:+ first_name
                       +:+ " (@" +:+ username +:+ ")[/green]")) ;;
        ret true
      else wait_for_start n
  end.

(** [tg daemon start].  In the foreground the process becomes the daemon:
    [os.execv] starts [daemon.py] anew on the same files.  In the
    background the daemon is another process; this one only probes it. *)
Definition daemon_start (foreground : bool) : M World unit :=
  up <- is_daemon_running ;;
  if up then emit (EvPrint "[green]✓ Daemon is already running[/green]")
  else
    (if negb (Config.has_user (load_config env)) then
       emit (EvPrint "[red]✗ User not configured. Run: tg login[/red]") ;;
       typer_Exit 1
     else ret tt) ;;
    let argv := [python env; "-m"; "mcp_telegram.daemon"; "start"] in
    if foreground then
      emit (EvExec argv) ;;
      modify (fun w => mkWorld (w_pid_file w) (w_kills w) (w_probes w)
                         None None (w_trace w)) ;;
      Daemon.daemon_start env
    else
      emit (EvSpawn argv) ;;
      emit (EvPrint "[yellow]Starting daemon...[/yellow]") ;;
      started <- wait_for_start 20 ;;
      if started then ret tt
      else
        emit (EvPrint
                "[red]✗ Daemon failed to start. Check logs: tg daemon logs[/red]") ;;
        typer_Exit 1.

(** [for _ in range(n): time.sleep(0.5); try: os.kill(pid, 0) except
    OSError: ...] of [daemon_stop]: [true] when the process was seen gone. *)
Fixpoint wait_for_exit (pid : Z) (rounds : nat) : M World bool :=
  match rounds with
  | O => ret false
  | S n =>
      emit EvSleep ;;
      gone <- try_except (os_kill env pid 0 ;; ret false) is_OSError
                (fun _ =>
                   emit (EvPrint "[green]✓ Daemon stopped[/green]") ;;
                   ret true) ;;
      if gone then ret true else wait_for_exit pid n
  end.

(** [tg daemon stop] *)
Definition daemon_stop : M World unit :=
  pid_file <- gets w_pid_file ;;
  match pid_file with
  | None => emit (EvPrint "[yellow]Daemon not running[/yellow]")
  | Some text =>
      try_except
        (pid <- py_int (strip text) ;;
         os_kill env pid SIGTERM ;;
         emit (EvPrint ("[green]✓ Sent SIGTERM to PID " +:+ pretty pid
                        +:+ "[/green]")) ;;
         gone <- wait_for_exit pid 10 ;;
         if gone then ret tt
         else emit (EvPrint "[yellow]Daemon may still be shutting down[/yellow]"))
        Daemon.OSError_or_ValueError
        (fun e =>
           emit (EvPrint ("[red]✗ Failed to stop: " +:+ exn_str e +:+ "[/red]")) ;;
           unlink_pid)
  end.

(** [tg daemon status]: the record is read and the recorded process probed
    with signal 0; only a process that answers is asked for its health. *)
Definition daemon_status : M World unit :=
  pid_file <- gets w_pid_file ;;
  match pid_file with
  | Some text =>
      alive <- try_except
                 (pid <- py_int (strip text) ;;
                  os_kill env pid 0 ;;
                  emit (EvPrint ("[green]✓ Daemon running (PID " +:+ pretty pid
                                 +:+ ")[/green]")) ;;
                  ret true)
                 Daemon.OSError_or_ValueError
                 (fun _ =>
                    emit (EvPrint
                            "[yellow]Daemon not running (stale PID file)[/yellow]") ;;
                    ret false) ;;
      if alive then
        (* Health check *)
        result <- health_request ;;
        if truthy (get_or result "ok" PNone) then
          let user := get_or result "user" (PDict []) in
          first_name <- lift_res (show_user user "first_name") ;;
          username <- lift_res (show_user user "username") ;;
          emit (EvPrint ("Connected as " +:+ first_name
                         +:+ " (@" +:+ username +:+ ")"))
        else
          emit (EvPrint ("[red]Health check failed: "
                         +:+ py_str (get_or result "error" PNone) +:+ "[/red]"))
      else ret tt
  | None => emit (EvPrint "[yellow]Daemon not running[/yellow]")
  end.

(** [tg daemon restart] *)
Definition daemon_restart : M World unit :=
  daemon_stop ;;
  emit EvSleep ;;
  daemon_start false.

End WithEnv.

End Cli.

(* ===================================================================== *)
(** ** The words of the specification *)
(* ===================================================================== *)

(** The requests to the backend among the events of a run. *)
Fixpoint backend_calls (tr : list Event) : list Telethon.Call :=
  match tr with
  | [] => []
  | EvCall c :: r => c :: backend_calls r
  | _ :: r => backend_calls r
  end.

(** How many [TelegramClient]s a run has built. *)
Fixpoint constructions (tr : list Event) : nat :=
  match tr with
  | [] => 0
  | EvConstruct _ _ _ :: r => S (constructions r)
  | _ :: r => constructions r
  end.

(** The real user messages of a stream: neither service events nor empty
    placeholders. *)
Fixpoint real_messages (stream : list Telethon.Msg) : list Telethon.Message :=
  match stream with
  | [] => []
  | Telethon.MsgMessage m :: r => m :: real_messages r
  | _ :: r => real_messages r
  end.

(** The service events and empty placeholders of a stream, counted. *)
Fixpoint pseudo_messages (stream : list Telethon.Msg) : nat :=
  match stream with
  | [] => 0
  | Telethon.MsgMessage _ :: r => pseudo_messages r
  | _ :: r => S (pseudo_messages r)
  end.

(** The display name of [dialog] contains [query], letter case apart: the
    lower-cased name, as [str.lower] of the interpreter gives it, has the
    lower-cased query in it. *)
Definition name_contains (env : Env) (query : string)
    (dialog : Telethon.Dialog) : Prop :=
  exists before after : string,
    str_lower env
      (match Telethon.d_name dialog with Some n => n | None => "" end)
    = before +:+ str_lower env query +:+ after.

(** The dialogs [search_dialogs] keeps: all of them for the empty query. *)
Definition selects (env : Env) (query : string) (dialog : Telethon.Dialog)
    : bool :=
  if nonempty query
  then contains (str_lower env query) (UserClient.name_lower env dialog)
  else true.

(** The fields a POST handler tests before it asks for the client, and the
    error it answers when one of them fails the test. *)
Definition required_fields (route : Daemon.Route) : list string :=
  match route with
  | Daemon.health_route => []
  | Daemon.send_message => ["entity"]
  | Daemon.send_file => ["entity"; "file_path"]
  | Daemon.get_messages => ["entity"]
  | Daemon.search_dialogs => []
  | Daemon.download_media => ["entity"; "message_id"; "save_path"]
  | Daemon.edit_message => ["entity"; "message_id"; "text"]
  | Daemon.delete_messages => ["entity"; "message_ids"]
  end.

Definition required_error (route : Daemon.Route) : string :=
  match route with
  | Daemon.health_route => ""
  | Daemon.send_message => "entity is required"
  | Daemon.send_file => "entity and file_path are required"
  | Daemon.get_messages => "entity is required"
  | Daemon.search_dialogs => ""
  | Daemon.download_media => "entity, message_id, and save_path are required"
  | Daemon.edit_message => "entity, message_id, and text are required"
  | Daemon.delete_messages => "entity and message_ids are required"
  end.

(** A field that is in the body with a value Python takes for true. *)
Definition present (d : dict) (key : string) : bool :=
  match dict_lookup d key with
  | None => false
  | Some v => truthy v
  end.

(** A field that is absent from the body, or there with a value Python
    takes for false: [None], [False], [0], [""], [[]], [{}]. *)
Definition missing (d : dict) (key : string) : Prop := present d key = false.

(** [s] ends with [suffix]. *)
Fixpoint ends_with (suffix s : string) : bool :=
  String.eqb s suffix
  || match s with
     | EmptyString => false
     | String _ r => ends_with suffix r
     end.

(** What [start] finds about an earlier daemon when it reads the Process
    Record and probes the recorded process with signal 0. *)
Inductive Liveness : Type :=
  | NoRecord
  | Stale
  | Alive (pid : Z)
  | ProbeFailed (e : Exn).

Definition liveness (env : Env) (w : World) : Liveness :=
  match w_pid_file w with
  | None => NoRecord
  | Some text =>
      match int_of_str (strip text) with
      | None => Stale
      | Some pid =>
          match kill env (w_kills w) pid 0 with
          | Ok _ => Alive pid
          | Raise e =>
              if Daemon.OSError_or_ValueError e then Stale else ProbeFailed e
          end
      end
  end.

(** The events of that check. *)
Definition liveness_events (w : World) : list Event :=
  match w_pid_file w with
  | None => []
  | Some text =>
      match int_of_str (strip text) with
      | None => []
      | Some pid => [EvKill pid 0]
      end
  end.

(** The first thing [run_daemon] does with the backend: [get_me] on a new
    client of the loaded configuration. *)
Definition first_contact (env : Env) : Res dict * UserClient.St :=
  UserClient.get_me env
    (UserClient.mkSt (UserClient.new (load_config env)) []).

(* ===================================================================== *)
(** ** Concrete surroundings, for the examples *)
(* ===================================================================== *)

Module Examples.

Definition configured : Config.Config :=
  Config.mkConfig (Config.mkUserConfig "12345" "0123abcd" "+15550100")
    (Config.mkDaemonConfig "127.0.0.1" 19876).

Definition ann : Telethon.User :=
  Telethon.mkUser 777 (Some "Ann") None (Some "ann") (Some "15550100").

Definition no_such_process : Exn :=
  mkExn ProcessLookupError "[Errno 3] No such process".

Definition unreachable : Exn :=
  mkExn ConnectionError "Connection to Telegram failed 5 time(s)".

Definition voice_note : Telethon.Message :=
  Telethon.mkMessage 1 None None None
    (Some (Telethon.MessageMediaDocument
             (Some (Telethon.mkDocument
                      [Telethon.DocumentAttributeAudio true;
                       Telethon.DocumentAttributeFilename "v.ogg"])))).

Definition text_message (id : Z) (text : string) : Telethon.Message :=
  Telethon.mkMessage id (Some "2026-01-01T00:00:00+00:00") (Some text)
    (Some 9%Z) None.

(** Three real messages and two service events. *)
Definition history : list Telethon.Msg :=
  [Telethon.MsgMessage (text_message 5 "hi");
   Telethon.MsgService 4;
   Telethon.MsgMessage (text_message 3 "there");
   Telethon.MsgEmpty 2;
   Telethon.MsgMessage voice_note].

Definition dialogs : list Telethon.Dialog :=
  [Telethon.mkDialog 1 (Some "Alice ABC") 0 (Telethon.EUser (Some "al"));
   Telethon.mkDialog 2 (Some "Bob") 3 Telethon.EChat;
   Telethon.mkDialog 3 (Some "abcd news") 0 (Telethon.EChannel true);
   Telethon.mkDialog 4 None 0 Telethon.EOther;
   Telethon.mkDialog 5 (Some "xABCx") 1 (Telethon.EChannel false)].

(** A backend that answers every request; [delete_messages] says it
    removed two messages, whatever was asked. *)
Definition backend_with (connect : Res unit) (me : Res (option Telethon.User))
    : Telethon.Backend :=
  Telethon.mkBackend connect (Ok tt) (Ok true) me
    (fun _ _ _ => Ok (Telethon.mkSent 10 (Some 5%Z)))
    (fun _ _ _ _ => Ok (Telethon.mkSent 11 (Some 5%Z)))
    (fun _ _ => (history, None))
    (fun _ => (dialogs, None))
    (fun _ _ => Ok None)
    (fun _ _ => Ok None)
    (fun _ _ _ => Ok tt)
    (fun _ _ => Ok 2%Z).

Definition env_with (config : Config.Config) (kill : Res unit)
    (backend : Telethon.Backend) (site_start : Res unit) : Env :=
  mkEnv config "/home/ann/.mcp-telegram"
    (fun p => String.eqb p "/tmp/a.txt") 4242
    (fun _ _ _ => kill) backend site_start
    (fun _ => Daemon.error_body "Daemon not running. Start with: tg daemon start")
    "/usr/bin/python3" ascii_lower.

(** Configured, authorized, no daemon alive. *)
Definition env_ok : Env :=
  env_with configured (Raise no_such_process)
    (backend_with (Ok tt) (Ok (Some ann))) (Ok tt).

(** The session is not authorized: the backend knows no current user. *)
Definition env_unauthorized : Env :=
  env_with configured (Raise no_such_process)
    (backend_with (Ok tt) (Ok None)) (Ok tt).

(** The backend cannot be reached. *)
Definition env_unreachable : Env :=
  env_with configured (Raise no_such_process)
    (backend_with (Raise unreachable) (Ok (Some ann))) (Ok tt).

(** The recorded daemon answers signal 0. *)
Definition env_alive : Env :=
  env_with configured (Ok tt) (backend_with (Ok tt) (Ok (Some ann))) (Ok tt).

(** The recorded daemon is alive and the configuration has lost its
    credentials since it started. *)
Definition env_alive_unconfigured : Env :=
  env_with Config.default (Ok tt) (backend_with (Ok tt) (Ok (Some ann))) (Ok tt).

(** A [UserClient] just built, before its first use. *)
Definition new_client : UserClient.St :=
  UserClient.mkSt (UserClient.new configured) [].

Definition post (d : dict) : Daemon.Request := Daemon.mkRequest (Ok (PDict d)).

End Examples.

(* ===================================================================== *)
(** ** The bot client ([bot/client.py]) *)
(* ===================================================================== *)

(** [config.bot]: the section of the configuration the bot client reads. *)
Module BotConfig.

Record BotConfig : Type := mkBotConfig {
  token : string;
  chat_id : string
}.

Definition is_configured (c : BotConfig) : bool := nonempty (token c).

End BotConfig.

Module BotClient.

(** What the client sends over HTTP: a POST to the Bot API, with its data
    as JSON or, with [upload] (the form field and the path of the open
    file), as a form; or the GET of a file to download. *)
Inductive Http : Type :=
  | Post (url : string) (data : pyval) (upload : option (string * string))
  | Get (url : string).

(** What surrounds the client.  [post] is [response.json()] of a POST, or
    what [httpx] raised; [get] is the GET of a file with its
    [raise_for_status()]; [save] writes the content under a path and gives
    the resolved path. *)
Record Api : Type := mkApi {
  post : string -> pyval -> option (string * string) -> Res pyval;
  get : string -> Res unit;
  path_exists : string -> bool;
  open_rb : string -> Res unit;
  save : string -> Res string
}.

Definition BOT_API_BASE : string := "https://api.telegram.org/bot".

(** The requests sent so far. *)
Definition St : Type := list Http.

Definition emit (h : Http) : M St unit := modify (fun tr => tr ++ [h]).

(** [a or b] *)
Definition py_or (a b : pyval) : pyval := if truthy a then a else b.

(** [for x in v]: the items a loop over [v] sees. *)
Definition py_iter (v : pyval) : Res (list pyval) :=
  match v with
  | PList l => Ok l
  | PDict d => Ok (map (fun kv => PStr (fst kv)) d)
  | PStr s => Ok (map (fun a => PStr (String a "")) (list_ascii_of_string s))
  | _ => Raise (mkExn TypeError
                  ("'" +:+ type_name v +:+ "' object is not iterable"))
  end.

(** [key in d] for a dict. *)
Definition has_key (d : dict) (key : string) : bool :=
  match dict_lookup d key with
  | Some _ => true
  | None => false
  end.

Section Methods.
Context (api : Api) (config : BotConfig.BotConfig).

(** The [token] property. *)
Definition token : M St string :=
  if negb (nonempty (BotConfig.token config))
  then raise (mkExn RuntimeError "Bot not configured. Run 'tg login' first.")
  else ret (BotConfig.token config).

(** The [default_chat_id] property. *)
Definition default_chat_id : string := BotConfig.chat_id config.

(** The [api_url] property. *)
Definition api_url : M St string :=
  t <- token ;;
  ret (BOT_API_BASE +:+ t).

(** [_request(method, data, files)] *)
Definition _request (method : string) (data : pyval)
    (files : option (string * string)) : M St pyval :=
  base <- api_url ;;
  let url := base +:+ "/" +:+ method in
  emit (Post url data files) ;;
  result <- lift_res (post api url data files) ;;
  ok <- lift_res (py_get result "ok" PNone) ;;
  if negb (truthy ok) then
    error <- lift_res (py_get result "description" (PStr "Unknown error")) ;;
    raise (mkExn RuntimeError ("Bot API error: " +:+ py_str error))
  else lift_res (py_get result "result" (PDict [])).

(** [get_me()] *)
Definition get_me : M St pyval := _request "getMe" PNone None.

(** [send_message(text, chat_id, parse_mode)] *)
Definition send_message (text chat_id parse_mode : pyval) : M St pyval :=
  _request "sendMessage"
    (PDict [("chat_id", py_or chat_id (PStr default_chat_id));
            ("text", text);
            ("parse_mode", parse_mode)])
    None.

(** The body [send_document], [send_photo] and [send_voice] share: the
    path is looked at, the file opened, and the request sent with the file
    under the form field [field]. *)
Definition send_upload (method field : string)
    (file_path caption chat_id : pyval) : M St pyval :=
  path <- lift_res (py_Path file_path) ;;
  if negb (path_exists api path)
  then raise (mkExn FileNotFoundError ("File not found: " +:+ py_str file_path))
  else
    lift_res (open_rb api path) ;;
    _request method
      (PDict [("chat_id", py_or chat_id (PStr default_chat_id));
              ("caption", caption)])
      (Some (field, path)).

(** [send_document(file_path, caption, chat_id)] *)
Definition send_document : pyval -> pyval -> pyval -> M St pyval :=
  send_upload "sendDocument" "document".

(** [send_photo(file_path, caption, chat_id)] *)
Definition send_photo : pyval -> pyval -> pyval -> M St pyval :=
  send_upload "sendPhoto" "photo".

(** [send_voice(file_path, caption, chat_id)] *)
Definition send_voice : pyval -> pyval -> pyval -> M St pyval :=
  send_upload "sendVoice" "voice".

(** [get_updates(offset, limit, timeout)] *)
Definition get_updates (offset limit timeout : pyval) : M St pyval :=
  let data := [("limit", limit); ("timeout", timeout)] in
  let data := if truthy offset then dict_set data "offset" offset else data in
  _request "getUpdates" (PDict data) None.

(** The entry [get_messages] appends for an update and its message. *)
Definition message_entry (update : pyval) (msg : dict) : Res dict :=
  match py_get update "update_id" PNone with
  | Raise e => Raise e
  | Ok update_id =>
      Ok [("update_id", update_id);
          ("message_id", Cli.get_or msg "message_id" PNone);
          ("date", Cli.get_or msg "date" PNone);
          ("text", Cli.get_or msg "text" (PStr ""));
          ("from", Cli.get_or msg "from" (PDict []));
          ("chat", Cli.get_or msg "chat" (PDict []));
          ("has_photo", PBool (has_key msg "photo"));
          ("has_document", PBool (has_key msg "document"));
          ("has_voice", PBool (has_key msg "voice"))]
  end.

(** The body of [for update in updates] of [get_messages]. *)
Fixpoint get_messages_loop (updates : list pyval) (messages : list dict)
    : Res (list dict) :=
  match updates with
  | [] => Ok messages
  | update :: rest =>
      match py_get update "message" (PDict []) with
      | Raise e => Raise e
      | Ok msg =>
          if truthy msg then
            match msg with
            | PDict m =>
                match message_entry update m with
                | Raise e => Raise e
                | Ok entry => get_messages_loop rest (messages ++ [entry])
                end
            | _ => Raise (no_attribute msg "get")
            end
          else get_messages_loop rest messages
      end
  end.

(** [get_messages(limit)] *)
Definition get_messages (limit : pyval) : M St (list dict) :=
  updates <- get_updates PNone limit (PInt 0) ;;
  items <- lift_res (py_iter updates) ;;
  lift_res (get_messages_loop items []).

(** [download_file(file_id, save_path)] *)
Definition download_file (file_id save_path : pyval) : M St dict :=
  file_info <- _request "getFile" (PDict [("file_id", file_id)]) None ;;
  file_path <- lift_res (py_get file_info "file_path" PNone) ;;
  if negb (truthy file_path)
  then raise (mkExn ValueError "Could not get file path")
  else
    t <- token ;;
    let download_url :=
      "https://api.telegram.org/file/bot" +:+ t +:+ "/" +:+ py_str file_path in
    emit (Get download_url) ;;
    lift_res (get api download_url) ;;
    path <- lift_res (py_Path save_path) ;;
    resolved <- lift_res (save api path) ;;
    ret [("path", PStr resolved)].

End Methods.

End BotClient.

(* ===================================================================== *)
(** ** The MCP server ([server.py]) *)
(* ===================================================================== *)

Module Server.

(** [check_daemon()]: [answer] is what [daemon_request("health")] gives,
    the JSON of the daemon or what [httpx] raised.  The second part of the
    result is the text to show; on a failure the daemon reported it is
    whatever the answer carries under ["error"]. *)
Definition check_daemon (answer : Res pyval) : Res (bool * pyval) :=
  let body : Res (bool * pyval) :=
    match answer with
    | Raise e => Raise e
    | Ok result =>
        match py_get result "ok" PNone with
        | Raise e => Raise e
        | Ok ok =>
            if truthy ok then
              match py_get result "user" (PDict []) with
              | Raise e => Raise e
              | Ok user =>
                  match Cli.show_user user "first_name" with
                  | Raise e => Raise e
                  | Ok first_name =>
                      match Cli.show_user user "username" with
                      | Raise e => Raise e
                      | Ok username =>
                          Ok (true,
                              PStr ("Connected as " +:+ first_name
                                    +:+ " (@" +:+ username +:+ ")"))
                      end
                  end
              end
            else
              match py_get result "error" (PStr "Unknown error") with
              | Raise e => Raise e
              | Ok error => Ok (false, error)
              end
        end
    end in
  match body with
  | Raise e =>
      if is_Exception e
      then Ok (false, PStr ("Daemon not running: " +:+ exn_str e))
      else Raise e
  | Ok r => Ok r
  end.

End Server.


(* ===================================================================== *)
(** ** One client, one connection: the words for it *)
(* ===================================================================== *)

(** Whether a [UserClient] object holds its Telegram client: 1 or 0. *)
Definition built (o : UserClient.obj) : nat :=
  match UserClient._client o with
  | Some _ => 1
  | None => 0
  end.

(** The same for the global [_client] of the daemon. *)
Definition w_built (w : World) : nat :=
  match w_client w with
  | Some o => built o
  | None => 0
  end.

(** An event that is not the building of a Telegram client. *)
Definition builds_nothing (e : Event) : bool :=
  match e with
  | EvConstruct _ _ _ => false
  | _ => true
  end.

(** A property of a client and its events that the life of the client
    keeps: it survives an event among the [allowed] ones, the building of
    the client by an object that holds none, and a change of the client an
    object holds. *)
Class ClientInvariant (allowed : Event -> bool) (I : UserClient.St -> Prop)
    : Prop := {
  inv_event : forall o tr e,
    allowed e = true ->
    I (UserClient.mkSt o tr) -> I (UserClient.mkSt o (tr ++ [e]));
  inv_build : forall cfg tr session id api_hash c,
    I (UserClient.mkSt (UserClient.mkObj cfg None) tr) ->
    I (UserClient.mkSt (UserClient.mkObj cfg (Some c))
         (tr ++ [EvConstruct session id api_hash]));
  inv_change : forall cfg tr c c',
    I (UserClient.mkSt (UserClient.mkObj cfg (Some c)) tr) ->
    I (UserClient.mkSt (UserClient.mkObj cfg (Some c')) tr)
}.

(** A computation keeps a property of the state, whatever it returns. *)
Definition preserves {S A} (I : S -> Prop) (m : M S A) : Prop :=
  forall s, I s -> I (snd (m s)).

(** A computation that starts with [P] ends with [Q], whatever it returns. *)
Definition leads {S A} (P Q : S -> Prop) (m : M S A) : Prop :=
  forall s, P s -> Q (snd (m s)).

(** The clients an object has had built, against the one it holds: the
    difference between the two is fixed by [n] and [m]. *)
Definition built_balance (n m : nat) (s : UserClient.St) : Prop :=
  constructions (UserClient.trace s) + m = n + built (UserClient.self s).

(** The object holds its client. *)
Definition holds_client (s : UserClient.St) : Prop :=
  built (UserClient.self s) = 1.

(** A method builds the Telegram client at most once: it builds one only
    for an object that holds none, and the object holds it afterwards. *)
Definition builds_once {A} (m : M UserClient.St A) : Prop :=
  forall s,
    built (UserClient.self s) <= built (UserClient.self (snd (m s)))
    /\ constructions (UserClient.trace (snd (m s))) + built (UserClient.self s)
       = constructions (UserClient.trace s) + built (UserClient.self (snd (m s))).

(** A property of a client and its events, read on the daemon: on its
    global client, or on any new client when it has none yet. *)
Definition on_daemon (I : UserClient.St -> Prop) (w : World) : Prop :=
  match w_client w with
  | Some o => I (UserClient.mkSt o (w_trace w))
  | None => forall cfg, I (UserClient.mkSt (UserClient.new cfg) (w_trace w))
  end.

(** The handlers of a list of requests, run one after the other on the
    state of the daemon; no two of them overlap. *)
Fixpoint serve (env : Env) (requests : list (Daemon.Route * Daemon.Request))
    (w : World) : World :=
  match requests with
  | [] => w
  | (route, request) :: rest =>
      serve env rest (snd (Daemon.create_app env route request w))
  end.

(** The requests that are an operation on the account: every one but
    those about the connection and the authorization themselves. *)
Definition is_operation (c : Telethon.Call) : bool :=
  match c with
  | Telethon.CConnect | Telethon.CDisconnect | Telethon.CIsUserAuthorized => false
  | _ => true
  end.

Definition operations (tr : list Event) : list Telethon.Call :=
  List.filter is_operation (backend_calls tr).

(** An event that is no operation on the account. *)
Definition no_operation (e : Event) : bool :=
  match e with
  | EvCall c => negb (is_operation c)
  | _ => true
  end.

(** The operations requested so far are [ops]. *)
Definition operations_are (ops : list Telethon.Call) (s : UserClient.St) : Prop :=
  operations (UserClient.trace s) = ops.

(** An event that neither builds a client nor is an operation. *)
Definition quiet (e : Event) : bool := builds_nothing e && no_operation e.

(** The value a computation returns, when it returns one, has [P]. *)
Definition yields {S A} (m : M S A) (P : A -> Prop) : Prop :=
  forall s a s', m s = (Ok a, s') -> P a.

(** The envelope of a response: status 200 with ["ok": true], or status
    400 or 500 with ["ok": false] and an error text. *)
Definition envelope (r : Daemon.Response) : Prop :=
  (Daemon.status r = 200%Z
   /\ dict_lookup (Daemon.body r) "ok" = Some (PBool true))
  \/ ((Daemon.status r = 400%Z \/ Daemon.status r = 500%Z)
      /\ dict_lookup (Daemon.body r) "ok" = Some (PBool false)
      /\ exists error, dict_lookup (Daemon.body r) "error" = Some (PStr error)).

(** Surroundings in which the session file is there and the backend says
    that it is not authorized. *)
Definition backend_logged_out : Telethon.Backend :=
  Telethon.mkBackend (Ok tt) (Ok tt) (Ok false) (Ok None)
    (fun _ _ _ => Ok (Telethon.mkSent 10 (Some 5%Z)))
    (fun _ _ _ _ => Ok (Telethon.mkSent 11 (Some 5%Z)))
    (fun _ _ => (Examples.history, None))
    (fun _ => (Examples.dialogs, None))
    (fun _ _ => Ok None)
    (fun _ _ => Ok None)
    (fun _ _ _ => Ok tt)
    (fun _ _ => Ok 2%Z).

Definition env_logged_out : Env :=
  Examples.env_with Examples.configured (Raise Examples.no_such_process)
    backend_logged_out (Ok tt).

(** The [voice] flag of the last audio attribute of a document, if it has
    one. *)
Fixpoint last_audio (attributes : list Telethon.DocumentAttribute)
    : option bool :=
  match attributes with
  | [] => None
  | attr :: rest =>
      match last_audio rest with
      | Some voice => Some voice
      | None =>
          match attr with
          | Telethon.DocumentAttributeAudio voice => Some voice
          | _ => None
          end
      end
  end.

(** The name in the last file name attribute of a document, if it has one. *)
Fixpoint last_file_name (attributes : list Telethon.DocumentAttribute)
    : option string :=
  match attributes with
  | [] => None
  | attr :: rest =>
      match last_file_name rest with
      | Some name => Some name
      | None =>
          match attr with
          | Telethon.DocumentAttributeFilename name => Some name
          | _ => None
          end
      end
  end.

(** The kind of media a message entry names. *)
Definition media_kind (media : Telethon.MessageMedia) : string :=
  match media with
  | Telethon.MessageMediaPhoto => "photo"
  | Telethon.MessageMediaDocument None => "document"
  | Telethon.MessageMediaDocument (Some document) =>
      match last_audio (Telethon.attributes document) with
      | Some true => "voice"
      | Some false => "audio"
      | None => "document"
      end
  | Telethon.MessageMediaOther => "other"
  end.

(** The file name a message entry carries. *)
Definition media_file_name (media : Telethon.MessageMedia) : option string :=
  match media with
  | Telethon.MessageMediaDocument (Some document) =>
      last_file_name (Telethon.attributes document)
  | _ => None
  end.

(** The five fields every message entry starts with. *)
Definition message_fields (msg : Telethon.Message) : dict :=
  [("id", PInt (Telethon.m_id msg));
   ("date", opt_str (Telethon.m_date msg));
   ("text", PStr (match Telethon.m_text msg with Some t => t | None => "" end));
   ("from_id", opt_int (Telethon.m_sender_id msg));
   ("has_media", PBool (match Telethon.m_media msg with
                        | Some _ => true
                        | None => false
                        end))].

(** The world a handler leaves when it has asked the backend one thing. *)
Definition asked (w : World) (c : Telethon.Call) : World :=
  mkWorld (w_pid_file w) (w_kills w) (w_probes w) (w_config w) (w_client w)
    (w_trace w ++ [EvCall c]).

(** The downloads a run has asked the backend for. *)
Fixpoint downloads (tr : list Event) : nat :=
  match tr with
  | [] => 0
  | EvCall (Telethon.CDownloadMedia _) :: r => S (downloads r)
  | _ :: r => downloads r
  end.

Definition no_download (e : Event) : bool :=
  match e with
  | EvCall (Telethon.CDownloadMedia _) => false
  | _ => true
  end.

Definition downloads_are (n : nat) (s : UserClient.St) : Prop :=
  downloads (UserClient.trace s) = n.

(** The events of [n] rounds of waiting for a process to go: a sleep and a
    probe with signal 0 each. *)
Fixpoint exit_polls (pid : Z) (n : nat) : list Event :=
  match n with
  | O => []
  | S k => EvSleep :: EvKill pid 0 :: exit_polls pid k
  end.

(** The events of [n] rounds of waiting for a daemon to answer: a sleep and
    a health probe each. *)
Fixpoint start_polls (n : nat) : list Event :=
  match n with
  | O => []
  | S k => EvSleep :: EvHealthProbe :: start_polls k
  end.

(** What the command line starts as the daemon. *)
Definition daemon_argv (env : Env) : list string :=
  [python env; "-m"; "mcp_telegram.daemon"; "start"].

(** Surroundings in which the port of the daemon is taken. *)
Definition address_in_use : Exn :=
  mkExn OSError "[Errno 98] address already in use".

Definition env_port_taken : Env :=
  Examples.env_with Examples.configured (Raise Examples.no_such_process)
    (Examples.backend_with (Ok tt) (Ok (Some Examples.ann)))
    (Raise address_in_use).

(** Surroundings in which the recorded process takes the signals and goes
    after the third probe; no daemon answers the health probes. *)
Definition env_stopping : Env :=
  mkEnv Examples.configured "/home/ann/.mcp-telegram"
    (fun p => String.eqb p "/tmp/a.txt") 4242
    (fun n _ _ => if (n <? 3)%nat then Ok tt else Raise Examples.no_such_process)
    (Examples.backend_with (Ok tt) (Ok (Some Examples.ann))) (Ok tt)
    (fun _ => Daemon.error_body "Daemon not running. Start with: tg daemon start")
    "/usr/bin/python3" ascii_lower.

(** A call on the bot client that raises and has sent nothing. *)
Definition sends_nothing {A} (m : M BotClient.St A) : Prop :=
  forall s, snd (m s) = s /\ exists e, fst (m s) = Raise e.

(** The message of an update, when it has one that Python takes for
    true. *)
Definition message_of (update : dict) : option dict :=
  match dict_lookup update "message" with
  | Some (PDict (kv :: m)) => Some (kv :: m)
  | _ => None
  end.

(** An update whose ["message"], when it is there and true for Python, is
    a mapping. *)
Definition message_is_mapping (update : dict) : Prop :=
  forall v, dict_lookup update "message" = Some v -> truthy v = true ->
            exists m, v = PDict m.

(** The entry of the result for one update with its message. *)
Definition bot_entry (update msg : dict) : dict :=
  [("update_id", Cli.get_or update "update_id" PNone);
   ("message_id", Cli.get_or msg "message_id" PNone);
   ("date", Cli.get_or msg "date" PNone);
   ("text", Cli.get_or msg "text" (PStr ""));
   ("from", Cli.get_or msg "from" (PDict []));
   ("chat", Cli.get_or msg "chat" (PDict []));
   ("has_photo", PBool (BotClient.has_key msg "photo"));
   ("has_document", PBool (BotClient.has_key msg "document"));
   ("has_voice", PBool (BotClient.has_key msg "voice"))].

(** The entries of the updates that carry a message, in order. *)
Fixpoint bot_entries (updates : list dict) : list dict :=
  match updates with
  | [] => []
  | update :: rest =>
      match message_of update with
      | Some msg => bot_entry update msg :: bot_entries rest
      | None => bot_entries rest
      end
  end.

(** The URL of a method of the Bot API for a configuration. *)
Definition method_url (config : BotConfig.BotConfig) (method : string) : string :=
  (BotClient.BOT_API_BASE +:+ BotConfig.token config) +:+ "/" +:+ method.

(** A bot with a token, and an API that answers every request with two
    updates, one of them a message with a photo. *)
Definition bot_configured : BotConfig.BotConfig :=
  BotConfig.mkBotConfig "123:abc" "42".

Definition two_updates : list dict :=
  [[("update_id", PInt 7);
    ("message", PDict [("message_id", PInt 70); ("text", PStr "hi");
                       ("photo", PList [])])];
   [("update_id", PInt 8); ("edited_message", PDict [("message_id", PInt 70)])]].

Definition api_answering : BotClient.Api :=
  BotClient.mkApi
    (fun _ _ _ => Ok (PDict [("ok", PBool true);
                             ("result", PList (map PDict two_updates))]))
    (fun _ => Ok tt)
    (fun p => String.eqb p "/tmp/a.txt")
    (fun _ => Ok tt)
    (fun p => Ok p).

(** Surroundings in which a daemon answers the health probes. *)
Definition env_healthy : Env :=
  mkEnv Examples.configured "/home/ann/.mcp-telegram"
    (fun p => String.eqb p "/tmp/a.txt") 4242
    (fun _ _ _ => Ok tt)
    (Examples.backend_with (Ok tt) (Ok (Some Examples.ann))) (Ok tt)
    (fun _ => [("ok", PBool true); ("status", PStr "connected");
               ("user", PDict [("first_name", PStr "Ann");
                               ("username", PStr "ann")])])
    "/usr/bin/python3" ascii_lower.

(** A body that is not JSON. *)
Definition not_json : Daemon.Request :=
  Daemon.mkRequest
    (Raise (mkExn JSONDecodeError "Expecting value: line 1 column 1 (char 0)")).

(** The name under which a handler logs an exception. *)
Definition handler_name (route : Daemon.Route) : string :=
  match route with
  | Daemon.health_route => "health"
  | Daemon.send_message => "send_message"
  | Daemon.send_file => "send_file"
  | Daemon.get_messages => "get_messages"
  | Daemon.search_dialogs => "search_dialogs"
  | Daemon.download_media => "download_media"
  | Daemon.edit_message => "edit_message"
  | Daemon.delete_messages => "delete_messages"
  end.

(** The exception the first lines of a POST handler raise on a body that
    is no JSON object: what [request.json()] raised, or the
    [AttributeError] of [data.get] on a value that is not a dict.  A JSON
    object gives none. *)
Definition body_error (request : Daemon.Request) : option Exn :=
  match Daemon.json request with
  | Ok (PDict _) => None
  | Ok data => Some (no_attribute data "get")
  | Raise e => Some e
  end.

(** The world a handler leaves when it has logged an exception and done
    nothing else. *)
Definition logged_error (w : World) (route : Daemon.Route) : World :=
  mkWorld (w_pid_file w) (w_kills w) (w_probes w) (w_config w) (w_client w)
    (w_trace w ++ [EvLog "ERROR" ("Error in " +:+ handler_name route)]).

(** A daemon that serves: its configuration is loaded and its client
    holds a Telegram client whose transport is up. *)
Definition serving (w : World) : Prop :=
  exists config o c,
    w_config w = Some config
    /\ w_client w = Some o
    /\ UserClient._client o = Some c
    /\ Telethon.is_connected c = true.

(** The world a handler leaves when it has asked the backend two things. *)
Definition asked_twice (w : World) (c1 c2 : Telethon.Call) : World :=
  mkWorld (w_pid_file w) (w_kills w) (w_probes w) (w_config w) (w_client w)
    (w_trace w ++ [EvCall c1; EvCall c2]).

(* ===================================================================== *)
(** ** The user client: what its methods return *)
(* ===================================================================== *)

Section UserClientFacts.
Context (env : Env).

Lemma client_cached (s : UserClient.St) (c : Telethon.TelegramClient) :
  UserClient._client (UserClient.self s) = Some c ->
  UserClient.client env s = (Ok c, s).
Proof.
  intros H. unfold UserClient.client, bind, gets. rewrite H. reflexivity.
Qed.

(** The [client] property either raises and changes nothing, or returns
    the client the object holds from then on. *)
Lemma client_returns (s s1 : UserClient.St) (c : Telethon.TelegramClient) :
  UserClient.client env s = (Ok c, s1) ->
  UserClient._client (UserClient.self s1) = Some c.
Proof.
  unfold UserClient.client, bind, gets, UserClient.emit, UserClient.set_client,
    modify, ret, raise, py_int.
  destruct (UserClient._client (UserClient.self s)) eqn:E.
  - intros [= <- <-]. exact E.
  - destruct (negb _); [discriminate|].
    destruct (int_of_str _); simpl; [|discriminate].
    intros [= <- <-]. reflexivity.
Qed.

(** A request on an object that holds its client: recorded, then answered. *)
Lemma request_cached {A} (s : UserClient.St) (c : Telethon.TelegramClient)
    (call : Telethon.Call) (answer : Res A) :
  UserClient._client (UserClient.self s) = Some c ->
  UserClient.request env call answer s
  = (answer, UserClient.mkSt (UserClient.self s)
               (UserClient.trace s ++ [EvCall call])).
Proof.
  intros H. unfold UserClient.request, bind.
  rewrite (client_cached s c H). reflexivity.
Qed.

(** When [connect] returns, the object holds a client whose transport is
    up. *)
Lemma connect_ok (s : UserClient.St) :
  fst (UserClient.connect env s) = Ok tt ->
  exists c, UserClient._client (UserClient.self (snd (UserClient.connect env s)))
            = Some c
            /\ Telethon.is_connected c = true.
Proof.
  unfold UserClient.connect, UserClient.set_connected, bind.
  destruct (UserClient.client env s) as [[c|e] s1] eqn:Hc; simpl; [|discriminate].
  pose proof (client_returns _ _ _ Hc) as H1.
  destruct (Telethon.is_connected c) eqn:Hconn; simpl.
  - intros _. exists c. auto.
  - rewrite (request_cached s1 c _ _ H1).
    destruct (Telethon.connect (backend env)); simpl; [|discriminate].
    intros _. erewrite client_cached by (simpl; exact H1).
    simpl. eexists. split; reflexivity.
Qed.

(** What follows [await self.connect()] runs on the state it leaves. *)
Lemma after_connect {A} (k : M UserClient.St A) (s : UserClient.St) :
  fst (UserClient.connect env s) = Ok tt ->
  (UserClient.connect env ;; k) s = k (snd (UserClient.connect env s)).
Proof.
  unfold bind. destruct (UserClient.connect env s) as [[[]|e] s1]; simpl.
  - reflexivity.
  - discriminate.
Qed.

(** C10: when the transport is up (or comes up) and the backend reports no
    current user, as it does for a session that is not authorized, [get_me]
    returns the empty mapping; it does not raise. *)
Theorem get_me_without_user_is_empty (s : UserClient.St) :
  fst (UserClient.connect env s) = Ok tt ->
  Telethon.get_me (backend env) = Ok None ->
  fst (UserClient.get_me env s) = Ok [].
Proof.
  intros Hconn Hme. unfold UserClient.get_me.
  rewrite (after_connect _ s Hconn).
  destruct (connect_ok s Hconn) as (c & Hc & _).
  unfold bind. rewrite (request_cached _ c _ _ Hc), Hme. reflexivity.
Qed.

(** C8: when the backend answers the delete request at all, [delete_messages]
    reports as many deleted messages as identifiers were asked for; the count
    [removed] the backend gives is not looked at. *)
Theorem delete_messages_reports_requested (s : UserClient.St)
    (entity : pyval) (message_ids : list pyval) (removed : Z) :
  fst (UserClient.connect env s) = Ok tt ->
  Telethon.delete_messages (backend env) entity (PList message_ids) = Ok removed ->
  fst (UserClient.delete_messages env entity (PList message_ids) s)
  = Ok [("deleted", PInt (Z.of_nat (length message_ids)))].
Proof.
  intros Hconn Hdel. unfold UserClient.delete_messages.
  rewrite (after_connect _ s Hconn).
  destruct (connect_ok s Hconn) as (c & Hc & _).
  unfold bind. rewrite (request_cached _ c _ _ Hc), Hdel. reflexivity.
Qed.

(** The loop of [get_messages] appends the entries of the real messages, in
    the order of the stream. *)
Lemma get_messages_loop_real (stream : list Telethon.Msg) (messages : list dict) :
  UserClient.get_messages_loop stream messages
  = messages ++ map UserClient.msg_data (real_messages stream).
Proof.
  revert messages.
  induction stream as [|[m|id|id] rest IH]; intros messages; simpl.
  - symmetry. apply app_nil_r.
  - rewrite IH, <- app_assoc. reflexivity.
  - apply IH.
  - apply IH.
Qed.

Lemma real_and_pseudo (stream : list Telethon.Msg) :
  length (real_messages stream) + pseudo_messages stream = length stream.
Proof.
  induction stream as [|[m|id|id] rest IH]; simpl; lia.
Qed.

(** C7: for every stream the backend yields, [get_messages] returns the
    entries of exactly its real messages, in order: as many entries as the
    stream has items that are neither service events nor empty placeholders
    (three for a stream of three real messages and two service events). *)
Theorem get_messages_only_real (s : UserClient.St) (entity limit : pyval)
    (stream : list Telethon.Msg) :
  fst (UserClient.connect env s) = Ok tt ->
  Telethon.iter_messages (backend env) entity limit = (stream, None) ->
  exists result,
    fst (UserClient.get_messages env entity limit s) = Ok result
    /\ result = map UserClient.msg_data (real_messages stream)
    /\ length result + pseudo_messages stream = length stream.
Proof.
  intros Hconn Hstream. unfold UserClient.get_messages.
  rewrite (after_connect _ s Hconn).
  destruct (connect_ok s Hconn) as (c & Hc & _).
  unfold bind. rewrite (client_cached _ c Hc). simpl.
  rewrite Hstream. simpl. rewrite get_messages_loop_real. simpl.
  eexists. split; [reflexivity|]. split; [reflexivity|].
  rewrite length_map. apply real_and_pseudo.
Qed.

End UserClientFacts.

(* ===================================================================== *)
(** ** Searching dialogs *)
(* ===================================================================== *)

Lemma prefix_spec (p s : string) :
  String.prefix p s = true <-> exists rest, s = p +:+ rest.
Proof.
  revert s. induction p as [|a p IH]; intros s.
  - destruct s; simpl; split; eauto.
  - destruct s as [|b s]; simpl.
    + split; [discriminate | intros [rest H]; discriminate].
    + destruct (Ascii.ascii_dec a b) as [Hab|Hab].
      * subst b. rewrite IH. split; intros [rest H]; exists rest.
        -- now rewrite H.
        -- now injection H.
      * split; [discriminate|]. intros [rest H]. injection H as H1 H2. congruence.
Qed.

Lemma contains_spec (needle hay : string) :
  contains needle hay = true
  <-> exists before after, hay = before +:+ needle +:+ after.
Proof.
  induction hay as [|a hay IH].
  - cbn [contains]. rewrite orb_false_r, prefix_spec. split.
    + intros [rest H]. exists "", rest. exact H.
    + intros (before & after & H). exists after.
      destruct before; [exact H | discriminate].
  - cbn [contains]. rewrite orb_true_iff, prefix_spec, IH. split.
    + intros [[rest H] | (before & after & H)].
      * exists "", rest. exact H.
      * exists (String a before), after. simpl. now rewrite H.
    + intros (before & after & H). destruct before as [|b before].
      * left. exists after. exact H.
      * right. injection H as _ H. exists before, after. exact H.
Qed.

Lemma nonempty_iff (s : string) : nonempty s = true <-> s <> "".
Proof.
  destruct s; simpl; split; intros H; try discriminate; try reflexivity.
  now elim H.
Qed.

Lemma selects_name_contains (env : Env) (query : string) (dialog : Telethon.Dialog) :
  query <> "" -> selects env query dialog = true -> name_contains env query dialog.
Proof.
  intros Hq. unfold selects. rewrite (proj2 (nonempty_iff query) Hq).
  intros H. apply contains_spec in H. exact H.
Qed.

(** One round of the loop of [search_dialogs] on a string and an integer:
    a dialog that is not selected is passed over; a selected one is
    appended, and the loop ends when the list has [limit] entries. *)
Lemma search_dialogs_loop_step (env : Env) (query : string) (limit : Z)
    (dialog : Telethon.Dialog) (rest : list Telethon.Dialog)
    (stop : option Exn) (dialogs : list dict) :
  UserClient.search_dialogs_loop env (PStr query) (PInt limit) (dialog :: rest)
    stop dialogs
  = if selects env query dialog then
      if (limit <=? Z.of_nat (length (dialogs ++ [UserClient.dialog_data dialog])))%Z
      then Ok (dialogs ++ [UserClient.dialog_data dialog])
      else UserClient.search_dialogs_loop env (PStr query) (PInt limit) rest stop
             (dialogs ++ [UserClient.dialog_data dialog])
    else UserClient.search_dialogs_loop env (PStr query) (PInt limit) rest stop
           dialogs.
Proof.
  cbn [UserClient.search_dialogs_loop py_int_ge py_lower].
  unfold selects. cbn [truthy].
  destruct (nonempty query).
  - destruct (contains (str_lower env query) (UserClient.name_lower env dialog));
      cbn [negb]; [|reflexivity].
    destruct (limit <=? _)%Z; reflexivity.
  - destruct (limit <=? _)%Z; reflexivity.
Qed.

(** The loop of [search_dialogs] on a string and a positive limit, with
    room left in the list: it takes the selected dialogs in order until the
    list has [limit] entries, and sees the end of the stream only when
    fewer were selected. *)
Lemma search_dialogs_loop_spec (env : Env) (query : string) (limit : Z)
    (stream : list Telethon.Dialog) (stop : option Exn) :
  forall dialogs : list dict,
    length dialogs < Z.to_nat limit ->
    UserClient.search_dialogs_loop env (PStr query) (PInt limit) stream stop dialogs
    = if Z.to_nat limit - length dialogs
         <=? length (List.filter (selects env query) stream)
      then Ok (dialogs ++ map UserClient.dialog_data
                 (firstn (Z.to_nat limit - length dialogs)
                    (List.filter (selects env query) stream)))
      else match stop with
           | None => Ok (dialogs ++ map UserClient.dialog_data
                           (List.filter (selects env query) stream))
           | Some e => Raise e
           end.
Proof.
  induction stream as [|dialog rest IH]; intros dialogs Hroom.
  - simpl. destruct (Nat.leb_spec (Z.to_nat limit - length dialogs) 0); [lia|].
    rewrite app_nil_r. reflexivity.
  - rewrite search_dialogs_loop_step. cbn [List.filter].
    destruct (selects env query dialog); [|apply IH; exact Hroom].
    rewrite length_app. cbn [length].
    destruct (Z.leb_spec limit (Z.of_nat (length dialogs + 1))) as [Hfull|Hmore].
    + replace (Z.to_nat limit - length dialogs) with 1 by lia.
      reflexivity.
    + rewrite IH by (rewrite length_app; cbn [length]; lia).
      rewrite length_app. cbn [length].
      replace (Z.to_nat limit - length dialogs)
        with (S (Z.to_nat limit - (length dialogs + 1))) by lia.
      cbn [Nat.leb firstn map].
      rewrite <- !app_assoc. reflexivity.
Qed.

Section SearchDialogs.
Context (env : Env).

(** C6: for every stream of dialogs the backend yields, every query string
    and every positive limit, [search_dialogs] returns the entries of the
    first [limit] selected dialogs, in the order of the stream: every dialog
    for the empty query, and for another query the dialogs whose display
    name contains it, letter case apart (the handle plays no part).  The
    loop ends with the [limit]-th entry: what the stream holds after it, or
    how the stream ends, is not looked at. *)
Theorem search_dialogs_first_matches (s : UserClient.St) (query : string)
    (limit : Z) (stream : list Telethon.Dialog) (stop : option Exn) :
  (0 < limit)%Z ->
  fst (UserClient.connect env s) = Ok tt ->
  Telethon.iter_dialogs (backend env) (PInt limit) = (stream, stop) ->
  stop = None \/ Z.to_nat limit <= length (List.filter (selects env query) stream) ->
  let found := firstn (Z.to_nat limit) (List.filter (selects env query) stream) in
  fst (UserClient.search_dialogs env (PStr query) (PInt limit) s)
  = Ok (map UserClient.dialog_data found)
  /\ length found <= Z.to_nat limit
  /\ (query = "" -> found = firstn (Z.to_nat limit) stream)
  /\ (query <> "" -> Forall (name_contains env query) found)
  /\ (forall scanned unscanned,
        stream = scanned ++ unscanned ->
        length (List.filter (selects env query) scanned) = Z.to_nat limit ->
        found = List.filter (selects env query) scanned).
Proof.
  intros Hlimit Hconn Hstream Hstop found.
  repeat split.
  - unfold UserClient.search_dialogs.
    rewrite (after_connect env _ s Hconn).
    destruct (connect_ok env s Hconn) as (c & Hc & _).
    unfold bind. rewrite (client_cached env _ c Hc). simpl.
    rewrite Hstream. cbn [fst snd]. unfold lift_res. cbn [fst].
    rewrite search_dialogs_loop_spec by (simpl; lia).
    cbn [length app]. rewrite Nat.sub_0_r.
    destruct (Nat.leb_spec (Z.to_nat limit)
                (length (List.filter (selects env query) stream))) as [Hall|Hfew].
    + reflexivity.
    + destruct Hstop as [-> | Hstop]; [|lia].
      unfold found. rewrite firstn_all2 by lia. reflexivity.
  - unfold found. rewrite length_firstn. lia.
  - intros ->. unfold found. f_equal.
    apply List.forallb_filter_id. apply forallb_forall. reflexivity.
  - intros Hq. unfold found. apply List.Forall_forall. intros d Hd.
    apply selects_name_contains; [exact Hq|].
    apply list_elem_of_In, subseteq_take, list_elem_of_In in Hd.
    apply List.filter_In in Hd. apply Hd.
  - intros scanned unscanned -> Hlen. unfold found.
    rewrite List.filter_app, <- Hlen, List.firstn_app, Nat.sub_diag, firstn_all.
    cbn [firstn]. apply app_nil_r.
Qed.

End SearchDialogs.

(** *** The user client on concrete backends *)

Lemma get_me_without_user_is_empty_witness :
  fst (UserClient.connect Examples.env_unauthorized Examples.new_client) = Ok tt
  /\ Telethon.get_me (backend Examples.env_unauthorized) = Ok None
  /\ fst (UserClient.get_me Examples.env_unauthorized Examples.new_client) = Ok [].
Proof.
  split; [reflexivity|]. split; [reflexivity|].
  apply get_me_without_user_is_empty; reflexivity.
Defined.

Lemma delete_messages_reports_requested_witness :
  Telethon.delete_messages (backend Examples.env_ok) (PStr "@ann")
    (PList [PInt 1; PInt 2; PInt 3]) = Ok 2%Z
  /\ fst (UserClient.delete_messages Examples.env_ok (PStr "@ann")
            (PList [PInt 1; PInt 2; PInt 3]) Examples.new_client)
     = Ok [("deleted", PInt 3)].
Proof.
  split; [reflexivity|].
  apply (delete_messages_reports_requested Examples.env_ok Examples.new_client
           (PStr "@ann") [PInt 1; PInt 2; PInt 3] 2%Z); reflexivity.
Defined.

Lemma get_messages_only_real_witness :
  pseudo_messages Examples.history = 2
  /\ exists result,
       fst (UserClient.get_messages Examples.env_ok (PStr "@ann") (PInt 10)
              Examples.new_client) = Ok result
       /\ result = map UserClient.msg_data (real_messages Examples.history)
       /\ length result + pseudo_messages Examples.history
          = length Examples.history.
Proof.
  split; [reflexivity|].
  apply (get_messages_only_real Examples.env_ok Examples.new_client
           (PStr "@ann") (PInt 10) Examples.history); reflexivity.
Defined.

(** Three real messages and two service events: three entries. *)
Example get_messages_three_of_five :
  length (real_messages Examples.history) = 3
  /\ pseudo_messages Examples.history = 2
  /\ match fst (UserClient.get_messages Examples.env_ok (PStr "@ann") (PInt 10)
                  Examples.new_client) with
     | Ok result => length result = 3
     | Raise _ => False
     end.
Proof. repeat split. Qed.

Lemma search_dialogs_first_matches_witness :
  let found :=
    firstn 2 (List.filter (selects Examples.env_ok "aBc") Examples.dialogs) in
  found = [Telethon.mkDialog 1 (Some "Alice ABC") 0 (Telethon.EUser (Some "al"));
           Telethon.mkDialog 3 (Some "abcd news") 0 (Telethon.EChannel true)]
  /\ fst (UserClient.search_dialogs Examples.env_ok (PStr "aBc") (PInt 2)
            Examples.new_client)
     = Ok (map UserClient.dialog_data found).
Proof.
  split; [reflexivity|].
  apply (search_dialogs_first_matches Examples.env_ok Examples.new_client
           "aBc" 2%Z Examples.dialogs None);
    [reflexivity | reflexivity | reflexivity | left; reflexivity].
Defined.


(* ===================================================================== *)
(** ** Running a computation on a world *)
(* ===================================================================== *)

Lemma backend_calls_app (a b : list Event) :
  backend_calls (a ++ b) = backend_calls a ++ backend_calls b.
Proof.
  induction a as [|[] a IH]; simpl; rewrite ?IH; reflexivity.
Qed.

Lemma constructions_app (a b : list Event) :
  constructions (a ++ b) = constructions a + constructions b.
Proof.
  induction a as [|[] a IH]; simpl; rewrite ?IH; reflexivity.
Qed.

(** Runs the steps of a computation on a world as far as they are
    determined. *)
Ltac run_world :=
  repeat (progress
            (unfold bind, ret, raise, gets, modify, lift_res, try_except,
               sys_exit, emit, set_config, set_client, write_pid, unlink_pid,
               os_kill, py_int, call_client;
             cbn [fst snd w_pid_file w_kills w_probes w_config w_client w_trace
                  UserClient.self UserClient.trace negb])).

(** Two lists of events that differ by how their parts are appended. *)
Ltac same_events := rewrite <- ?app_assoc; cbn [app]; reflexivity.

(* ===================================================================== *)
(** ** The control handlers: what is refused before the backend is asked *)
(* ===================================================================== *)

Section Handlers.
Context (env : Env).

(** [not data.get(key, default)] for a default Python takes for false. *)
Lemma get_falsy (d : dict) (key : string) (default : pyval) :
  truthy default = false ->
  exists v, py_get (PDict d) key default = Ok v /\ truthy v = present d key.
Proof.
  intros Hdef. unfold py_get, present.
  destruct (dict_lookup d key) as [v|]; eauto.
Qed.

Lemma get_total (d : dict) (key : string) (default : pyval) :
  exists v, py_get (PDict d) key default = Ok v.
Proof. unfold py_get. destruct (dict_lookup d key); eauto. Qed.

Ltac read_field key :=
  let v := fresh "v" in
  let Hget := fresh "Hget" in
  let Hv := fresh "Hv" in
  match goal with
  | |- context [py_get (PDict ?d) key ?default] =>
      first
        [ destruct (get_falsy d key default eq_refl) as (v & Hget & Hv)
        | destruct (get_total d key default) as (v & Hget) ];
      rewrite Hget; cbn beta iota
  end.

(** A POST body in which a tested field of the route is missing is answered
    with the route's error and status 400; the world is left as it was. *)
Lemma refuses_missing (route : Daemon.Route) (d : dict) (w : World)
    (key : string) :
  In key (required_fields route) ->
  missing d key ->
  Daemon.create_app env route (Daemon.mkRequest (Ok (PDict d))) w
  = (Ok (Daemon.json_response (Daemon.error_body (required_error route)) 400), w).
Proof.
  unfold missing. intros Hin Hmiss.
  destruct route; cbn [required_fields In] in Hin;
    repeat (destruct Hin as [<-|Hin]); try contradiction;
    cbn [Daemon.create_app required_error];
    unfold Daemon.handle_send_message, Daemon.handle_send_file,
      Daemon.handle_get_messages, Daemon.handle_download_media,
      Daemon.handle_edit_message, Daemon.handle_delete_messages,
      try_except, bind, lift_res; cbn [Daemon.json];
    repeat (first [ read_field "entity" | read_field "message" | read_field "reply_to"
                  | read_field "file_path" | read_field "caption" | read_field "voice"
                  | read_field "limit" | read_field "message_id" | read_field "save_path"
                  | read_field "text" | read_field "message_ids" ]);
    repeat match goal with H : truthy _ = present _ _ |- _ => rewrite H; clear H end;
    rewrite ?Hmiss; cbn [negb orb]; rewrite ?orb_true_r; reflexivity.
Qed.

(** C2, as the code has it: a POST body in which a field the handler tests
    is absent or false for Python is answered with ok=false, status 400 and
    the one error message of its route, which names every tested field of
    the route; nothing else happens: no client is built, no request reaches
    the backend. *)
Theorem missing_field_is_refused (route : Daemon.Route) (d : dict) (w : World)
    (key : string) :
  In key (required_fields route) ->
  missing d key ->
  let r := Daemon.create_app env route (Daemon.mkRequest (Ok (PDict d))) w in
  fst r = Ok (Daemon.json_response
                [("ok", PBool false); ("error", PStr (required_error route))] 400)
  /\ snd r = w
  /\ backend_calls (w_trace (snd r)) = backend_calls (w_trace w).
Proof.
  intros Hin Hmiss r. unfold r.
  rewrite (refuses_missing route d w key Hin Hmiss). repeat split.
Qed.

(** C9: an [edit_message] body whose [text] is the empty string, or whose
    [message_id] is 0, is refused with "entity, message_id, and text are
    required" and the world is left as it was, so the backend is not asked;
    a body that lacks one of the two fields gets the very same answer. *)
Theorem edit_message_refuses_empty (d : dict) (w : World) :
  dict_lookup d "text" = Some (PStr "")
  \/ dict_lookup d "message_id" = Some (PInt 0) ->
  let refusal :=
    (Ok (Daemon.json_response
           [("ok", PBool false);
            ("error", PStr "entity, message_id, and text are required")] 400),
     w) in
  Daemon.handle_edit_message env (Daemon.mkRequest (Ok (PDict d))) w = refusal
  /\ forall d' : dict,
       dict_lookup d' "text" = None \/ dict_lookup d' "message_id" = None ->
       Daemon.handle_edit_message env (Daemon.mkRequest (Ok (PDict d'))) w
       = refusal.
Proof.
  intros H refusal. split.
  - destruct H as [H|H].
    + apply (refuses_missing Daemon.edit_message d w "text");
        [cbn; auto | unfold missing, present; rewrite H; reflexivity].
    + apply (refuses_missing Daemon.edit_message d w "message_id");
        [cbn; auto | unfold missing, present; rewrite H; reflexivity].
  - intros d' [H'|H'].
    + apply (refuses_missing Daemon.edit_message d' w "text");
        [cbn; auto | unfold missing, present; rewrite H'; reflexivity].
    + apply (refuses_missing Daemon.edit_message d' w "message_id");
        [cbn; auto | unfold missing, present; rewrite H'; reflexivity].
Qed.

(** C4, as the code has it: when the path of a [send_file] request does not
    exist, the handler answers "File not found" with status 400 and leaves
    the world as it was: the backend is not asked.  [UserClient.send_file]
    itself first makes sure of the connection and then raises
    [FileNotFoundError]: it does nothing after [connect], so no upload is
    asked for. *)
Theorem send_file_missing_path (path : string) :
  path_exists env path = false ->
  (forall (d : dict) (w : World),
      present d "entity" = true ->
      dict_lookup d "file_path" = Some (PStr path) ->
      path <> "" ->
      Daemon.handle_send_file env (Daemon.mkRequest (Ok (PDict d))) w
      = (Ok (Daemon.json_response
               [("ok", PBool false); ("error", PStr ("File not found: " +:+ path))]
               400),
         w))
  /\ (forall (s : UserClient.St) (entity caption voice : pyval),
        fst (UserClient.connect env s) = Ok tt ->
        UserClient.send_file env entity (PStr path) caption voice s
        = (Raise (mkExn FileNotFoundError ("File not found: " +:+ path)),
           snd (UserClient.connect env s))).
Proof.
  intros Hpath. split.
  - intros d w Hentity Hfile Hne.
    unfold Daemon.handle_send_file, try_except, bind, lift_res.
    cbn [Daemon.json].
    read_field "entity". read_field "file_path".
    read_field "caption". read_field "voice".
    rewrite Hv, Hentity.
    assert (v0 = PStr path) as ->.
    { unfold py_get in Hget0. rewrite Hfile in Hget0. congruence. }
    cbn [truthy].
    rewrite (proj2 (nonempty_iff path) Hne).
    cbn [negb orb py_Path]. rewrite Hpath. reflexivity.
  - intros s entity caption voice Hconn. unfold UserClient.send_file.
    rewrite (after_connect env _ s Hconn).
    unfold bind, lift_res. cbn [py_Path]. rewrite Hpath. reflexivity.
Qed.


(** A POST whose body is not JSON, or is JSON but not an object: the
    handler answers ok=false with the text of the exception and status 500,
    logs the error, and asks the backend nothing. *)
Lemma refuses_malformed (route : Daemon.Route) (request : Daemon.Request)
    (w : World) :
  route <> Daemon.health_route ->
  match Daemon.json request with
  | Ok (PDict _) => False
  | Ok _ => True
  | Raise e => is_Exception e = true
  end ->
  let r := Daemon.create_app env route request w in
  exists error,
    fst r = Ok (Daemon.json_response
                  [("ok", PBool false); ("error", PStr error)] 500)
    /\ w_client (snd r) = w_client w
    /\ backend_calls (w_trace (snd r)) = backend_calls (w_trace w).
Proof.
  intros Hroute Hbody. cbn zeta.
  destruct route; try contradiction;
    cbn [Daemon.create_app];
    unfold Daemon.handle_send_message, Daemon.handle_send_file,
      Daemon.handle_get_messages, Daemon.handle_search_dialogs,
      Daemon.handle_download_media, Daemon.handle_edit_message,
      Daemon.handle_delete_messages, Daemon.on_exception;
    destruct (Daemon.json request) as [[| | | | |]|e];
    try contradiction; run_world; rewrite ?Hbody;
    cbn [py_get is_Exception no_attribute exn_class exn_str Daemon.json];
    run_world;
    rewrite backend_calls_app; cbn [backend_calls]; rewrite app_nil_r;
    eexists; repeat split.
Qed.

End Handlers.

Lemma ends_with_unfold (suffix s : string) :
  ends_with suffix s
  = String.eqb s suffix
    || match s with
       | EmptyString => false
       | String _ r => ends_with suffix r
       end.
Proof. destruct s; reflexivity. Qed.

Lemma ends_with_app (suffix s : string) : ends_with suffix (s +:+ suffix) = true.
Proof.
  induction s as [|a s IH].
  - change ("" +:+ suffix) with suffix.
    rewrite ends_with_unfold, String.eqb_refl. reflexivity.
  - change (String a s +:+ suffix) with (String a (s +:+ suffix)).
    rewrite ends_with_unfold, IH. apply orb_true_r.
Qed.

(** *** The handlers on concrete requests *)

(** A [download_media] body without [entity]: the error names the three
    fields of the route; it is no sentence of the form "<field> is
    required". *)
Lemma download_media_error_is_not_one_field :
  ~ exists (field : string) (response : Daemon.Response),
      fst (Daemon.handle_download_media Examples.env_ok
             (Examples.post [("message_id", PInt 5); ("save_path", PStr "/tmp/x")])
             (fresh None))
      = Ok response
      /\ dict_lookup (Daemon.body response) "error"
         = Some (PStr (field +:+ " is required")).
Proof.
  intros (field & response & Hrun & Herror).
  vm_compute in Hrun. injection Hrun as <-.
  cbn in Herror. injection Herror as Herror.
  apply (f_equal (ends_with " is required")) in Herror.
  rewrite ends_with_app in Herror. vm_compute in Herror. discriminate.
Qed.

Lemma missing_field_is_refused_witness :
  let r := Daemon.create_app Examples.env_ok Daemon.download_media
             (Examples.post [("message_id", PInt 5); ("save_path", PStr "/tmp/x")])
             (fresh None) in
  fst r = Ok (Daemon.json_response
                [("ok", PBool false);
                 ("error", PStr "entity, message_id, and save_path are required")]
                400)
  /\ snd r = fresh None
  /\ backend_calls (w_trace (snd r)) = [].
Proof.
  apply (missing_field_is_refused Examples.env_ok Daemon.download_media
           [("message_id", PInt 5); ("save_path", PStr "/tmp/x")] (fresh None)
           "entity"); [cbn; auto | reflexivity].
Defined.

Lemma edit_message_refuses_empty_witness :
  dict_lookup [("entity", PStr "@ann"); ("message_id", PInt 5); ("text", PStr "")]
    "text" = Some (PStr "")
  /\ Daemon.handle_edit_message Examples.env_ok
       (Examples.post
          [("entity", PStr "@ann"); ("message_id", PInt 5); ("text", PStr "")])
       (fresh None)
     = (Ok (Daemon.json_response
              [("ok", PBool false);
               ("error", PStr "entity, message_id, and text are required")] 400),
        fresh None).
Proof.
  split; [reflexivity|].
  exact (proj1 (edit_message_refuses_empty Examples.env_ok
                  [("entity", PStr "@ann"); ("message_id", PInt 5);
                   ("text", PStr "")]
                  (fresh None) (or_introl eq_refl))).
Defined.

(** The same body with a text is passed on to the backend. *)
Example edit_message_with_text :
  let r := Daemon.handle_edit_message Examples.env_ok
             (Examples.post [("entity", PStr "@ann"); ("message_id", PInt 5);
                             ("text", PStr "new text")])
             (fresh None) in
  fst r = Ok (Daemon.json_response [("ok", PBool true); ("message_id", PInt 5)] 200)
  /\ backend_calls (w_trace (snd r))
     = [Telethon.CConnect; Telethon.CIsUserAuthorized;
        Telethon.CEditMessage (PStr "@ann") (PInt 5) (PStr "new text")].
Proof. split; reflexivity. Qed.

(** [UserClient.send_file] on a client that is not connected yet, with a
    path that does not exist: the connection is made before the path is
    looked at. *)
Lemma send_file_connects_before_the_check :
  let r := UserClient.send_file Examples.env_ok (PStr "@ann") (PStr "/nope")
             (PStr "") (PBool false) Examples.new_client in
  path_exists Examples.env_ok "/nope" = false
  /\ ~ (fst r = Raise (mkExn FileNotFoundError "File not found: /nope")
        /\ backend_calls (UserClient.trace (snd r)) = []).
Proof. split; [reflexivity|]. intros [_ H]. discriminate H. Qed.

Example send_file_missing_path_calls :
  backend_calls
    (UserClient.trace
       (snd (UserClient.send_file Examples.env_ok (PStr "@ann") (PStr "/nope")
               (PStr "") (PBool false) Examples.new_client)))
  = [Telethon.CConnect].
Proof. reflexivity. Qed.

Lemma send_file_missing_path_witness :
  path_exists Examples.env_ok "/nope" = false
  /\ Daemon.handle_send_file Examples.env_ok
       (Examples.post [("entity", PStr "@ann"); ("file_path", PStr "/nope")])
       (fresh None)
     = (Ok (Daemon.json_response
              [("ok", PBool false); ("error", PStr "File not found: /nope")] 400),
        fresh None)
  /\ UserClient.send_file Examples.env_ok (PStr "@ann") (PStr "/nope") (PStr "")
       (PBool false) Examples.new_client
     = (Raise (mkExn FileNotFoundError "File not found: /nope"),
        snd (UserClient.connect Examples.env_ok Examples.new_client)).
Proof.
  split; [reflexivity|].
  destruct (send_file_missing_path Examples.env_ok "/nope" eq_refl) as [Hh Hc].
  split.
  - apply Hh; [reflexivity | reflexivity | discriminate].
  - apply Hc. reflexivity.
Defined.

(* ===================================================================== *)
(** ** The life cycle: start and stop *)
(* ===================================================================== *)

Section LifeCycle.
Context (env : Env).

(** [get_me] on a new client does not look at the events so far: it adds
    its own to them. *)
Lemma first_contact_frame (tr : list Event) :
  UserClient.get_me env (UserClient.mkSt (UserClient.new (load_config env)) tr)
  = (fst (first_contact env),
     UserClient.mkSt (UserClient.self (snd (first_contact env)))
       (tr ++ UserClient.trace (snd (first_contact env)))).
Proof.
  unfold first_contact, UserClient.get_me, UserClient.connect,
    UserClient.request, UserClient.set_connected, UserClient.client,
    UserClient.emit, UserClient.set_client, UserClient.new,
    bind, gets, modify, ret, raise, lift_res, py_int.
  cbn [UserClient.self UserClient._client UserClient.config UserClient.trace
       fst snd].
  destruct (negb (Config.is_configured (Config.user (load_config env))));
    cbn; [rewrite app_nil_r; reflexivity|].
  destruct (int_of_str (Config.api_id (Config.user (load_config env))));
    cbn; [|rewrite app_nil_r; reflexivity].
  destruct (Telethon.connect (backend env)); cbn;
    [|rewrite <- app_assoc; reflexivity].
  destruct (Telethon.get_me (backend env)) as [[u|]|e]; cbn;
    rewrite <- !app_assoc; reflexivity.
Qed.

(** C5, as the code has it: when the Process Record exists and the recorded
    process answers signal 0, [run_daemon] ends in [sys.exit(1)]; it leaves
    the record and the client as they were, builds no Telegram client and
    asks the backend nothing.  With the account configured it reports
    "Daemon already running"; the configuration is checked first, and
    without credentials the report is "User not configured". *)
Theorem start_beside_a_live_daemon (w : World) (text : string) (pid : Z) :
  w_pid_file w = Some text ->
  int_of_str (strip text) = Some pid ->
  kill env (w_kills w) pid 0 = Ok tt ->
  let r := Daemon.run_daemon env w in
  fst r = Raise (mkExn (SystemExit 1) "1")
  /\ w_pid_file (snd r) = Some text
  /\ w_client (snd r) = w_client w
  /\ constructions (w_trace (snd r)) = constructions (w_trace w)
  /\ backend_calls (w_trace (snd r)) = backend_calls (w_trace w)
  /\ w_trace (snd r)
     = w_trace w
       ++ (if Config.has_user (load_config env)
           then [EvKill pid 0;
                 EvLog "ERROR" ("Daemon already running (PID " +:+ pretty pid +:+ ")")]
           else [EvLog "ERROR" "User not configured. Run 'tg login' first."]).
Proof.
  destruct w as [pid_file kills probes config client trace].
  cbn [w_pid_file w_kills w_client w_trace].
  intros -> Hpid Hkill. unfold Daemon.run_daemon. run_world.
  destruct (Config.has_user (load_config env)); run_world.
  - rewrite Hpid. run_world. rewrite Hkill. run_world.
    cbn [Daemon.OSError_or_ValueError is_OSError is_ValueError exn_class orb].
    run_world.
    rewrite <- app_assoc, constructions_app, backend_calls_app.
    cbn. rewrite Nat.add_0_r, app_nil_r. repeat split.
  - rewrite constructions_app, backend_calls_app.
    cbn. rewrite Nat.add_0_r, app_nil_r. repeat split.
Qed.

(** [run_daemon] with the account configured and no live daemon recorded,
    step by step: the check of the record, the write of the new record, the
    first contact with the backend, and then either the listener or, when
    the contact raised, the removal of the record and [sys.exit(1)]. *)
Lemma run_daemon_without_live_daemon (w : World) :
  Config.has_user (load_config env) = true ->
  liveness env w = NoRecord \/ liveness env w = Stale ->
  let contact := first_contact env in
  let config := load_config env in
  let written :=
    w_trace w ++ liveness_events w
    ++ EvWritePid (pretty (getpid env)) :: UserClient.trace (snd contact) in
  let world pid_file trace :=
    mkWorld pid_file (w_kills w + length (liveness_events w)) (w_probes w)
      (Some config) (Some (UserClient.self (snd contact))) trace in
  Daemon.run_daemon env w
  = match fst contact with
    | Ok me =>
        let connected :=
          EvLog "INFO" ("Connected as " +:+ Daemon.show_field me "first_name"
                        +:+ " (@" +:+ Daemon.show_field me "username" +:+ ")") in
        match site_start env with
        | Ok _ =>
            (Ok tt,
             world (Some (pretty (getpid env)))
               (written
                ++ [connected;
                    EvListen (Config.host (Config.daemon config))
                      (Config.port (Config.daemon config));
                    EvLog "INFO"
                      ("Daemon listening on "
                       +:+ Config.host (Config.daemon config) +:+ ":"
                       +:+ pretty (Config.port (Config.daemon config)))]))
        | Raise e =>
            (Raise e, world (Some (pretty (getpid env))) (written ++ [connected]))
        end
    | Raise e =>
        if is_Exception e then
          (Raise (mkExn (SystemExit 1) "1"),
           world None
             (written
              ++ [EvLog "ERROR" ("Failed to connect: " +:+ exn_str e);
                  EvUnlinkPid]))
        else (Raise e, world (Some (pretty (getpid env))) written)
    end.
Proof.
  intros Hcfg. unfold liveness, liveness_events, Daemon.run_daemon. cbn zeta.
  destruct w as [pid_file kills probes config client trace]. run_world.
  rewrite Hcfg. run_world.
  assert (Hcaught : forall text,
             Daemon.OSError_or_ValueError (int_ValueError text) = true)
    by reflexivity.
  destruct pid_file as [text|]; run_world;
    [destruct (int_of_str (strip text)) as [pid|]; run_world;
     [destruct (kill env kills pid 0) as [[]|e]; run_world;
      [intros [H|H]; discriminate H
      |destruct (Daemon.OSError_or_ValueError e);
       [|intros [H|H]; discriminate H]]
     |rewrite Hcaught]
    |];
    intros _; run_world; rewrite first_contact_frame; run_world;
    (destruct (fst (first_contact env)) as [me|e'];
     [destruct (site_start env) as [[]|e'] | destruct (is_Exception e')];
     run_world; cbn [length]; rewrite ?Nat.add_0_r, ?Nat.add_1_r;
     f_equal; f_equal; same_events).
Qed.

(** C1, as the code has it: [run_daemon] writes the Process Record after
    the check of the configuration and of an earlier daemon, and before it
    contacts the backend: the events this run adds before the write are
    those of the signal-0 probe, and the building of the client and the
    requests to the backend come after it.  When that first contact raises,
    the record is removed and the run ends in [sys.exit(1)].  A run that the
    configuration check refuses writes nothing. *)
Theorem start_writes_record_then_contacts (w : World) :
  let r := Daemon.run_daemon env w in
  let contact := first_contact env in
  (Config.has_user (load_config env) = false ->
   fst r = Raise (mkExn (SystemExit 1) "1")
   /\ w_pid_file (snd r) = w_pid_file w
   /\ w_trace (snd r)
      = w_trace w ++ [EvLog "ERROR" "User not configured. Run 'tg login' first."])
  /\ (Config.has_user (load_config env) = true ->
      liveness env w = NoRecord \/ liveness env w = Stale ->
      backend_calls (liveness_events w) = []
      /\ constructions (liveness_events w) = 0
      /\ (exists after,
            w_trace (snd r)
            = w_trace w ++ liveness_events w
              ++ EvWritePid (pretty (getpid env))
                 :: UserClient.trace (snd contact) ++ after)
      /\ (forall e,
            fst contact = Raise e ->
            is_Exception e = true ->
            fst r = Raise (mkExn (SystemExit 1) "1")
            /\ w_pid_file (snd r) = None
            /\ w_trace (snd r)
               = w_trace w ++ liveness_events w
                 ++ EvWritePid (pretty (getpid env))
                    :: UserClient.trace (snd contact)
                    ++ [EvLog "ERROR" ("Failed to connect: " +:+ exn_str e);
                        EvUnlinkPid])).
Proof.
  cbn zeta. split.
  - intros Hcfg. unfold Daemon.run_daemon. run_world. rewrite Hcfg. run_world.
    repeat split.
  - intros Hcfg Hlive.
    rewrite (run_daemon_without_live_daemon w Hcfg Hlive). cbn zeta.
    split; [|split; [|split]].
    + unfold liveness_events.
      destruct (w_pid_file w) as [text|]; [|reflexivity].
      destruct (int_of_str (strip text)); reflexivity.
    + unfold liveness_events.
      destruct (w_pid_file w) as [text|]; [|reflexivity].
      destruct (int_of_str (strip text)); reflexivity.
    + destruct (fst (first_contact env)) as [me|e];
        [destruct (site_start env) as [[]|e] | destruct (is_Exception e)];
        cbn [snd w_trace]; eexists;
        rewrite <- ?app_assoc; cbn [app];
        try reflexivity.
      rewrite app_nil_r. reflexivity.
    + intros e He Hexc. rewrite He, Hexc. cbn [fst snd w_pid_file w_trace].
      repeat split. same_events.
Qed.

(** C3, as the code has it: when the Process Record names a process that
    the signal cannot reach, [tg daemon stop] does not raise: it prints
    "Failed to stop" with the text of the error and removes the record, and
    so does [daemon_stop] of [daemon.py] with its own wording.  A second
    [tg daemon stop] then says "Daemon not running". *)
Theorem stop_on_stale_record (w : World) (text : string) (pid : Z) (e : Exn) :
  w_pid_file w = Some text ->
  int_of_str (strip text) = Some pid ->
  kill env (w_kills w) pid SIGTERM = Raise e ->
  is_OSError e = true ->
  let r := Cli.daemon_stop env w in
  let r' := Daemon.daemon_stop env w in
  fst r = Ok tt
  /\ w_pid_file (snd r) = None
  /\ w_trace (snd r)
     = w_trace w
       ++ [EvKill pid SIGTERM;
           EvPrint ("[red]✗ Failed to stop: " +:+ exn_str e +:+ "[/red]");
           EvUnlinkPid]
  /\ fst r' = Ok tt
  /\ w_pid_file (snd r') = None
  /\ w_trace (snd r')
     = w_trace w
       ++ [EvKill pid SIGTERM;
           EvPrint ("Failed to stop daemon: " +:+ exn_str e);
           EvUnlinkPid]
  /\ Cli.daemon_stop env (snd r)
     = (Ok tt,
        mkWorld None (w_kills (snd r)) (w_probes (snd r)) (w_config (snd r))
          (w_client (snd r))
          (w_trace (snd r) ++ [EvPrint "[yellow]Daemon not running[/yellow]"])).
Proof.
  destruct w as [pid_file kills probes config client trace].
  cbn [w_pid_file w_kills]. intros -> Hpid Hkill Hos.
  unfold Cli.daemon_stop, Daemon.daemon_stop. run_world.
  rewrite Hpid. run_world. rewrite Hkill.
  unfold Daemon.OSError_or_ValueError. rewrite Hos. cbn [orb]. run_world.
  repeat split; same_events.
Qed.


End LifeCycle.

(** *** The life cycle on concrete surroundings *)

(** A start with everything in order: the record is the first event, the
    client is built and the backend asked after it. *)
Example start_in_order :
  w_trace (snd (Daemon.run_daemon Examples.env_ok (fresh None)))
  = [EvWritePid "4242";
     EvConstruct "/home/ann/.mcp-telegram/session" 12345 "0123abcd";
     EvCall Telethon.CConnect;
     EvCall Telethon.CGetMe;
     EvLog "INFO" "Connected as Ann (@ann)";
     EvListen "127.0.0.1" 19876;
     EvLog "INFO" "Daemon listening on 127.0.0.1:19876"].
Proof. reflexivity. Qed.

(** The record of that start is not written after the request for the
    current user: when it is written, nothing has been asked yet. *)
Lemma record_is_written_before_the_backend_is_asked :
  ~ (forall before text after,
        w_trace (snd (Daemon.run_daemon Examples.env_ok (fresh None)))
        = before ++ EvWritePid text :: after ->
        In (EvCall Telethon.CGetMe) before).
Proof.
  intros H.
  exact (H [] "4242"
           [EvConstruct "/home/ann/.mcp-telegram/session" 12345 "0123abcd";
            EvCall Telethon.CConnect;
            EvCall Telethon.CGetMe;
            EvLog "INFO" "Connected as Ann (@ann)";
            EvListen "127.0.0.1" 19876;
            EvLog "INFO" "Daemon listening on 127.0.0.1:19876"]
           eq_refl).
Qed.

Lemma start_writes_record_then_contacts_witness :
  let r := Daemon.run_daemon Examples.env_unreachable (fresh (Some "99")) in
  Config.has_user (load_config Examples.env_unreachable) = true
  /\ liveness Examples.env_unreachable (fresh (Some "99")) = Stale
  /\ fst (first_contact Examples.env_unreachable) = Raise Examples.unreachable
  /\ fst r = Raise (mkExn (SystemExit 1) "1")
  /\ w_pid_file (snd r) = None
  /\ w_trace (snd r)
     = [EvKill 99 0;
        EvWritePid "4242";
        EvConstruct "/home/ann/.mcp-telegram/session" 12345 "0123abcd";
        EvCall Telethon.CConnect;
        EvLog "ERROR" "Failed to connect: Connection to Telegram failed 5 time(s)";
        EvUnlinkPid].
Proof.
  split; [reflexivity|]. split; [reflexivity|]. split; [reflexivity|].
  exact (proj2 (proj2 (proj2
           (proj2 (start_writes_record_then_contacts Examples.env_unreachable
                     (fresh (Some "99")))
              eq_refl (or_intror eq_refl))))
           Examples.unreachable eq_refl eq_refl).
Defined.

(** A stale record and [tg daemon stop]: the line printed is the failure,
    not "Daemon not running"; neither is it with [daemon_stop] of
    [daemon.py]. *)
Lemma stop_on_stale_record_reports_a_failure :
  liveness Examples.env_ok (fresh (Some "99")) = Stale
  /\ ~ In (EvPrint "[yellow]Daemon not running[/yellow]")
         (w_trace (snd (Cli.daemon_stop Examples.env_ok (fresh (Some "99")))))
  /\ ~ In (EvPrint "Daemon not running")
         (w_trace (snd (Daemon.daemon_stop Examples.env_ok (fresh (Some "99"))))).
Proof.
  split; [reflexivity|].
  split; cbn; intros H; repeat (destruct H as [H|H]; [discriminate H|]);
    exact H.
Qed.

Lemma stop_on_stale_record_witness :
  let r := Cli.daemon_stop Examples.env_ok (fresh (Some "99")) in
  kill Examples.env_ok 0 99 SIGTERM = Raise Examples.no_such_process
  /\ fst r = Ok tt
  /\ w_pid_file (snd r) = None
  /\ w_trace (snd r)
     = [EvKill 99 15;
        EvPrint "[red]✗ Failed to stop: [Errno 3] No such process[/red]";
        EvUnlinkPid].
Proof.
  split; [reflexivity|].
  pose proof (stop_on_stale_record Examples.env_ok (fresh (Some "99")) "99" 99
                Examples.no_such_process eq_refl eq_refl eq_refl eq_refl) as H.
  cbn zeta in H. destruct H as (H1 & H2 & H3 & _).
  split; [exact H1|]. split; [exact H2|]. exact H3.
Defined.

(** The recorded daemon is alive and the configuration has no credentials:
    the run does not report "already running". *)
Lemma start_unconfigured_beside_a_live_daemon :
  liveness Examples.env_alive_unconfigured (fresh (Some "99")) = Alive 99
  /\ ~ exists pid : Z,
        In (EvLog "ERROR" ("Daemon already running (PID " +:+ pretty pid +:+ ")"))
          (w_trace (snd (Daemon.run_daemon Examples.env_alive_unconfigured
                           (fresh (Some "99"))))).
Proof.
  split; [reflexivity|]. intros [pid H].
  cbn in H. destruct H as [H|[]]. discriminate H.
Qed.

Lemma start_beside_a_live_daemon_witness :
  let r := Daemon.run_daemon Examples.env_alive (fresh (Some "99")) in
  kill Examples.env_alive 0 99 0 = Ok tt
  /\ fst r = Raise (mkExn (SystemExit 1) "1")
  /\ w_pid_file (snd r) = Some "99"
  /\ w_client (snd r) = None
  /\ constructions (w_trace (snd r)) = 0
  /\ backend_calls (w_trace (snd r)) = []
  /\ w_trace (snd r)
     = [EvKill 99 0; EvLog "ERROR" "Daemon already running (PID 99)"].
Proof.
  split; [reflexivity|].
  exact (start_beside_a_live_daemon Examples.env_alive (fresh (Some "99")) "99" 99
           eq_refl eq_refl eq_refl).
Defined.

(** A session that is not authorized: [get_me] answers with the empty
    mapping, and the run goes on to listen. *)
Example start_with_unauthorized_session :
  let r := Daemon.run_daemon Examples.env_unauthorized (fresh None) in
  fst r = Ok tt
  /\ w_pid_file (snd r) = Some "4242"
  /\ w_trace (snd r)
     = [EvWritePid "4242";
        EvConstruct "/home/ann/.mcp-telegram/session" 12345 "0123abcd";
        EvCall Telethon.CConnect;
        EvCall Telethon.CGetMe;
        EvLog "INFO" "Connected as None (@None)";
        EvListen "127.0.0.1" 19876;
        EvLog "INFO" "Daemon listening on 127.0.0.1:19876"].
Proof. repeat split. Qed.

(** The listener cannot bind its port: the exception leaves [run_daemon]. *)
Example start_with_port_taken :
  let taken := mkExn OSError "[Errno 98] address already in use" in
  let env := Examples.env_with Examples.configured (Raise Examples.no_such_process)
               (Examples.backend_with (Ok tt) (Ok (Some Examples.ann)))
               (Raise taken) in
  let r := Daemon.run_daemon env (fresh None) in
  fst r = Raise taken /\ w_pid_file (snd r) = Some "4242".
Proof. split; reflexivity. Qed.

(** [send_message] reads [message] with the default [""]: a body without it
    is passed on. *)
Example send_message_without_message :
  backend_calls
    (w_trace (snd (Daemon.handle_send_message Examples.env_ok
                     (Examples.post [("entity", PStr "@ann")]) (fresh None))))
  = [Telethon.CConnect; Telethon.CIsUserAuthorized;
     Telethon.CSendMessage (PStr "@ann") (PStr "") PNone].
Proof. reflexivity. Qed.

(** The loop of [search_dialogs] tests the length after it has appended:
    with the limit 0 the first selected dialog is returned. *)
Example search_dialogs_loop_limit_zero :
  UserClient.search_dialogs_loop Examples.env_ok (PStr "") (PInt 0)
    Examples.dialogs None []
  = Ok [UserClient.dialog_data
          (Telethon.mkDialog 1 (Some "Alice ABC") 0 (Telethon.EUser (Some "al")))].
Proof. reflexivity. Qed.


(* ===================================================================== *)
(** ** One client, one connection *)
(* ===================================================================== *)

Section Preserves.
Context {S : Type} (I : S -> Prop).

Lemma preserves_ret {A} (a : A) : preserves I (ret a).
Proof. intros s H. exact H. Qed.

Lemma preserves_raise {A} (e : Exn) : preserves I (@raise S A e).
Proof. intros s H. exact H. Qed.

Lemma preserves_lift_res {A} (r : Res A) : preserves I (lift_res r).
Proof. intros s H. exact H. Qed.

Lemma preserves_gets {A} (f : S -> A) : preserves I (gets f).
Proof. intros s H. exact H. Qed.

Lemma preserves_bind {A B} (m : M S A) (k : A -> M S B) :
  preserves I m -> (forall a, preserves I (k a)) -> preserves I (bind m k).
Proof.
  intros Hm Hk s H. unfold bind. specialize (Hm s H).
  destruct (m s) as [[a|e] s1]; cbn [snd] in *.
  - apply Hk. exact Hm.
  - exact Hm.
Qed.

Lemma preserves_try_except {A} (body : M S A) (classes : Exn -> bool)
    (handler : Exn -> M S A) :
  preserves I body -> (forall e, preserves I (handler e)) ->
  preserves I (try_except body classes handler).
Proof.
  intros Hb Hh s H. unfold try_except. specialize (Hb s H).
  destruct (body s) as [[a|e] s1]; cbn [snd] in *.
  - exact Hb.
  - destruct (classes e); [apply Hh|]; exact Hb.
Qed.

End Preserves.

#[global] Instance built_balance_invariant (n m : nat) :
  ClientInvariant builds_nothing (built_balance n m).
Proof.
  unfold built_balance. split; cbn [UserClient.trace UserClient.self].
  - intros o tr e He H. rewrite constructions_app.
    destruct e; try discriminate He; cbn; lia.
  - intros cfg tr session id api_hash c H. rewrite constructions_app.
    cbn in *. lia.
  - intros cfg tr c c' H. exact H.
Qed.

#[global] Instance holds_client_invariant :
  ClientInvariant builds_nothing holds_client.
Proof.
  unfold holds_client. split; cbn [UserClient.trace UserClient.self]; auto.
Qed.

Section OneClient.
Context (env : Env).

Section Methods.
Context (allowed : Event -> bool) (I : UserClient.St -> Prop)
  `{!ClientInvariant allowed I}.

Lemma preserves_emit (e : Event) :
  allowed e = true -> preserves I (UserClient.emit e).
Proof.
  intros He [o tr] H. cbn. apply inv_event; assumption.
Qed.

Lemma preserves_client : preserves I (UserClient.client env).
Proof.
  intros [[cfg [c|]] tr] H;
    unfold UserClient.client, bind, gets, ret, raise, py_int,
      UserClient.emit, UserClient.set_client, modify;
    cbn [UserClient.self UserClient._client UserClient.config UserClient.trace
         fst snd].
  - exact H.
  - destruct (negb _); [exact H|].
    destruct (int_of_str _); cbn; [|exact H].
    apply inv_build. exact H.
Qed.

Lemma preserves_set_connected (b : bool) :
  preserves I (UserClient.set_connected env b).
Proof.
  intros s H. unfold UserClient.set_connected, bind.
  pose proof (preserves_client s H) as H1.
  destruct (UserClient.client env s) as [[c|e] s1] eqn:Hc; cbn [snd] in *;
    [|exact H1].
  apply client_returns in Hc.
  destruct s1 as [[cfg oc] tr]. cbn in Hc. subst oc.
  cbn. eapply inv_change. exact H1.
Qed.

Lemma preserves_request {A} (c : Telethon.Call) (answer : Res A) :
  allowed (EvCall c) = true ->
  preserves I (UserClient.request env c answer).
Proof.
  intros Hc. unfold UserClient.request.
  apply preserves_bind; [apply preserves_client|]. intros _.
  apply preserves_bind; [apply preserves_emit; exact Hc|]. intros _.
  apply preserves_lift_res.
Qed.

Lemma preserves_connect :
  allowed (EvCall Telethon.CConnect) = true ->
  preserves I (UserClient.connect env).
Proof.
  intros Hc. unfold UserClient.connect.
  apply preserves_bind; [apply preserves_client|]. intros c.
  destruct (negb (Telethon.is_connected c)); [|apply preserves_ret].
  apply preserves_bind; [apply preserves_request; exact Hc|]. intros _.
  apply preserves_set_connected.
Qed.

Lemma preserves_is_authorized :
  allowed (EvCall Telethon.CConnect) = true ->
  allowed (EvCall Telethon.CIsUserAuthorized) = true ->
  preserves I (UserClient.is_authorized env).
Proof.
  intros Hc Ha. unfold UserClient.is_authorized.
  apply preserves_bind; [apply preserves_connect; exact Hc|]. intros _.
  apply preserves_request. exact Ha.
Qed.

Lemma preserves_disconnect :
  allowed (EvCall Telethon.CDisconnect) = true ->
  preserves I (UserClient.disconnect env).
Proof.
  intros Hd.
  intros [[cfg [c|]] tr] H;
    unfold UserClient.disconnect, bind, gets, ret, lift_res,
      UserClient.emit, UserClient.set_client, modify;
    cbn [UserClient.self UserClient._client UserClient.config UserClient.trace
         fst snd]; [|exact H].
  destruct (Telethon.is_connected c); [|exact H]. cbn.
  destruct (Telethon.disconnect (backend env)); cbn.
  - eapply inv_change. apply inv_event; [exact Hd|exact H].
  - apply inv_event; [exact Hd|exact H].
Qed.

Lemma preserves_at_end {A} (stop : option Exn) (a : A) :
  preserves I (UserClient.at_end stop a).
Proof. destruct stop; [apply preserves_raise | apply preserves_ret]. Qed.

End Methods.

(** Takes a method apart into the steps that keep a client invariant. *)
Ltac keeps_invariant allowed :=
  repeat first
    [ exact _
    | reflexivity
    | assumption
    | match goal with H : forall c, _ (EvCall c) = true |- _ => apply H end
    | apply (preserves_connect allowed)
    | apply (preserves_request allowed)
    | apply (preserves_client allowed)
    | apply preserves_at_end
    | apply preserves_ret
    | apply preserves_raise
    | apply preserves_lift_res
    | apply (preserves_emit allowed)
    | apply preserves_bind; [|intros ?]
    | match goal with
      | |- preserves _ (match ?x with _ => _ end) => destruct x
      end ].

(** Every method of the user client keeps every client invariant that
    allows the requests to the backend. *)
Lemma methods_preserve (allowed : Event -> bool) (I : UserClient.St -> Prop)
    `{!ClientInvariant allowed I} :
  (forall c, allowed (EvCall c) = true) ->
  preserves I (UserClient.connect env)
  /\ preserves I (UserClient.disconnect env)
  /\ preserves I (UserClient.is_authorized env)
  /\ preserves I (UserClient.get_me env)
  /\ (forall entity message reply_to,
        preserves I (UserClient.send_message env entity message reply_to))
  /\ (forall entity file_path caption voice,
        preserves I (UserClient.send_file env entity file_path caption voice))
  /\ (forall entity limit, preserves I (UserClient.get_messages env entity limit))
  /\ (forall query limit, preserves I (UserClient.search_dialogs env query limit))
  /\ (forall entity message_id save_path,
        preserves I (UserClient.download_media env entity message_id save_path))
  /\ (forall entity message_id text,
        preserves I (UserClient.edit_message env entity message_id text))
  /\ (forall entity message_ids,
        preserves I (UserClient.delete_messages env entity message_ids)).
Proof.
  intros Hall.
  repeat split; intros;
    unfold UserClient.is_authorized, UserClient.get_me, UserClient.send_message,
      UserClient.send_file, UserClient.get_messages, UserClient.search_dialogs,
      UserClient.download_media, UserClient.edit_message,
      UserClient.delete_messages;
    first [apply (preserves_disconnect allowed); [exact _ | apply Hall]
          | keeps_invariant allowed].
Qed.

(** From the two invariants to the count of a run. *)
Lemma builds_once_of {A} (m : M UserClient.St A) :
  (forall I, ClientInvariant builds_nothing I -> preserves I m) -> builds_once m.
Proof.
  intros H s. split.
  - destruct (built (UserClient.self s)) as [|k] eqn:Hb; [lia|].
    assert (Hs : holds_client s).
    { unfold holds_client, built in *.
      destruct (UserClient._client (UserClient.self s)); [reflexivity|discriminate]. }
    pose proof (H holds_client _ s Hs) as H1. unfold holds_client in H1.
    unfold built in Hb.
    destruct (UserClient._client (UserClient.self s)); [|discriminate].
    injection Hb as <-. lia.
  - pose proof (H (built_balance (constructions (UserClient.trace s))
                     (built (UserClient.self s))) _ s) as H1.
    unfold built_balance in H1. apply H1. lia.
Qed.

(** X2: no method of [UserClient] builds a second Telegram client: a
    method builds one only when the object holds none, the object holds it
    from then on, and a method on an object that holds its client builds
    nothing. *)
Theorem user_client_builds_once :
  builds_once (UserClient.connect env)
  /\ builds_once (UserClient.disconnect env)
  /\ builds_once (UserClient.is_authorized env)
  /\ builds_once (UserClient.get_me env)
  /\ (forall entity message reply_to,
        builds_once (UserClient.send_message env entity message reply_to))
  /\ (forall entity file_path caption voice,
        builds_once (UserClient.send_file env entity file_path caption voice))
  /\ (forall entity limit, builds_once (UserClient.get_messages env entity limit))
  /\ (forall query limit, builds_once (UserClient.search_dialogs env query limit))
  /\ (forall entity message_id save_path,
        builds_once (UserClient.download_media env entity message_id save_path))
  /\ (forall entity message_id text,
        builds_once (UserClient.edit_message env entity message_id text))
  /\ (forall entity message_ids,
        builds_once (UserClient.delete_messages env entity message_ids)).
Proof.
  repeat split; intros; apply builds_once_of; intros I HI;
    pose proof (methods_preserve builds_nothing I (fun _ => eq_refl)) as
      (H1 & H2 & H3 & H4 & H5 & H6 & H7 & H8 & H9 & H10 & H11); auto.
Qed.

(** X1: [connect] is idempotent: after a [connect] that returned, another
    one asks the backend nothing and changes nothing. *)
Theorem connect_again_does_nothing (s : UserClient.St) :
  fst (UserClient.connect env s) = Ok tt ->
  UserClient.connect env (snd (UserClient.connect env s))
  = (Ok tt, snd (UserClient.connect env s)).
Proof.
  intros H. destruct (connect_ok env s H) as (c & Hc & Hup).
  unfold UserClient.connect at 1. unfold bind.
  rewrite (client_cached env _ c Hc), Hup. reflexivity.
Qed.

End OneClient.

Section Leads.
Context {S : Type}.

Lemma leads_bind {A B} (P R Q : S -> Prop) (m : M S A) (k : A -> M S B) :
  leads P R m -> (forall a, leads R Q (k a)) -> (forall s, R s -> Q s) ->
  leads P Q (bind m k).
Proof.
  intros Hm Hk HRQ s H. unfold bind. specialize (Hm s H).
  destruct (m s) as [[a|e] s1]; cbn [snd] in *.
  - apply Hk. exact Hm.
  - apply HRQ. exact Hm.
Qed.

Lemma leads_preserves {A} (I : S -> Prop) (m : M S A) :
  preserves I m -> leads I I m.
Proof. intros H. exact H. Qed.

Lemma leads_weaken {A} (P Q Q' : S -> Prop) (m : M S A) :
  leads P Q m -> (forall s, Q s -> Q' s) -> leads P Q' m.
Proof. intros H HQ s Hs. apply HQ, H, Hs. Qed.

End Leads.

Section OneClientDaemon.
Context (env : Env) (allowed : Event -> bool) (I : UserClient.St -> Prop)
  `{!ClientInvariant allowed I}.
Context (allowed_quiet : forall e, quiet e = true -> allowed e = true).

Lemma daemon_emit (e : Event) :
  allowed e = true -> preserves (on_daemon I) (emit e).
Proof.
  intros He w H. unfold on_daemon in *. cbn.
  destruct (w_client w); [|intros cfg]; apply inv_event; auto.
Qed.

Lemma daemon_set_config (c : Config.Config) :
  preserves (on_daemon I) (set_config c).
Proof. intros w H. exact H. Qed.

Lemma daemon_write_pid (text : string) : preserves (on_daemon I) (write_pid text).
Proof.
  intros w H. unfold on_daemon in *. cbn.
  destruct (w_client w); [|intros cfg]; apply inv_event; auto.
Qed.

Lemma daemon_unlink_pid : preserves (on_daemon I) unlink_pid.
Proof.
  intros w H. unfold on_daemon in *. cbn.
  destruct (w_client w); [|intros cfg]; apply inv_event; auto.
Qed.

Lemma daemon_os_kill (pid sig : Z) : preserves (on_daemon I) (os_kill env pid sig).
Proof.
  intros w H. unfold on_daemon in *. cbn.
  destruct (w_client w); [|intros cfg]; apply inv_event; auto.
Qed.

Lemma daemon_sys_exit {A} (code : Z) : preserves (on_daemon I) (@sys_exit World A code).
Proof. intros w H. exact H. Qed.

(** A method that keeps the invariant keeps it on the daemon. *)
Lemma daemon_call_client {A} (method : string) (m : M UserClient.St A) :
  preserves I m -> preserves (on_daemon I) (call_client method m).
Proof.
  intros Hm w H. unfold call_client, on_daemon in *.
  destruct (w_client w) as [o|] eqn:Hcl.
  - specialize (Hm _ H).
    destruct (m (UserClient.mkSt o (w_trace w))) as [r [o' tr']]. exact Hm.
  - cbn [snd]. rewrite Hcl. exact H.
Qed.

(** [if _client is None: _client = UserClient(config)] and what follows. *)
Lemma daemon_ensure_client {A} (config : Config.Config) (rest : M World A) :
  preserves (on_daemon I) rest ->
  preserves (on_daemon I)
    (cl <- gets w_client ;;
     match cl with
     | None => set_client (UserClient.new config)
     | Some _ => ret tt
     end ;;
     rest).
Proof.
  intros Hrest w H. unfold bind at 1. unfold gets. cbn [fst snd].
  destruct (w_client w) as [o|] eqn:Hcl.
  - unfold bind, ret. apply Hrest. exact H.
  - unfold bind, set_client, modify. cbn [fst snd]. apply Hrest.
    unfold on_daemon in *. rewrite Hcl in H. cbn. apply H.
Qed.

Lemma daemon_get_client : preserves (on_daemon I) (Daemon.get_client env).
Proof.
  pose proof (preserves_is_authorized env allowed I
                (allowed_quiet (EvCall Telethon.CConnect) eq_refl)
                (allowed_quiet (EvCall Telethon.CIsUserAuthorized) eq_refl))
    as Hauth.
  unfold Daemon.get_client.
  apply preserves_bind; [apply preserves_gets|]. intros cfg.
  apply preserves_bind.
  { destruct cfg; [apply preserves_ret|].
    apply preserves_bind; [apply daemon_set_config|]. intros _.
    apply preserves_ret. }
  intros config. apply daemon_ensure_client.
  apply preserves_bind; [apply daemon_call_client, Hauth|]. intros authorized.
  destruct (negb authorized); [apply preserves_raise | apply preserves_ret].
Qed.

Section AllCalls.
Context (allowed_calls : forall c, allowed (EvCall c) = true).

(** Takes a handler apart into the steps that keep the invariant. *)
Ltac handler_keeps :=
  repeat first
    [ exact _
    | reflexivity
    | apply allowed_quiet
    | apply daemon_get_client
    | apply daemon_call_client; solve [auto 2]
    | apply preserves_ret
    | apply preserves_raise
    | apply preserves_lift_res
    | apply daemon_emit
    | apply preserves_try_except; [|intros ?]
    | apply preserves_bind; [|intros ?]
    | match goal with
      | |- preserves _ (match ?x with _ => _ end) => destruct x
      end ].

Lemma daemon_handler (route : Daemon.Route) (request : Daemon.Request) :
  preserves (on_daemon I) (Daemon.create_app env route request).
Proof.
  pose proof (methods_preserve env allowed I allowed_calls) as
    (H1 & H2 & H3 & H4 & H5 & H6 & H7 & H8 & H9 & H10 & H11).
  destruct route; cbn [Daemon.create_app];
    unfold Daemon.handle_health, Daemon.handle_send_message,
      Daemon.handle_send_file, Daemon.handle_get_messages,
      Daemon.handle_search_dialogs, Daemon.handle_download_media,
      Daemon.handle_edit_message, Daemon.handle_delete_messages,
      Daemon.on_exception;
    handler_keeps; auto.
Qed.

Lemma daemon_serve (requests : list (Daemon.Route * Daemon.Request)) (w : World) :
  on_daemon I w -> on_daemon I (serve env requests w).
Proof.
  revert w. induction requests as [|[route request] rest IH]; intros w H.
  - exact H.
  - cbn [serve]. apply IH, daemon_handler, H.
Qed.

(** [run_daemon] in a process whose global [_client] is not set yet. *)
Lemma daemon_run_daemon :
  leads (fun w => w_client w = None /\ on_daemon I w) (on_daemon I)
    (Daemon.run_daemon env).
Proof.
  pose proof (methods_preserve env allowed I allowed_calls) as (_ & _ & _ & Hme & _).
  set (fresh_I := fun w => w_client w = None /\ on_daemon I w).
  assert (Hweak : forall w, fresh_I w -> on_daemon I w) by (intros w [_ H]; exact H).
  assert (Hstep : forall A (m : M World A),
             (forall w, w_client (snd (m w)) = w_client w) ->
             preserves (on_daemon I) m -> leads fresh_I fresh_I m).
  { intros A m Hcl Hm w [Hn H]. split; [rewrite Hcl; exact Hn | apply Hm, H]. }
  unfold Daemon.run_daemon. cbn zeta.
  eapply leads_bind; [apply Hstep; [reflexivity | apply daemon_set_config]| |exact Hweak].
  intros _.
  eapply leads_bind; [| |exact Hweak].
  { apply Hstep.
    - intros w. destruct (negb _); reflexivity.
    - destruct (negb _); [|apply preserves_ret].
      apply preserves_bind; [apply daemon_emit, allowed_quiet; reflexivity|]. intros _.
      apply daemon_sys_exit. }
  intros _.
  eapply leads_bind; [apply Hstep; [reflexivity | apply preserves_gets]| |exact Hweak].
  intros pid_file.
  eapply leads_bind; [| |exact Hweak].
  { apply Hstep.
    - intros w. destruct pid_file as [text|]; [|reflexivity].
      unfold try_except, bind, py_int, os_kill, emit, modify, sys_exit, raise, ret.
      destruct (int_of_str (strip text)); cbn [fst snd].
      + destruct (kill env (w_kills w) z 0); cbn [fst snd];
          [|destruct (Daemon.OSError_or_ValueError e)]; reflexivity.
      + destruct (Daemon.OSError_or_ValueError _); reflexivity.
    - destruct pid_file as [text|]; [|apply preserves_ret].
      apply preserves_try_except; [|intros ?; apply preserves_ret].
      apply preserves_bind.
      { unfold py_int. destruct (int_of_str _);
          [apply preserves_ret | apply preserves_raise]. }
      intros old_pid.
      apply preserves_bind; [apply daemon_os_kill|]. intros _.
      apply preserves_bind; [apply daemon_emit, allowed_quiet; reflexivity|]. intros _.
      apply daemon_sys_exit. }
  intros _.
  eapply leads_bind; [apply Hstep; [reflexivity | apply daemon_write_pid]| |exact Hweak].
  intros _.
  eapply leads_bind with (R := on_daemon I); [| |auto].
  { intros w [Hn H]. unfold on_daemon in *. rewrite Hn in H. cbn. apply H. }
  intros _. apply leads_preserves.
  apply preserves_bind.
  { apply preserves_try_except.
    - apply preserves_bind; [apply daemon_call_client, Hme|]. intros me.
      apply daemon_emit, allowed_quiet; reflexivity.
    - intros e.
      apply preserves_bind; [apply daemon_emit, allowed_quiet; reflexivity|]. intros _.
      apply preserves_bind; [apply daemon_unlink_pid|]. intros _.
      apply daemon_sys_exit. }
  intros _.
  apply preserves_bind; [apply preserves_lift_res|]. intros _.
  apply preserves_bind; [apply daemon_emit, allowed_quiet; reflexivity|]. intros _.
  apply daemon_emit, allowed_quiet; reflexivity.
Qed.

End AllCalls.

End OneClientDaemon.

Lemma on_daemon_balance (n m : nat) (w : World) :
  on_daemon (built_balance n m) w
  <-> constructions (w_trace w) + m = n + w_built w.
Proof.
  unfold on_daemon, built_balance, w_built.
  destruct (w_client w) as [o|]; cbn; [reflexivity|].
  split; [intros H; exact (H Config.default) | intros H _; exact H].
Qed.

Lemma on_daemon_holds (w : World) :
  on_daemon holds_client w <-> w_built w = 1.
Proof.
  unfold on_daemon, holds_client, w_built.
  destruct (w_client w) as [o|]; cbn; [reflexivity|].
  split; [intros H; exact (H Config.default) | discriminate].
Qed.

Lemma w_built_le_1 (w : World) : w_built w <= 1.
Proof.
  unfold w_built, built. destruct (w_client w) as [o|]; [|lia].
  destruct (UserClient._client o); lia.
Qed.

Lemma quiet_builds_nothing (e : Event) :
  quiet e = true -> builds_nothing e = true.
Proof. unfold quiet. intros H. apply andb_prop in H. apply H. Qed.

Lemma quiet_no_operation (e : Event) :
  quiet e = true -> no_operation e = true.
Proof. unfold quiet. intros H. apply andb_prop in H. apply H. Qed.

Section OneClientTheorems.
Context (env : Env).

(** X3: a handler builds a Telegram client only when the daemon holds
    none, and the daemon holds it from then on: over one request the
    clients built grow exactly as the client held does, by one or not at
    all. *)
Theorem handler_builds_at_most_once (route : Daemon.Route)
    (request : Daemon.Request) (w : World) :
  let w' := snd (Daemon.create_app env route request w) in
  w_built w <= w_built w'
  /\ constructions (w_trace w') + w_built w
     = constructions (w_trace w) + w_built w'.
Proof.
  cbn zeta. split.
  - destruct (w_built w) as [|k] eqn:Hb; [lia|].
    pose proof (w_built_le_1 w) as Hle.
    assert (Hone : w_built w = 1) by lia.
    apply on_daemon_holds in Hone.
    apply (daemon_handler env builds_nothing holds_client
             quiet_builds_nothing (fun _ => eq_refl) route request),
      on_daemon_holds in Hone.
    lia.
  - pose proof (daemon_handler env builds_nothing
                  (built_balance (constructions (w_trace w)) (w_built w))
                  quiet_builds_nothing (fun _ => eq_refl) route request w) as H.
    rewrite !on_daemon_balance in H. apply H. lia.
Qed.

(** X4: over the life of the daemon, from [run_daemon] in a new process
    through any number of requests served one after the other, at most one
    Telegram client is built, and it is the one the daemon holds. *)
Theorem daemon_builds_one_client (pid_file : option string)
    (requests : list (Daemon.Route * Daemon.Request)) :
  let w := serve env requests (snd (Daemon.run_daemon env (fresh pid_file))) in
  constructions (w_trace w) = w_built w /\ constructions (w_trace w) <= 1.
Proof.
  cbn zeta.
  assert (H : on_daemon (built_balance 0 0)
                (serve env requests (snd (Daemon.run_daemon env (fresh pid_file))))).
  { apply (daemon_serve env builds_nothing (built_balance 0 0)
             quiet_builds_nothing (fun _ => eq_refl)).
    apply (daemon_run_daemon env builds_nothing (built_balance 0 0)
             quiet_builds_nothing (fun _ => eq_refl)).
    split; [reflexivity|]. apply on_daemon_balance. reflexivity. }
  apply on_daemon_balance in H.
  pose proof (w_built_le_1
                (serve env requests (snd (Daemon.run_daemon env (fresh pid_file))))).
  lia.
Qed.

End OneClientTheorems.

Lemma connect_again_does_nothing_witness :
  fst (UserClient.connect Examples.env_ok Examples.new_client) = Ok tt
  /\ backend_calls
       (UserClient.trace (snd (UserClient.connect Examples.env_ok Examples.new_client)))
     = [Telethon.CConnect]
  /\ UserClient.connect Examples.env_ok
       (snd (UserClient.connect Examples.env_ok Examples.new_client))
     = (Ok tt, snd (UserClient.connect Examples.env_ok Examples.new_client)).
Proof.
  split; [reflexivity|]. split; [reflexivity|].
  apply connect_again_does_nothing. reflexivity.
Defined.

(** Two requests after a start: the client built by [run_daemon] serves
    both. *)
Example two_requests_one_client :
  let w := serve Examples.env_ok
             [(Daemon.send_message,
               Examples.post [("entity", PStr "@ann"); ("message", PStr "hi")]);
              (Daemon.health_route, Daemon.mkRequest (Ok PNone))]
             (snd (Daemon.run_daemon Examples.env_ok (fresh None))) in
  constructions (w_trace w) = 1
  /\ backend_calls (w_trace w)
     = [Telethon.CConnect; Telethon.CGetMe;
        Telethon.CIsUserAuthorized;
        Telethon.CSendMessage (PStr "@ann") (PStr "hi") PNone;
        Telethon.CIsUserAuthorized; Telethon.CGetMe].
Proof. split; reflexivity. Qed.

(* ===================================================================== *)
(** ** What a handler answers *)
(* ===================================================================== *)

Section Yields.
Context {S : Type}.

Lemma yields_ret {A} (a : A) (P : A -> Prop) : P a -> yields (@ret S A a) P.
Proof. intros H s a' s' [= <- _]. exact H. Qed.

Lemma yields_raise {A} (e : Exn) (P : A -> Prop) : yields (@raise S A e) P.
Proof. intros s a s' [=]. Qed.

Lemma yields_lift_res {A} (r : Res A) :
  yields (@lift_res S A r) (fun a => r = Ok a).
Proof. intros s a s' [= -> _]. reflexivity. Qed.

Lemma yields_bind {A B} (m : M S A) (k : A -> M S B) (Q : A -> Prop)
    (P : B -> Prop) :
  yields m Q -> (forall a, Q a -> yields (k a) P) -> yields (bind m k) P.
Proof.
  intros Hm Hk s b s'. unfold bind.
  destruct (m s) as [[a|e] s1] eqn:E; [|discriminate].
  intros H. exact (Hk a (Hm _ _ _ E) _ _ _ H).
Qed.

Lemma yields_bind_any {A B} (m : M S A) (k : A -> M S B) (P : B -> Prop) :
  (forall a, yields (k a) P) -> yields (bind m k) P.
Proof.
  intros Hk. apply (yields_bind m k (fun _ => True)); [|auto].
  intros s a s' _. exact Logic.I.
Qed.

Lemma yields_bind_stop {A B} (m : M S A) (k : A -> M S B) (P : B -> Prop) :
  yields m (fun _ => False) -> yields (bind m k) P.
Proof.
  intros Hm. apply (yields_bind m k (fun _ => False)); [exact Hm|].
  intros a [].
Qed.

Lemma yields_try_except {A} (body : M S A) (classes : Exn -> bool)
    (handler : Exn -> M S A) (P : A -> Prop) :
  yields body P -> (forall e, yields (handler e) P) ->
  yields (try_except body classes handler) P.
Proof.
  intros Hb Hh s a s'. unfold try_except.
  destruct (body s) as [[a0|e] s1] eqn:E.
  - intros [= <- _]. exact (Hb _ _ _ E).
  - destruct (classes e); [apply Hh | discriminate].
Qed.

Lemma yields_weaken {A} (m : M S A) (P Q : A -> Prop) :
  yields m P -> (forall a, P a -> Q a) -> yields m Q.
Proof. intros Hm HPQ s a s' E. exact (HPQ a (Hm _ _ _ E)). Qed.

Lemma preserves_bind_stop {A B} (I : S -> Prop) (m : M S A) (k : A -> M S B) :
  preserves I m -> yields m (fun _ => False) -> preserves I (bind m k).
Proof.
  intros Hm Hstop s H. unfold bind. specialize (Hm s H).
  destruct (m s) as [[a|e] s1] eqn:E; cbn [snd] in *.
  - destruct (Hstop _ _ _ E).
  - exact Hm.
Qed.

Lemma preserves_bind_yields {A B} (I : S -> Prop) (Q : A -> Prop)
    (m : M S A) (k : A -> M S B) :
  preserves I m -> yields m Q -> (forall a, Q a -> preserves I (k a)) ->
  preserves I (bind m k).
Proof.
  intros Hm HQ Hk s H. unfold bind. specialize (Hm s H).
  destruct (m s) as [[a|e] s1] eqn:E; cbn [snd] in *.
  - apply (Hk a (HQ _ _ _ E)). exact Hm.
  - exact Hm.
Qed.

End Yields.

Lemma yields_call_client {A} (method : string) (m : M UserClient.St A)
    (P : A -> Prop) :
  yields m P -> yields (call_client method m) P.
Proof.
  intros Hm w a w'. unfold call_client.
  destruct (w_client w) as [o|]; [|discriminate].
  destruct (m (UserClient.mkSt o (w_trace w))) as [r s] eqn:E.
  intros [= -> _]. exact (Hm _ _ _ E).
Qed.

#[global] Instance operations_are_invariant (ops : list Telethon.Call) :
  ClientInvariant no_operation (operations_are ops).
Proof.
  unfold operations_are, operations.
  split; cbn [UserClient.trace UserClient.self].
  - intros o tr e He H. rewrite backend_calls_app, List.filter_app, H.
    destruct e; cbn in *; rewrite ?app_nil_r; try reflexivity.
    apply negb_true_iff in He. rewrite He. apply app_nil_r.
  - intros cfg tr session id api_hash c H.
    rewrite backend_calls_app, List.filter_app, H. apply app_nil_r.
  - intros cfg tr c c' H. exact H.
Qed.

Lemma on_daemon_operations (ops : list Telethon.Call) (w : World) :
  on_daemon (operations_are ops) w <-> operations (w_trace w) = ops.
Proof.
  unfold on_daemon, operations_are.
  destruct (w_client w) as [o|]; cbn; [reflexivity|].
  split; [intros H; exact (H Config.default) | intros H _; exact H].
Qed.

Section Gate.
Context (env : Env).

(** [is_authorized] returns what the backend answers. *)
Lemma is_authorized_yields :
  yields (UserClient.is_authorized env)
    (fun b => Telethon.is_user_authorized (backend env) = Ok b).
Proof.
  unfold UserClient.is_authorized, UserClient.request.
  apply yields_bind_any. intros _.
  apply yields_bind_any. intros _.
  apply yields_bind_any. intros _.
  apply yields_lift_res.
Qed.

(** [get_client] returns only on the word of the backend. *)
Lemma get_client_yields :
  yields (Daemon.get_client env)
    (fun _ => Telethon.is_user_authorized (backend env) = Ok true).
Proof.
  unfold Daemon.get_client.
  apply yields_bind_any. intros cfg.
  apply yields_bind_any. intros config.
  apply yields_bind_any. intros cl.
  apply yields_bind_any. intros _.
  eapply yields_bind; [apply yields_call_client, is_authorized_yields|].
  intros [|] H; cbn [negb].
  - apply yields_ret. exact H.
  - apply yields_raise.
Qed.

Context (not_authorized : Telethon.is_user_authorized (backend env) <> Ok true).

Lemma get_client_stops : yields (Daemon.get_client env) (fun _ => False).
Proof.
  eapply yields_weaken; [apply get_client_yields|].
  intros a H. exact (not_authorized H).
Qed.

Ltac unfold_handlers :=
  unfold Daemon.create_app, Daemon.handle_health, Daemon.handle_send_message,
    Daemon.handle_send_file, Daemon.handle_get_messages,
    Daemon.handle_search_dialogs, Daemon.handle_download_media,
    Daemon.handle_edit_message, Daemon.handle_delete_messages,
    Daemon.on_exception.

Lemma gate_keeps_operations (ops : list Telethon.Call) (route : Daemon.Route)
    (request : Daemon.Request) :
  preserves (on_daemon (operations_are ops))
    (Daemon.create_app env route request).
Proof.
  destruct route; unfold_handlers;
    repeat first
      [ apply preserves_ret
      | apply preserves_raise
      | apply preserves_lift_res
      | apply preserves_bind_stop;
        [ apply (daemon_get_client env no_operation (operations_are ops)
                   quiet_no_operation)
        | apply get_client_stops ]
      | apply (daemon_emit no_operation (operations_are ops)); reflexivity
      | apply preserves_try_except; [|intros ?]
      | apply preserves_bind; [|intros ?]
      | match goal with
        | |- preserves _ (if ?x then _ else _) => destruct x
        end ].
Qed.

Lemma gate_answers (route : Daemon.Route) (request : Daemon.Request) :
  yields (Daemon.create_app env route request)
    (fun r => Daemon.status r <> 200%Z).
Proof.
  destruct route; unfold_handlers;
    repeat first
      [ apply yields_ret; cbn [Daemon.status]; lia
      | apply yields_raise
      | apply yields_bind_stop; apply get_client_stops
      | apply yields_try_except; [|intros ?]
      | apply yields_bind_any; intros ?
      | match goal with
        | |- yields (if ?x then _ else _) _ => destruct x
        end ].
Qed.

(** X5: when the backend does not answer that the session is authorized,
    no handler requests an operation on the account, whatever the request
    is and whatever state the daemon is in: the requests it sends are about
    the connection and the authorization only, and its answer is not a
    success. *)
Theorem unauthorized_session_gets_no_operation (route : Daemon.Route)
    (request : Daemon.Request) (w : World) :
  let r := Daemon.create_app env route request w in
  operations (w_trace (snd r)) = operations (w_trace w)
  /\ forall response, fst r = Ok response -> Daemon.status response <> 200%Z.
Proof.
  cbn zeta. split.
  - apply on_daemon_operations.
    apply gate_keeps_operations, on_daemon_operations. reflexivity.
  - intros response H.
    destruct (Daemon.create_app env route request w) as [r w'] eqn:E.
    cbn in H. subst r. exact (gate_answers route request _ _ _ E).
Qed.

End Gate.
Lemma unauthorized_session_gets_no_operation_witness :
  let w := snd (Daemon.run_daemon env_logged_out (fresh None)) in
  let request :=
    Examples.post [("entity", PStr "@ann"); ("message", PStr "hi")] in
  let r := Daemon.create_app env_logged_out Daemon.send_message request w in
  Telethon.is_user_authorized (backend env_logged_out) <> Ok true
  /\ operations (w_trace (snd r)) = operations (w_trace w)
  /\ fst r = Ok (Daemon.json_response
                   (Daemon.error_body "Not authorized. Run 'tg login' first.")
                   500).
Proof.
  cbn zeta.
  assert (H : Telethon.is_user_authorized (backend env_logged_out) <> Ok true)
    by discriminate.
  split; [exact H|]. split; [|reflexivity].
  exact (proj1 (unauthorized_session_gets_no_operation env_logged_out H
                  Daemon.send_message _ _)).
Defined.

Section Envelope.
Context (env : Env).

Lemma send_message_yields (entity message reply_to : pyval) :
  yields (UserClient.send_message env entity message reply_to)
    (fun d => exists sent, d = UserClient.sent_dict sent).
Proof.
  unfold UserClient.send_message.
  apply yields_bind_any. intros _.
  apply yields_bind_any. intros sent.
  apply yields_ret. eauto.
Qed.

Lemma send_file_yields (entity file_path caption voice : pyval) :
  yields (UserClient.send_file env entity file_path caption voice)
    (fun d => exists sent, d = UserClient.sent_dict sent).
Proof.
  unfold UserClient.send_file.
  apply yields_bind_any. intros _.
  apply yields_bind_any. intros path.
  destruct (negb _); [apply yields_raise|].
  apply yields_bind_any. intros sent.
  apply yields_ret. eauto.
Qed.

Lemma download_media_yields (entity message_id save_path : pyval) :
  yields (UserClient.download_media env entity message_id save_path)
    (fun d => exists path, d = [("path", PStr path)]).
Proof.
  unfold UserClient.download_media.
  apply yields_bind_any. intros _.
  apply yields_bind_any. intros [m|]; [|apply yields_raise].
  destruct (Telethon.m_media m); [|apply yields_raise].
  apply yields_bind_any. intros _.
  apply yields_bind_any. intros [p|]; [|apply yields_raise].
  destruct (nonempty p); [|apply yields_raise].
  apply yields_ret. eauto.
Qed.

Lemma edit_message_yields (entity message_id text : pyval) :
  yields (UserClient.edit_message env entity message_id text)
    (fun d => d = [("message_id", message_id)]).
Proof.
  unfold UserClient.edit_message.
  apply yields_bind_any. intros _.
  apply yields_bind_any. intros _.
  apply yields_ret. reflexivity.
Qed.

Lemma delete_messages_yields (entity message_ids : pyval) :
  yields (UserClient.delete_messages env entity message_ids)
    (fun d => exists n, d = [("deleted", PInt n)]).
Proof.
  unfold UserClient.delete_messages.
  apply yields_bind_any. intros _.
  apply yields_bind_any. intros _.
  apply yields_bind_any. intros n.
  apply yields_ret. eauto.
Qed.

Ltac in_envelope :=
  first
    [ left; split; reflexivity
    | right; split; [auto|]; split; [reflexivity|]; eexists; reflexivity ].

(** The steps of a handler up to its answer. *)
Ltac answers :=
  repeat first
    [ apply yields_raise
    | apply yields_ret; in_envelope
    | eapply yields_bind;
      [ apply yields_call_client;
        first [ apply send_message_yields | apply send_file_yields
              | apply download_media_yields | apply edit_message_yields
              | apply delete_messages_yields ]
      | cbv beta; intros ? ?;
        repeat match goal with
               | H : exists _, _ |- _ => destruct H
               end; subst ]
    | apply yields_bind_any; intros ?
    | match goal with
      | |- yields (if ?x then _ else _) _ => destruct x
      end ].

Lemma answers_try {S} (body : M S Daemon.Response)
    (handler : Exn -> M S Daemon.Response) (s : S) :
  yields body envelope ->
  (forall e, yields (handler e) envelope) ->
  (forall e s, exists r, fst (handler e s) = Ok r) ->
  match fst (try_except body is_Exception handler s) with
  | Ok r => envelope r
  | Raise e => is_Exception e = false
  end.
Proof.
  intros Hb Hh Hret. unfold try_except.
  destruct (body s) as [[r|e] s1] eqn:E; cbn [fst].
  - exact (Hb _ _ _ E).
  - destruct (is_Exception e) eqn:Hexc; [|exact Hexc].
    destruct (Hret e s1) as [r Hr].
    destruct (handler e s1) as [r' s2] eqn:E'. cbn in Hr. subst r'.
    cbn [fst]. exact (Hh _ _ _ _ E').
Qed.

(** X6: what a handler answers is inside one envelope, whatever the
    request and the backend do: status 200 with ok true, or status 400 or
    500 with ok false and the text of an error.  No exception of the class
    [Exception] leaves a handler; what can leave it is what derives from
    [BaseException] only. *)
Theorem handler_answers_in_envelope (route : Daemon.Route)
    (request : Daemon.Request) (w : World) :
  match fst (Daemon.create_app env route request w) with
  | Ok response => envelope response
  | Raise e => is_Exception e = false
  end.
Proof.
  destruct route; cbn [Daemon.create_app];
    unfold Daemon.handle_health, Daemon.handle_send_message,
      Daemon.handle_send_file, Daemon.handle_get_messages,
      Daemon.handle_search_dialogs, Daemon.handle_download_media,
      Daemon.handle_edit_message, Daemon.handle_delete_messages;
    (apply answers_try;
     [ answers
     | intros e; unfold Daemon.on_exception; answers
     | intros e s; eexists; reflexivity ]).
Qed.

End Envelope.
(* ===================================================================== *)
(** ** The client of the daemon, request after request *)
(* ===================================================================== *)

Section GetClient.
Context (env : Env).

(** [is_authorized] on a client whose transport is up: one request. *)
Lemma is_authorized_connected (s : UserClient.St) (c : Telethon.TelegramClient) :
  UserClient._client (UserClient.self s) = Some c ->
  Telethon.is_connected c = true ->
  UserClient.is_authorized env s
  = (Telethon.is_user_authorized (backend env),
     UserClient.mkSt (UserClient.self s)
       (UserClient.trace s ++ [EvCall Telethon.CIsUserAuthorized])).
Proof.
  intros Hc Hup. unfold UserClient.is_authorized, UserClient.connect, bind.
  rewrite (client_cached env s c Hc), Hup. cbn [negb ret].
  apply (request_cached env s c _ _ Hc).
Qed.

(** When [is_authorized] returns, the transport is up and the backend has
    answered. *)
Lemma is_authorized_ok (s : UserClient.St) (b : bool) :
  fst (UserClient.is_authorized env s) = Ok b ->
  Telethon.is_user_authorized (backend env) = Ok b
  /\ exists c,
       UserClient._client (UserClient.self (snd (UserClient.is_authorized env s)))
       = Some c
       /\ Telethon.is_connected c = true.
Proof.
  unfold UserClient.is_authorized.
  destruct (fst (UserClient.connect env s)) as [[]|e] eqn:Hconn.
  - rewrite (after_connect env _ s Hconn).
    destruct (connect_ok env s Hconn) as (c & Hc & Hup).
    rewrite (request_cached env _ c _ _ Hc). cbn [fst snd UserClient.self].
    intros H. split; [exact H|]. exists c. split; assumption.
  - unfold bind. destruct (UserClient.connect env s) as [[[]|e'] s1];
      cbn in *; discriminate.
Qed.

(** [get_client], step by step. *)
Lemma get_client_unfold (w : World) :
  Daemon.get_client env w
  = let config := match w_config w with
                  | Some c => c
                  | None => load_config env
                  end in
    let client := match w_client w with
                  | Some o => o
                  | None => UserClient.new config
                  end in
    let r := UserClient.is_authorized env (UserClient.mkSt client (w_trace w)) in
    let w' := mkWorld (w_pid_file w) (w_kills w) (w_probes w) (Some config)
                (Some (UserClient.self (snd r))) (UserClient.trace (snd r)) in
    match fst r with
    | Ok true => (Ok tt, w')
    | Ok false =>
        (Raise (mkExn RuntimeError "Not authorized. Run 'tg login' first."), w')
    | Raise e => (Raise e, w')
    end.
Proof.
  destruct w as [pid_file kills probes [config|] [client|] trace];
    unfold Daemon.get_client; run_world;
    match goal with
    | |- context [UserClient.is_authorized env ?s] =>
        destruct (UserClient.is_authorized env s) as [[[|]|e] s1]
    end; reflexivity.
Qed.

(** X7: once [get_client] has returned, the next [get_client] of the
    process asks the backend one thing, whether the session is authorized,
    and changes nothing else: the configuration is not loaded again, no
    client is built, the transport is not connected again. *)
Theorem get_client_again (w : World) :
  fst (Daemon.get_client env w) = Ok tt ->
  let w1 := snd (Daemon.get_client env w) in
  Daemon.get_client env w1 = (Ok tt, asked w1 Telethon.CIsUserAuthorized).
Proof.
  cbn zeta. rewrite (get_client_unfold w). cbn zeta.
  set (config := match w_config w with Some c => c | None => load_config env end).
  set (client := match w_client w with Some o => o | None => UserClient.new config end).
  destruct (fst (UserClient.is_authorized env (UserClient.mkSt client (w_trace w))))
    as [[|]|e] eqn:Hauth; cbn [fst snd]; try discriminate.
  intros _.
  destruct (is_authorized_ok _ _ Hauth) as (Hyes & c & Hc & Hup).
  rewrite get_client_unfold.
  cbn [w_config w_client w_trace w_pid_file w_kills w_probes].
  rewrite (is_authorized_connected _ c) by (cbn; assumption).
  cbn [fst snd UserClient.self UserClient.trace]. rewrite Hyes.
  destruct (UserClient.is_authorized env (UserClient.mkSt client (w_trace w)))
    as [r [o tr]].
  reflexivity.
Qed.

End GetClient.

Lemma get_client_again_witness :
  let w := snd (Daemon.get_client Examples.env_ok (fresh None)) in
  fst (Daemon.get_client Examples.env_ok (fresh None)) = Ok tt
  /\ backend_calls (w_trace w)
     = [Telethon.CConnect; Telethon.CIsUserAuthorized]
  /\ Daemon.get_client Examples.env_ok w
     = (Ok tt, asked w Telethon.CIsUserAuthorized).
Proof.
  cbn zeta. split; [reflexivity|]. split; [reflexivity|].
  apply get_client_again. reflexivity.
Defined.

(* ===================================================================== *)
(** ** The entries of [get_messages] *)
(* ===================================================================== *)

Lemma attributes_fold (msg : Telethon.Message)
    (attributes : list Telethon.DocumentAttribute) :
  forall (kind : string) (name : option string),
    fold_left UserClient.attribute_step attributes
      (message_fields msg
       ++ ("media_type", PStr kind)
          :: match name with
             | Some n => [("file_name", PStr n)]
             | None => []
             end)
    = message_fields msg
      ++ ("media_type",
          PStr (match last_audio attributes with
                | Some true => "voice"
                | Some false => "audio"
                | None => kind
                end))
         :: match last_file_name attributes with
            | Some n => [("file_name", PStr n)]
            | None =>
                match name with
                | Some n => [("file_name", PStr n)]
                | None => []
                end
            end.
Proof.
  induction attributes as [|attr rest IH]; intros kind name.
  - reflexivity.
  - cbn [fold_left last_audio last_file_name].
    destruct attr as [file_name|voice|].
    + specialize (IH kind (Some file_name)).
      destruct name; cbn in IH |- *; rewrite IH;
        destruct (last_audio rest) as [[|]|], (last_file_name rest);
        reflexivity.
    + specialize (IH (if voice then "voice" else "audio") name).
      destruct voice, name; cbn in IH |- *; rewrite IH;
        destruct (last_audio rest) as [[|]|], (last_file_name rest);
        reflexivity.
    + specialize (IH kind name).
      destruct name; cbn in IH |- *; rewrite IH;
        destruct (last_audio rest) as [[|]|], (last_file_name rest);
        reflexivity.
Qed.

Lemma text_or_empty (t : option string) :
  match t with
  | Some t => if nonempty t then t else ""
  | None => ""
  end
  = match t with Some t => t | None => "" end.
Proof. destruct t as [[|a t]|]; reflexivity. Qed.

(** X9: the entry [get_messages] builds for a message is its five fields,
    in order, followed for a message with media by the kind of the media
    and, for a document with a file name, by that name.  A document counts
    as "voice" or "audio" by its last audio attribute and is named by its
    last file name attribute; [has_media] is true exactly when
    [media_type] is there. *)
Theorem msg_data_fields (msg : Telethon.Message) :
  UserClient.msg_data msg
  = message_fields msg
    ++ match Telethon.m_media msg with
       | None => []
       | Some media =>
           ("media_type", PStr (media_kind media))
           :: match media_file_name media with
              | Some name => [("file_name", PStr name)]
              | None => []
              end
       end.
Proof.
  unfold UserClient.msg_data. rewrite text_or_empty.
  change (UserClient.media_type (message_fields msg) (Telethon.m_media msg)
          = message_fields msg
            ++ match Telethon.m_media msg with
               | None => []
               | Some media =>
                   ("media_type", PStr (media_kind media))
                   :: match media_file_name media with
                      | Some name => [("file_name", PStr name)]
                      | None => []
                      end
               end).
  destruct (Telethon.m_media msg) as [[|[document|]|]|];
    cbn [UserClient.media_type media_kind media_file_name];
    try reflexivity.
  apply (attributes_fold msg (Telethon.attributes document) "document" None).
Qed.

(* ===================================================================== *)
(** ** Downloads *)
(* ===================================================================== *)

Lemma downloads_app (a b : list Event) :
  downloads (a ++ b) = downloads a + downloads b.
Proof.
  induction a as [|[| [] | | | | | | | | | |] a IH]; cbn; rewrite ?IH; reflexivity.
Qed.

#[global] Instance downloads_are_invariant (n : nat) :
  ClientInvariant no_download (downloads_are n).
Proof.
  unfold downloads_are. split; cbn [UserClient.trace UserClient.self].
  - intros o tr e He H. rewrite downloads_app, H.
    destruct e as [| [] | | | | | | | | | |]; try discriminate He; cbn; lia.
  - intros cfg tr session id api_hash c H. rewrite downloads_app, H. cbn. lia.
  - intros cfg tr c c' H. exact H.
Qed.

Section Downloads.
Context (env : Env).

Lemma request_yields {A} (c : Telethon.Call) (answer : Res A) :
  yields (UserClient.request env c answer) (fun a => answer = Ok a).
Proof.
  unfold UserClient.request.
  apply yields_bind_any. intros _.
  apply yields_bind_any. intros _.
  apply yields_lift_res.
Qed.

(** X8: [download_media] asks the backend for a download only for a
    message that is there and has media.  When the backend has no such
    message, or the message has no media, it raises and no download is
    requested, whatever state the client is in. *)
Theorem download_media_without_media (s : UserClient.St)
    (entity message_id save_path : pyval) :
  (forall m, Telethon.get_messages (backend env) entity message_id = Ok (Some m) ->
             Telethon.m_media m = None) ->
  let r := UserClient.download_media env entity message_id save_path s in
  (exists e, fst r = Raise e)
  /\ downloads (UserClient.trace (snd r)) = downloads (UserClient.trace s).
Proof.
  intros Hnone. cbn zeta.
  assert (Hstop : yields
                    (UserClient.download_media env entity message_id save_path)
                    (fun _ => False)).
  { unfold UserClient.download_media.
    apply yields_bind_any. intros _.
    eapply yields_bind; [apply request_yields|]. cbv beta.
    intros [m|] Hm; [|apply yields_raise].
    rewrite (Hnone m Hm). apply yields_raise. }
  assert (Hkeep : preserves (downloads_are (downloads (UserClient.trace s)))
                    (UserClient.download_media env entity message_id save_path)).
  { unfold UserClient.download_media.
    apply preserves_bind;
      [apply (preserves_connect env no_download); [exact _|reflexivity]|].
    intros _.
    eapply preserves_bind_yields;
      [ apply (preserves_request env no_download); [exact _|reflexivity]
      | apply request_yields
      | ].
    cbv beta. intros [m|] Hm; [|apply preserves_raise].
    rewrite (Hnone m Hm). apply preserves_raise. }
  split.
  - destruct (UserClient.download_media env entity message_id save_path s)
      as [[d|e] s1] eqn:E; cbn [fst]; [|eauto].
    destruct (Hstop _ _ _ E).
  - apply Hkeep. reflexivity.
Qed.

End Downloads.
Lemma download_media_without_media_witness :
  let r := UserClient.download_media Examples.env_ok (PStr "@ann") (PInt 7)
             (PStr "/tmp/out") Examples.new_client in
  (forall m, Telethon.get_messages (backend Examples.env_ok) (PStr "@ann") (PInt 7)
             = Ok (Some m) ->
             Telethon.m_media m = None)
  /\ fst r = Raise (mkExn ValueError "Message 7 not found")
  /\ downloads (UserClient.trace (snd r)) = 0.
Proof.
  cbn zeta.
  assert (H : forall m,
             Telethon.get_messages (backend Examples.env_ok) (PStr "@ann") (PInt 7)
             = Ok (Some m) ->
             Telethon.m_media m = None) by discriminate.
  split; [exact H|]. split; [reflexivity|].
  exact (proj2 (download_media_without_media Examples.env_ok Examples.new_client
                  (PStr "@ann") (PInt 7) (PStr "/tmp/out") H)).
Defined.

(* ===================================================================== *)
(** ** The Process Record read back *)
(* ===================================================================== *)

Lemma pretty_N_char_digit (d : N) :
  (d < 10)%N ->
  digit_val (pretty_N_char d) = Some (Z.of_N d)
  /\ is_space (pretty_N_char d) = false.
Proof.
  intros H.
  assert (Hd : (d = 0 \/ d = 1 \/ d = 2 \/ d = 3 \/ d = 4 \/ d = 5 \/ d = 6
                \/ d = 7 \/ d = 8 \/ d = 9)%N) by lia.
  repeat (destruct Hd as [->|Hd]; [split; reflexivity|]).
  subst d. split; reflexivity.
Qed.

(** The digits [pretty] writes for a positive number are read back as that
    number, in front of whatever follows them. *)
Lemma int_digits_pretty (x : N) :
  (0 < x)%N ->
  exists m : Z,
    forall (first : bool) (acc : Z) (s : string),
      int_digits first acc (list_ascii_of_string (pretty_N_go x s))
      = int_digits false (acc * m + Z.of_N x) (list_ascii_of_string s).
Proof.
  induction x as [x IH] using (well_founded_induction N.lt_wf_0).
  intros Hpos.
  destruct (pretty_N_char_digit (x mod 10)) as [Hdigit _];
    [apply N.mod_lt; lia|].
  destruct (N.eq_dec (x / 10)%N 0%N) as [Hq|Hq].
  - exists 10%Z. intros first acc s.
    rewrite pretty_N_go_step, Hq, pretty_N_go_0 by exact Hpos.
    cbn [list_ascii_of_string int_digits]. rewrite Hdigit.
    f_equal. rewrite N.mod_small by (apply N.div_small_iff in Hq; lia).
    reflexivity.
  - destruct (IH (x / 10)%N) as [m Hm];
      [apply N.div_lt; lia | apply N.neq_0_lt_0; exact Hq |].
    exists (m * 10)%Z. intros first acc s.
    rewrite pretty_N_go_step, Hm by exact Hpos.
    cbn [list_ascii_of_string int_digits]. rewrite Hdigit.
    f_equal. rewrite (N.div_mod x 10) at 3 by lia. lia.
Qed.

Lemma pretty_N_go_no_space (x : N) :
  forall s,
    Forall (fun a => is_space a = false) (list_ascii_of_string s) ->
    Forall (fun a => is_space a = false) (list_ascii_of_string (pretty_N_go x s)).
Proof.
  induction x as [x IH] using (well_founded_induction N.lt_wf_0).
  intros s Hs. destruct (N.eq_dec x 0%N) as [->|Hx].
  - rewrite pretty_N_go_0. exact Hs.
  - rewrite pretty_N_go_step by lia. apply IH; [apply N.div_lt; lia|].
    cbn [list_ascii_of_string]. constructor; [|exact Hs].
    apply pretty_N_char_digit, N.mod_lt. lia.
Qed.

Lemma lstrip_no_space (l : list ascii) :
  Forall (fun a => is_space a = false) l -> lstrip l = l.
Proof.
  intros H. destruct H as [|a l Ha Hl]; [reflexivity|].
  cbn [lstrip]. rewrite Ha. reflexivity.
Qed.

Lemma strip_no_space (s : string) :
  Forall (fun a => is_space a = false) (list_ascii_of_string s) ->
  strip s = s.
Proof.
  intros H. unfold strip.
  rewrite (lstrip_no_space _ H).
  rewrite lstrip_no_space by (apply Forall_rev; exact H).
  rewrite rev_involutive. apply string_of_list_ascii_of_string.
Qed.

Lemma pretty_no_space (z : Z) :
  Forall (fun a => is_space a = false) (list_ascii_of_string (pretty z)).
Proof.
  destruct z as [|p|p].
  - repeat constructor.
  - apply pretty_N_go_no_space. constructor.
  - change (pretty (Z.neg p)) with (String "-" (pretty_N_go (N.pos p) "")).
    cbn [list_ascii_of_string]. constructor; [reflexivity|].
    apply pretty_N_go_no_space. constructor.
Qed.

(** [int(str(z).strip())] is [z]. *)
Lemma int_of_str_pretty (z : Z) : int_of_str (strip (pretty z)) = Some z.
Proof.
  rewrite (strip_no_space _ (pretty_no_space z)).
  unfold int_of_str. rewrite (strip_no_space _ (pretty_no_space z)).
  destruct z as [|p|p].
  - reflexivity.
  - change (pretty (Z.pos p)) with (pretty_N_go (N.pos p) "").
    destruct (int_digits_pretty (N.pos p)) as [m Hm]; [lia|].
    pose proof (Hm true 0%Z "") as Hread.
    cbn [list_ascii_of_string int_digits] in Hread.
    destruct (list_ascii_of_string (pretty_N_go (N.pos p) "")) as [|a r] eqn:E.
    + discriminate Hread.
    + destruct (nat_of_ascii a =? 45)%nat eqn:Hminus.
      { apply Nat.eqb_eq in Hminus.
        apply (f_equal ascii_of_nat) in Hminus.
        rewrite ascii_nat_embedding in Hminus. subst a. discriminate Hread. }
      destruct (nat_of_ascii a =? 43)%nat eqn:Hplus.
      { apply Nat.eqb_eq in Hplus.
        apply (f_equal ascii_of_nat) in Hplus.
        rewrite ascii_nat_embedding in Hplus. subst a. discriminate Hread. }
      rewrite Hread. reflexivity.
  - change (pretty (Z.neg p)) with (String "-" (pretty_N_go (N.pos p) "")).
    cbn [list_ascii_of_string]. change (nat_of_ascii "-" =? 45)%nat with true.
    cbn iota.
    destruct (int_digits_pretty (N.pos p)) as [m Hm]; [lia|].
    rewrite (Hm true 0%Z ""). reflexivity.
Qed.

(* ===================================================================== *)
(** ** From start to stop *)
(* ===================================================================== *)

Section StartToStop.
Context (env : Env).

(** [run_daemon] gets past its checks only with the account configured and
    no live daemon on record. *)
Lemma run_daemon_returns (w : World) :
  fst (Daemon.run_daemon env w) = Ok tt ->
  Config.has_user (load_config env) = true
  /\ (liveness env w = NoRecord \/ liveness env w = Stale).
Proof.
  destruct w as [pid_file kills probes config client trace].
  unfold liveness, Daemon.run_daemon. run_world.
  destruct (Config.has_user (load_config env)); run_world; [|discriminate].
  intros H. split; [reflexivity|]. revert H.
  destruct pid_file as [text|]; run_world; [|auto].
  destruct (int_of_str (strip text)) as [pid|]; run_world; [|auto].
  destruct (kill env kills pid 0) as [[]|e]; run_world; [discriminate|].
  destruct (Daemon.OSError_or_ValueError e); [auto | discriminate].
Qed.

(** When [get_me] returns, the transport is up. *)
Lemma get_me_ok (s : UserClient.St) (me : dict) :
  fst (UserClient.get_me env s) = Ok me ->
  exists c,
    UserClient._client (UserClient.self (snd (UserClient.get_me env s))) = Some c
    /\ Telethon.is_connected c = true.
Proof.
  unfold UserClient.get_me.
  destruct (fst (UserClient.connect env s)) as [[]|e] eqn:Hconn.
  - rewrite (after_connect env _ s Hconn).
    destruct (connect_ok env s Hconn) as (c & Hc & Hup).
    unfold bind. rewrite (request_cached env _ c _ _ Hc).
    destruct (Telethon.get_me (backend env)) as [[u|]|e];
      unfold ret; cbn [fst snd UserClient.self]; intros H;
      try discriminate H; exists c; split; assumption.
  - unfold bind. destruct (UserClient.connect env s) as [[[]|e'] s1];
      cbn in *; discriminate.
Qed.

(** The state [run_daemon] leaves when it returns. *)
Lemma run_daemon_serving (w : World) :
  fst (Daemon.run_daemon env w) = Ok tt ->
  let w1 := snd (Daemon.run_daemon env w) in
  w_pid_file w1 = Some (pretty (getpid env))
  /\ exists o c,
       w_client w1 = Some o
       /\ UserClient._client o = Some c
       /\ Telethon.is_connected c = true.
Proof.
  intros Hok. destruct (run_daemon_returns w Hok) as [Hcfg Hlive].
  revert Hok. cbn zeta.
  rewrite (run_daemon_without_live_daemon env w Hcfg Hlive). cbn zeta.
  destruct (fst (first_contact env)) as [me|e] eqn:Hme.
  - destruct (site_start env) as [[]|e]; cbn [fst snd]; [|discriminate].
    intros _. cbn [w_pid_file w_client]. split; [reflexivity|].
    destruct (get_me_ok _ _ Hme) as (c & Hc & Hup).
    exists (UserClient.self (snd (first_contact env))), c. auto.
  - destruct (is_Exception e); cbn [fst]; discriminate.
Qed.

(** [wait_for_exit] only adds to the events. *)
Lemma wait_for_exit_extends (pid : Z) (n : nat) :
  forall w, exists rest,
    w_trace (snd (Cli.wait_for_exit env pid n w)) = w_trace w ++ rest.
Proof.
  induction n as [|n IH]; intros w.
  - exists []. cbn. symmetry. apply app_nil_r.
  - cbn [Cli.wait_for_exit]. run_world.
    destruct (kill env (w_kills w) pid 0) as [[]|e]; run_world.
    + match goal with
      | |- context [Cli.wait_for_exit env pid n ?w1] =>
          destruct (IH w1) as [rest Hrest]; rewrite Hrest
      end.
      cbn [w_trace]. rewrite <- !app_assoc. eexists. reflexivity.
    + destruct (is_OSError e); run_world;
        rewrite <- !app_assoc; eexists; reflexivity.
Qed.

(** X11: the Process Record a start writes is read back as the process
    that wrote it.  After [run_daemon] has returned, whoever reads the
    record finds the pid of the daemon: a stop, of [daemon.py] or of the
    command line, sends SIGTERM to that very process as its first act. *)
Theorem stop_signals_the_started_daemon (w w2 : World) :
  fst (Daemon.run_daemon env w) = Ok tt ->
  w_pid_file w2 = w_pid_file (snd (Daemon.run_daemon env w)) ->
  liveness_events w2 = [EvKill (getpid env) 0]
  /\ (exists rest,
        w_trace (snd (Daemon.daemon_stop env w2))
        = w_trace w2 ++ EvKill (getpid env) SIGTERM :: rest)
  /\ (exists rest,
        w_trace (snd (Cli.daemon_stop env w2))
        = w_trace w2 ++ EvKill (getpid env) SIGTERM :: rest).
Proof.
  intros Hok Hfile.
  destruct (run_daemon_serving w Hok) as [Hrecord _].
  cbn zeta in Hrecord. rewrite Hrecord in Hfile. clear Hrecord.
  pose proof (int_of_str_pretty (getpid env)) as Hread.
  destruct w2 as [pid_file kills probes config client trace].
  cbn [w_pid_file] in Hfile. subst pid_file.
  split; [|split].
  - unfold liveness_events. cbn [w_pid_file]. rewrite Hread. reflexivity.
  - unfold Daemon.daemon_stop. run_world. rewrite Hread. run_world.
    destruct (kill env kills (getpid env) SIGTERM) as [[]|e]; run_world.
    + rewrite <- app_assoc. eexists. reflexivity.
    + destruct (Daemon.OSError_or_ValueError e); run_world;
        rewrite <- ?app_assoc; cbn [app]; eexists; reflexivity.
  - unfold Cli.daemon_stop. run_world. rewrite Hread. run_world.
    destruct (kill env kills (getpid env) SIGTERM) as [[]|e]; run_world.
    + match goal with
      | |- context [Cli.wait_for_exit env ?pid ?n ?w1] =>
          destruct (wait_for_exit_extends pid n w1) as [rest Hrest];
          destruct (Cli.wait_for_exit env pid n w1) as [[[|]|e] w3]
      end; cbn [snd fst w_trace] in *; run_world;
        try (destruct (Daemon.OSError_or_ValueError e); run_world);
        rewrite Hrest, <- ?app_assoc; cbn [app]; eexists; reflexivity.
    + destruct (Daemon.OSError_or_ValueError e); run_world;
        rewrite <- ?app_assoc; cbn [app]; eexists; reflexivity.
Qed.

(** X12: [shutdown] after a start asks the backend to disconnect, once,
    and then removes the Process Record.  The removal comes last and is
    not protected: when the disconnect raises, [shutdown] raises with it
    and the record is left behind. *)
Theorem shutdown_after_start (w : World) :
  fst (Daemon.run_daemon env w) = Ok tt ->
  let w1 := snd (Daemon.run_daemon env w) in
  let r := Daemon.shutdown env w1 in
  backend_calls (w_trace (snd r))
  = backend_calls (w_trace w1) ++ [Telethon.CDisconnect]
  /\ match Telethon.disconnect (backend env) with
     | Ok _ => fst r = Ok tt /\ w_pid_file (snd r) = None
     | Raise e => fst r = Raise e /\ w_pid_file (snd r) = w_pid_file w1
     end.
Proof.
  intros Hok. destruct (run_daemon_serving w Hok) as (_ & o & c & Hcl & Hc & Hup).
  cbn zeta in *.
  destruct (snd (Daemon.run_daemon env w))
    as [pid_file kills probes config client trace].
  cbn [w_client] in Hcl. subst client.
  destruct o as [cfg oc]. cbn [UserClient._client] in Hc. subst oc.
  unfold Daemon.shutdown, UserClient.disconnect. run_world.
  cbn [UserClient._client UserClient.self]. rewrite Hup.
  unfold UserClient.emit, UserClient.set_client. run_world.
  destruct (Telethon.disconnect (backend env)) as [[]|e]; run_world;
    rewrite !backend_calls_app; cbn [backend_calls];
    rewrite ?app_nil_r, <- ?app_assoc; cbn [app]; auto.
Qed.

(** X13: when the listener cannot start, [run_daemon] raises what the
    listener raised and cleans nothing up: the Process Record it wrote is
    left behind, naming this process, and the client stays connected; no
    record is removed and the backend is not asked to disconnect. *)
Theorem start_with_failed_listener (w : World) (e : Exn) :
  Config.has_user (load_config env) = true ->
  liveness env w = NoRecord \/ liveness env w = Stale ->
  (exists me, fst (first_contact env) = Ok me) ->
  site_start env = Raise e ->
  let r := Daemon.run_daemon env w in
  fst r = Raise e
  /\ w_pid_file (snd r) = Some (pretty (getpid env))
  /\ w_client (snd r) = Some (UserClient.self (snd (first_contact env)))
  /\ backend_calls (w_trace (snd r))
     = backend_calls (w_trace w)
       ++ backend_calls (UserClient.trace (snd (first_contact env))).
Proof.
  intros Hcfg Hlive [me Hme] Hsite. cbn zeta.
  rewrite (run_daemon_without_live_daemon env w Hcfg Hlive). cbn zeta.
  rewrite Hme, Hsite. cbn [fst snd w_pid_file w_client w_trace].
  repeat split.
  assert (Hprobe : backend_calls (liveness_events w) = []).
  { unfold liveness_events.
    destruct (w_pid_file w) as [text|]; [|reflexivity].
    destruct (int_of_str (strip text)); reflexivity. }
  repeat (rewrite backend_calls_app || cbn [backend_calls]).
  rewrite Hprobe, app_nil_r. reflexivity.
Qed.

End StartToStop.
Lemma stop_signals_the_started_daemon_witness :
  let w1 := snd (Daemon.run_daemon Examples.env_ok (fresh None)) in
  fst (Daemon.run_daemon Examples.env_ok (fresh None)) = Ok tt
  /\ w_pid_file w1 = Some "4242"
  /\ exists rest,
       w_trace (snd (Cli.daemon_stop Examples.env_ok (fresh (Some "4242"))))
       = EvKill 4242 SIGTERM :: rest.
Proof.
  cbn zeta. split; [reflexivity|]. split; [reflexivity|].
  exact (proj2 (proj2 (stop_signals_the_started_daemon Examples.env_ok
                         (fresh None) (fresh (Some "4242")) eq_refl eq_refl))).
Defined.

Lemma shutdown_after_start_witness :
  let w1 := snd (Daemon.run_daemon Examples.env_ok (fresh None)) in
  fst (Daemon.run_daemon Examples.env_ok (fresh None)) = Ok tt
  /\ backend_calls (w_trace (snd (Daemon.shutdown Examples.env_ok w1)))
     = backend_calls (w_trace w1) ++ [Telethon.CDisconnect]
  /\ w_pid_file w1 = Some "4242"
  /\ w_pid_file (snd (Daemon.shutdown Examples.env_ok w1)) = None.
Proof.
  cbn zeta. split; [reflexivity|].
  split; [|split; reflexivity].
  exact (proj1 (shutdown_after_start Examples.env_ok (fresh None) eq_refl)).
Defined.

Lemma start_with_failed_listener_witness :
  let r := Daemon.run_daemon env_port_taken (fresh (Some "99")) in
  Config.has_user (load_config env_port_taken) = true
  /\ liveness env_port_taken (fresh (Some "99")) = Stale
  /\ site_start env_port_taken = Raise address_in_use
  /\ fst r = Raise address_in_use
  /\ w_pid_file (snd r) = Some "4242".
Proof.
  cbn zeta. split; [reflexivity|]. split; [reflexivity|]. split; [reflexivity|].
  pose proof (start_with_failed_listener env_port_taken (fresh (Some "99"))
                address_in_use eq_refl (or_intror eq_refl)
                (ex_intro _ _ eq_refl) eq_refl) as H.
  cbn zeta in H. destruct H as (H1 & H2 & _). split; [exact H1 | exact H2].
Defined.

(* ===================================================================== *)
(** ** The command line waits *)
(* ===================================================================== *)

Section Waiting.
Context (env : Env).

(** The rounds of [wait_for_exit], when a probe can only fail with an
    [OSError]: [answered] probes find the process there, one after the
    other from the first; the loop ends with the probe after them when that
    one fails, and goes its [n] rounds when none does. *)
Lemma wait_for_exit_rounds (pid : Z) (n : nat) :
  (forall k e, kill env k pid 0 = Raise e -> is_OSError e = true) ->
  forall w, exists (answered : nat) (gone : bool),
    (forall k, k < answered -> kill env (w_kills w + k) pid 0 = Ok tt)
    /\ (if gone
        then answered < n
             /\ exists e, kill env (w_kills w + answered) pid 0 = Raise e
        else answered = n)
    /\ Cli.wait_for_exit env pid n w
       = (Ok gone,
          mkWorld (w_pid_file w)
            (w_kills w + (answered + if gone then 1 else 0))
            (w_probes w) (w_config w) (w_client w)
            (w_trace w
             ++ exit_polls pid (answered + if gone then 1 else 0)
             ++ if gone then [EvPrint "[green]✓ Daemon stopped[/green]"]
                else [])).
Proof.
  intros Hos. induction n as [|n IH]; intros w.
  - exists 0, false. split; [intros k Hk; lia|]. split; [reflexivity|].
    destruct w. cbn. rewrite Nat.add_0_r, app_nil_r. reflexivity.
  - cbn [Cli.wait_for_exit]. run_world.
    destruct (kill env (w_kills w) pid 0) as [[]|e] eqn:Hkill; run_world.
    + match goal with
      | |- context [Cli.wait_for_exit env pid n ?w1] =>
          destruct (IH w1) as (answered & gone & Hanswered & Hlast & ->)
      end.
      cbn [w_pid_file w_kills w_probes w_config w_client w_trace] in *.
      exists (S answered), gone. split; [|split].
      * intros [|k] Hk.
        -- rewrite Nat.add_0_r. exact Hkill.
        -- replace (w_kills w + S k) with (S (w_kills w) + k) by lia.
           apply Hanswered. lia.
      * destruct gone.
        -- destruct Hlast as [Hlt [e He]]. split; [lia|]. exists e.
           replace (w_kills w + S answered) with (S (w_kills w) + answered)
             by lia.
           exact He.
        -- lia.
      * cbn [exit_polls Nat.add]. f_equal. f_equal; [lia|].
        rewrite <- !app_assoc. reflexivity.
    + rewrite (Hos _ _ Hkill). run_world.
      exists 0, true. split; [intros k Hk; lia|]. split.
      * split; [lia|]. exists e. rewrite Nat.add_0_r. exact Hkill.
      * cbn [exit_polls Nat.add]. f_equal. f_equal; [lia|].
        rewrite <- !app_assoc. reflexivity.
Qed.

(** X15: [tg daemon stop] on a daemon that takes the signal: one SIGTERM,
    then rounds of a sleep and a probe with signal 0.  The probes that
    find the process there are [answered], counted from the first; the
    first probe that fails ends the rounds with "Daemon stopped", and
    when ten probes in a row are answered the command gives up with
    "Daemon may still be shutting down".  Which of the two happens, and
    after how many rounds, is fixed by the answers to the probes.  The
    Process Record is left in place in both cases, also when the process
    was seen gone: the command line removes it only when the signal
    itself fails. *)
Theorem stop_of_live_daemon (w : World) (text : string) (pid : Z) :
  w_pid_file w = Some text ->
  int_of_str (strip text) = Some pid ->
  kill env (w_kills w) pid SIGTERM = Ok tt ->
  (forall k e, kill env k pid 0 = Raise e -> is_OSError e = true) ->
  exists (answered : nat) (gone : bool),
    (forall k, k < answered -> kill env (w_kills w + 1 + k) pid 0 = Ok tt)
    /\ (if gone
        then answered < 10
             /\ exists e, kill env (w_kills w + 1 + answered) pid 0 = Raise e
        else answered = 10)
    /\ Cli.daemon_stop env w
       = (Ok tt,
          mkWorld (Some text)
            (w_kills w + 1 + (answered + if gone then 1 else 0))
            (w_probes w) (w_config w) (w_client w)
            (w_trace w
             ++ [EvKill pid SIGTERM;
                 EvPrint ("[green]✓ Sent SIGTERM to PID " +:+ pretty pid
                          +:+ "[/green]")]
             ++ exit_polls pid (answered + if gone then 1 else 0)
             ++ [EvPrint (if gone then "[green]✓ Daemon stopped[/green]"
                          else "[yellow]Daemon may still be shutting down[/yellow]")])).
Proof.
  destruct w as [pid_file kills probes config client trace].
  cbn [w_pid_file w_kills w_probes w_config w_client w_trace].
  intros -> Hpid Hkill Hos.
  unfold Cli.daemon_stop. run_world. rewrite Hpid. run_world. rewrite Hkill.
  run_world.
  match goal with
  | |- context [Cli.wait_for_exit env pid 10 ?w1] =>
      destruct (wait_for_exit_rounds pid 10 Hos w1)
        as (answered & gone & Hanswered & Hlast & Hrun)
  end.
  cbn [w_pid_file w_kills w_probes w_config w_client w_trace] in *.
  exists answered, gone. split; [|split].
  - intros k Hk. replace (kills + 1 + k) with (S kills + k) by lia.
    apply Hanswered. exact Hk.
  - destruct gone; [|exact Hlast].
    destruct Hlast as [Hlt [e He]]. split; [exact Hlt|]. exists e.
    replace (kills + 1 + answered) with (S kills + answered) by lia.
    exact He.
  - rewrite Hrun.
    destruct gone; run_world; f_equal; f_equal; try lia;
      rewrite <- !app_assoc; cbn [app]; rewrite ?app_nil_r; reflexivity.
Qed.

(** The rounds of [wait_for_start] when no probe is answered with ok. *)
Lemma wait_for_start_unanswered (n : nat) :
  forall w,
    (forall k, k < n ->
       truthy (Cli.get_or (health env (w_probes w + k)) "ok" (PBool false)) = false) ->
    Cli.wait_for_start env n w
    = (Ok false,
       mkWorld (w_pid_file w) (w_kills w) (w_probes w + n) (w_config w)
         (w_client w) (w_trace w ++ start_polls n)).
Proof.
  induction n as [|n IH]; intros w Hno.
  - destruct w. cbn. rewrite Nat.add_0_r, app_nil_r. reflexivity.
  - cbn [Cli.wait_for_start]. unfold Cli.is_daemon_running, Cli.health_request.
    run_world.
    pose proof (Hno 0 ltac:(lia)) as H0. rewrite Nat.add_0_r in H0.
    rewrite H0. rewrite IH.
    + cbn [w_pid_file w_kills w_probes w_config w_client w_trace start_polls].
      f_equal. f_equal; [lia|]. rewrite <- !app_assoc. reflexivity.
    + intros k Hk. cbn [w_probes].
      replace (S (w_probes w) + k) with (w_probes w + S k) by lia.
      apply Hno. lia.
Qed.

(** X14: [tg daemon start] in the background, when no daemon ever
    answers: the daemon is spawned once, the health is probed once before
    and twenty times after, half a second apart, and the command ends in
    [typer.Exit(1)] after it has pointed to the logs. *)
Theorem background_start_gives_up (w : World) :
  Config.has_user (load_config env) = true ->
  (forall k, k <= 20 ->
     truthy (Cli.get_or (health env (w_probes w + k)) "ok" (PBool false)) = false) ->
  Cli.daemon_start env false w
  = (Raise (mkExn (TyperExit 1) ""),
     mkWorld (w_pid_file w) (w_kills w) (w_probes w + 21) (w_config w)
       (w_client w)
       (w_trace w
        ++ [EvHealthProbe; EvSpawn (daemon_argv env);
            EvPrint "[yellow]Starting daemon...[/yellow]"]
        ++ start_polls 20
        ++ [EvPrint
              "[red]✗ Daemon failed to start. Check logs: tg daemon logs[/red]"])).
Proof.
  intros Hcfg Hno.
  unfold Cli.daemon_start, Cli.is_daemon_running, Cli.health_request,
    Cli.typer_Exit.
  run_world.
  pose proof (Hno 0 ltac:(lia)) as H0. rewrite Nat.add_0_r in H0.
  rewrite H0, Hcfg. run_world.
  rewrite wait_for_start_unanswered.
  - cbn [w_pid_file w_kills w_probes w_config w_client w_trace].
    f_equal. f_equal; [lia|]. unfold daemon_argv.
    rewrite <- !app_assoc. reflexivity.
  - intros k Hk. cbn [w_probes].
    replace (S (w_probes w) + k) with (w_probes w + S k) by lia.
    apply Hno. lia.
Qed.

(** X16: [tg daemon status] only looks: whatever it finds, the Process
    Record, the configuration and the client are as before; the only
    signal it sends is the probe with signal 0, and it asks for the health
    of the daemon only when the recorded process answered that probe.  A
    stale record is reported and left in place. *)
Theorem status_only_looks (w : World) :
  let r := Cli.daemon_status env w in
  w_pid_file (snd r) = w_pid_file w
  /\ w_config (snd r) = w_config w
  /\ w_client (snd r) = w_client w
  /\ w_kills (snd r) = w_kills w + length (liveness_events w)
  /\ w_probes (snd r)
     = w_probes w + match liveness env w with Alive _ => 1 | _ => 0 end
  /\ (liveness env w = Stale ->
      fst r = Ok tt
      /\ w_trace (snd r)
         = w_trace w ++ liveness_events w
           ++ [EvPrint "[yellow]Daemon not running (stale PID file)[/yellow]"]).
Proof.
  destruct w as [pid_file kills probes config client trace].
  unfold liveness, liveness_events, Cli.daemon_status, Cli.health_request.
  cbn zeta. run_world.
  destruct pid_file as [text|]; run_world.
  - destruct (int_of_str (strip text)) as [pid|] eqn:Hpid; run_world.
    + destruct (kill env kills pid 0) as [[]|e]; run_world.
      * destruct (truthy (Cli.get_or (health env probes) "ok" PNone)); run_world.
        -- destruct (Cli.show_user _ "first_name"); run_world;
             [destruct (Cli.show_user _ "username"); run_world|];
             cbn [length]; repeat split; try lia; discriminate.
        -- cbn [length]; repeat split; try lia; discriminate.
      * destruct (Daemon.OSError_or_ValueError e); run_world;
          cbn [length]; repeat split; try lia; try discriminate.
        rewrite <- app_assoc. reflexivity.
    + change (Daemon.OSError_or_ValueError (int_ValueError (strip text)))
        with true.
      run_world. cbn [length]. repeat split; lia.
  - cbn [length]. repeat split; try lia; discriminate.
Qed.

End Waiting.

Lemma stop_of_live_daemon_witness :
  kill env_stopping 0 99 SIGTERM = Ok tt
  /\ (forall k e, kill env_stopping k 99 0 = Raise e -> is_OSError e = true)
  /\ Cli.daemon_stop env_stopping (fresh (Some "99"))
     = (Ok tt,
        mkWorld (Some "99") 4 0 None None
          [EvKill 99 SIGTERM;
           EvPrint "[green]✓ Sent SIGTERM to PID 99[/green]";
           EvSleep; EvKill 99 0; EvSleep; EvKill 99 0; EvSleep; EvKill 99 0;
           EvPrint "[green]✓ Daemon stopped[/green]"])
  /\ exists (answered : nat) (gone : bool),
       (forall k, k < answered -> kill env_stopping (0 + 1 + k) 99 0 = Ok tt)
       /\ (if gone
           then answered < 10
                /\ exists e, kill env_stopping (0 + 1 + answered) 99 0 = Raise e
           else answered = 10)
       /\ Cli.daemon_stop env_stopping (fresh (Some "99"))
          = (Ok tt,
             mkWorld (Some "99") (0 + 1 + (answered + if gone then 1 else 0))
               0 None None
               ([]
                ++ [EvKill 99 SIGTERM;
                    EvPrint ("[green]✓ Sent SIGTERM to PID " +:+ pretty 99%Z
                             +:+ "[/green]")]
                ++ exit_polls 99 (answered + if gone then 1 else 0)
                ++ [EvPrint (if gone then "[green]✓ Daemon stopped[/green]"
                             else "[yellow]Daemon may still be shutting down[/yellow]")])).
Proof.
  assert (H : forall k e, kill env_stopping k 99 0 = Raise e -> is_OSError e = true).
  { intros k e. unfold env_stopping. cbn [kill].
    destruct (k <? 3)%nat; [discriminate|].
    intros [= <-]. reflexivity. }
  split; [reflexivity|]. split; [exact H|]. split; [reflexivity|].
  exact (stop_of_live_daemon env_stopping (fresh (Some "99")) "99" 99
           eq_refl eq_refl eq_refl H).
Defined.

Lemma background_start_gives_up_witness :
  Config.has_user (load_config Examples.env_ok) = true
  /\ fst (Cli.daemon_start Examples.env_ok false (fresh None))
     = Raise (mkExn (TyperExit 1) "")
  /\ w_probes (snd (Cli.daemon_start Examples.env_ok false (fresh None))) = 21.
Proof.
  split; [reflexivity|].
  rewrite (background_start_gives_up Examples.env_ok (fresh None) eq_refl
             (fun _ _ => eq_refl)).
  split; reflexivity.
Defined.

(* ===================================================================== *)
(** ** The bot client *)
(* ===================================================================== *)

Section Bot.
Context (api : BotClient.Api) (config : BotConfig.BotConfig).

Ltac run_bot :=
  repeat (progress
            (unfold bind, ret, raise, gets, modify, lift_res, BotClient.emit;
             cbn [fst snd negb])).

Lemma request_unconfigured (method : string) (data : pyval)
    (files : option (string * string)) :
  BotConfig.is_configured config = false ->
  sends_nothing (BotClient._request api config method data files).
Proof.
  unfold BotConfig.is_configured. intros Hcfg s.
  unfold BotClient._request, BotClient.api_url, BotClient.token.
  rewrite Hcfg. run_bot. eauto.
Qed.

Lemma sends_nothing_bind {A B} (m : M BotClient.St A) (k : A -> M BotClient.St B) :
  sends_nothing m -> sends_nothing (bind m k).
Proof.
  intros Hm s. destruct (Hm s) as [Hs [e He]]. unfold bind.
  destruct (m s) as [[a|e'] s1]; cbn in *; [discriminate|].
  subst s1. eauto.
Qed.

Lemma send_upload_unconfigured (method field : string)
    (file_path caption chat_id : pyval) :
  BotConfig.is_configured config = false ->
  sends_nothing (BotClient.send_upload api config method field file_path caption
                   chat_id).
Proof.
  intros Hcfg s. unfold BotClient.send_upload. run_bot.
  destruct (py_Path file_path) as [path|e]; cbn [fst snd]; [|eauto].
  destruct (BotClient.path_exists api path); cbn [negb fst snd]; [|eauto].
  destruct (BotClient.open_rb api path) as [[]|e]; cbn [fst snd]; [|eauto].
  apply request_unconfigured. exact Hcfg.
Qed.

(** X17: a bot client without a token sends nothing: each of its methods
    raises before any request leaves, whatever its arguments are and
    whatever the API would have answered. *)
Theorem unconfigured_bot_sends_nothing :
  BotConfig.is_configured config = false ->
  sends_nothing (BotClient.get_me api config)
  /\ (forall text chat_id parse_mode,
        sends_nothing (BotClient.send_message api config text chat_id parse_mode))
  /\ (forall file_path caption chat_id,
        sends_nothing (BotClient.send_document api config file_path caption chat_id)
        /\ sends_nothing (BotClient.send_photo api config file_path caption chat_id)
        /\ sends_nothing (BotClient.send_voice api config file_path caption chat_id))
  /\ (forall offset limit timeout,
        sends_nothing (BotClient.get_updates api config offset limit timeout))
  /\ (forall limit, sends_nothing (BotClient.get_messages api config limit))
  /\ (forall file_id save_path,
        sends_nothing (BotClient.download_file api config file_id save_path)).
Proof.
  intros Hcfg.
  split; [apply request_unconfigured; exact Hcfg|].
  split; [intros; apply request_unconfigured; exact Hcfg|].
  split; [intros; repeat split; apply send_upload_unconfigured; exact Hcfg|].
  split; [intros; apply request_unconfigured; exact Hcfg|].
  split; intros; apply sends_nothing_bind, request_unconfigured; exact Hcfg.
Qed.


(** [_request] on the answer of the API, for a bot with a token. *)
Lemma request_answered (method : string) (data : pyval)
    (files : option (string * string)) (d : dict) (s : BotClient.St) :
  BotConfig.is_configured config = true ->
  BotClient.post api (method_url config method) data files = Ok (PDict d) ->
  BotClient._request api config method data files s
  = (if present d "ok"
     then Ok (Cli.get_or d "result" (PDict []))
     else Raise (mkExn RuntimeError
                   ("Bot API error: "
                    +:+ py_str (Cli.get_or d "description" (PStr "Unknown error")))),
     s ++ [BotClient.Post (method_url config method) data files]).
Proof.
  unfold BotConfig.is_configured. intros Hcfg Hpost.
  unfold BotClient._request, BotClient.api_url, BotClient.token.
  rewrite Hcfg. run_bot. unfold method_url in Hpost |- *. rewrite Hpost.
  cbn [fst snd py_get]. unfold present, Cli.get_or.
  destruct (dict_lookup d "ok") as [ok|]; cbn [truthy fst snd].
  - destruct (truthy ok); cbn [negb fst snd].
    + destruct (dict_lookup d "result"); reflexivity.
    + destruct (dict_lookup d "description"); reflexivity.
  - destruct (dict_lookup d "description"); reflexivity.
Qed.

(** The loop of [get_messages] over updates that are mappings. *)
Lemma bot_loop_entries (updates : list dict) :
  Forall message_is_mapping updates ->
  forall messages,
    BotClient.get_messages_loop (map PDict updates) messages
    = Ok (messages ++ bot_entries updates).
Proof.
  induction 1 as [|update rest Hmap _ IH]; intros messages.
  - cbn. rewrite app_nil_r. reflexivity.
  - cbn [map BotClient.get_messages_loop bot_entries py_get].
    unfold message_of. unfold message_is_mapping in Hmap.
    destruct (dict_lookup update "message") as [v|] eqn:Hv; cbn [truthy].
    + destruct (truthy v) eqn:Htrue.
      * destruct (Hmap v eq_refl Htrue) as [m ->].
        destruct m as [|kv m]; [discriminate Htrue|].
        unfold BotClient.message_entry, bot_entry. cbn [py_get].
        destruct (dict_lookup update "update_id") eqn:Hid; cbn beta iota;
          rewrite IH, <- app_assoc; unfold Cli.get_or; rewrite Hid;
          reflexivity.
      * rewrite IH. destruct v as [| | | |l|[|kv m]]; try reflexivity.
        discriminate Htrue.
    + apply IH.
Qed.

(** X19: [get_messages] asks the API for updates once, with the limit, no
    offset and no waiting, and returns one entry for every update that
    carries a message, in the order of the updates; an update without a
    message (an edit, a callback) gives no entry.  An entry tells of a
    photo, a document or a voice note by the presence of the field in the
    message. *)
Theorem bot_get_messages_entries (limit : pyval) (d : dict)
    (updates : list dict) (s : BotClient.St) :
  let data := PDict [("limit", limit); ("timeout", PInt 0)] in
  BotConfig.is_configured config = true ->
  BotClient.post api (method_url config "getUpdates") data None = Ok (PDict d) ->
  present d "ok" = true ->
  dict_lookup d "result" = Some (PList (map PDict updates)) ->
  Forall message_is_mapping updates ->
  BotClient.get_messages api config limit s
  = (Ok (bot_entries updates),
     s ++ [BotClient.Post (method_url config "getUpdates") data None])
  /\ length (bot_entries updates) <= length updates.
Proof.
  cbn zeta. intros Hcfg Hpost Hok Hresult Hmap. split.
  - unfold BotClient.get_messages, BotClient.get_updates. cbn [truthy].
    unfold bind at 1. rewrite (request_answered _ _ _ d s Hcfg Hpost), Hok.
    unfold Cli.get_or. rewrite Hresult. run_bot. cbn [BotClient.py_iter].
    rewrite (bot_loop_entries updates Hmap []). reflexivity.
  - clear. induction updates as [|update rest IH]; cbn [bot_entries length];
      [lia|]. destruct (message_of update); cbn [length]; lia.
Qed.

End Bot.

Lemma unconfigured_bot_sends_nothing_witness :
  let config := BotConfig.mkBotConfig "" "42" in
  BotConfig.is_configured config = false
  /\ sends_nothing (BotClient.get_me api_answering config)
  /\ BotClient.send_message api_answering config (PStr "hi") PNone (PStr "Markdown") []
     = (Raise (mkExn RuntimeError "Bot not configured. Run 'tg login' first."), []).
Proof.
  cbn zeta. split; [reflexivity|]. split; [|reflexivity].
  exact (proj1 (unconfigured_bot_sends_nothing api_answering
                  (BotConfig.mkBotConfig "" "42") eq_refl)).
Defined.

(** A file that is not there, and one that is. *)
Example bot_send_document_paths :
  BotClient.send_document api_answering bot_configured (PStr "/tmp/none")
    (PStr "") PNone []
  = (Raise (mkExn FileNotFoundError "File not found: /tmp/none"), [])
  /\ snd (BotClient.send_document api_answering bot_configured (PStr "/tmp/a.txt")
            (PStr "") PNone [])
     = [BotClient.Post "https://api.telegram.org/bot123:abc/sendDocument"
          (PDict [("chat_id", PStr "42"); ("caption", PStr "")])
          (Some ("document", "/tmp/a.txt"))].
Proof. split; reflexivity. Qed.

Lemma bot_get_messages_entries_witness :
  let data := PDict [("limit", PInt 10); ("timeout", PInt 0)] in
  BotConfig.is_configured bot_configured = true
  /\ Forall message_is_mapping two_updates
  /\ bot_entries two_updates
     = [[("update_id", PInt 7); ("message_id", PInt 70); ("date", PNone);
         ("text", PStr "hi"); ("from", PDict []); ("chat", PDict []);
         ("has_photo", PBool true); ("has_document", PBool false);
         ("has_voice", PBool false)]]
  /\ BotClient.get_messages api_answering bot_configured (PInt 10) []
     = (Ok (bot_entries two_updates),
        [] ++ [BotClient.Post (method_url bot_configured "getUpdates") data None]).
Proof.
  cbn zeta.
  assert (H : Forall message_is_mapping two_updates).
  { unfold two_updates. constructor; [|constructor; [|constructor]].
    - intros v Hv _. cbn in Hv. injection Hv as <-. eauto.
    - intros v Hv. discriminate Hv. }
  split; [reflexivity|]. split; [exact H|]. split; [reflexivity|].
  exact (proj1 (bot_get_messages_entries api_answering bot_configured (PInt 10)
                  [("ok", PBool true); ("result", PList (map PDict two_updates))]
                  two_updates [] eq_refl eq_refl eq_refl eq_refl H)).
Defined.

(* ===================================================================== *)
(** ** The MCP server asks for the daemon *)
(* ===================================================================== *)


(** The daemon is down, and the daemon is up. *)
Example check_daemon_answers :
  Server.check_daemon (Raise (mkExn ConnectionError "All connection attempts failed"))
  = Ok (false, PStr "Daemon not running: All connection attempts failed")
  /\ Server.check_daemon
       (Ok (PDict [("ok", PBool true); ("status", PStr "connected");
                   ("user", PDict [("first_name", PStr "Ann");
                                   ("username", PStr "ann")])]))
     = Ok (true, PStr "Connected as Ann (@ann)")
  /\ Server.check_daemon (Ok (PList []))
     = Ok (false, PStr "Daemon not running: 'list' object has no attribute 'get'").
Proof. repeat split. Qed.

(* ===================================================================== *)
(** ** Refusals on concrete surroundings *)
(* ===================================================================== *)

Section MalformedBody.
Context (env : Env).

(** X21: a POST whose body is not JSON, or is JSON but not an object, is
    answered by every POST handler with ok false, status 500 and, as the
    error, the text of the exception its first lines raised: the one
    [request.json()] raised, or "'list' object has no attribute 'get'"
    and the like for a body that is not an object.  The handler logs the
    error under its name and does nothing else: the client of the daemon
    is as it was and the backend is not asked. *)
Theorem malformed_body_is_refused (route : Daemon.Route)
    (request : Daemon.Request) (w : World) (e : Exn) :
  route <> Daemon.health_route ->
  body_error request = Some e ->
  is_Exception e = true ->
  Daemon.create_app env route request w
  = (Ok (Daemon.json_response
           [("ok", PBool false); ("error", PStr (exn_str e))] 500),
     logged_error w route).
Proof.
  intros Hroute Hbody Hexc. unfold body_error in Hbody.
  destruct route; try contradiction;
    cbn [Daemon.create_app];
    unfold Daemon.handle_send_message, Daemon.handle_send_file,
      Daemon.handle_get_messages, Daemon.handle_search_dialogs,
      Daemon.handle_download_media, Daemon.handle_edit_message,
      Daemon.handle_delete_messages, Daemon.on_exception, logged_error;
    destruct (Daemon.json request) as [[| | | | |d]|e'];
    try discriminate Hbody; injection Hbody as <-;
    run_world; rewrite ?Hexc;
    cbn [py_get is_Exception no_attribute exn_class exn_str handler_name];
    run_world; reflexivity.
Qed.

End MalformedBody.

Lemma malformed_body_is_refused_witness :
  Daemon.send_message <> Daemon.health_route
  /\ body_error not_json
     = Some (mkExn JSONDecodeError "Expecting value: line 1 column 1 (char 0)")
  /\ Daemon.create_app Examples.env_ok Daemon.send_message not_json (fresh None)
     = (Ok (Daemon.json_response
              [("ok", PBool false);
               ("error", PStr "Expecting value: line 1 column 1 (char 0)")]
              500),
        logged_error (fresh None) Daemon.send_message).
Proof.
  assert (H : Daemon.send_message <> Daemon.health_route) by discriminate.
  split; [exact H|]. split; [reflexivity|].
  exact (malformed_body_is_refused Examples.env_ok Daemon.send_message not_json
           (fresh None) _ H eq_refl eq_refl).
Defined.

(** A body that is JSON and no object: the text is that of the
    [AttributeError]. *)
Example list_body_is_refused :
  fst (Daemon.create_app Examples.env_ok Daemon.edit_message
         (Daemon.mkRequest (Ok (PList []))) (fresh None))
  = Ok (Daemon.json_response
          [("ok", PBool false);
           ("error", PStr "'list' object has no attribute 'get'")]
          500).
Proof. reflexivity. Qed.


(** [tg daemon status] beside a daemon that answers, and beside the record
    of a process that is gone. *)
Example status_answers :
  w_trace (snd (Cli.daemon_status env_healthy (fresh (Some "4242"))))
  = [EvKill 4242 0; EvPrint "[green]✓ Daemon running (PID 4242)[/green]";
     EvHealthProbe; EvPrint "Connected as Ann (@ann)"]
  /\ Cli.daemon_status Examples.env_ok (fresh (Some "99"))
     = (Ok tt,
        mkWorld (Some "99") 1 0 None None
          [EvKill 99 0;
           EvPrint "[yellow]Daemon not running (stale PID file)[/yellow]"]).
Proof. split; reflexivity. Qed.

(* ===================================================================== *)
(** ** A request on its way through the daemon *)
(* ===================================================================== *)

Section PassedOn.
Context (env : Env).

Lemma connect_connected (s : UserClient.St) (c : Telethon.TelegramClient) :
  UserClient._client (UserClient.self s) = Some c ->
  Telethon.is_connected c = true ->
  UserClient.connect env s = (Ok tt, s).
Proof.
  intros Hc Hup. unfold UserClient.connect, bind.
  rewrite (client_cached env s c Hc), Hup. reflexivity.
Qed.

Lemma run_daemon_leaves_serving (w : World) :
  fst (Daemon.run_daemon env w) = Ok tt ->
  serving (snd (Daemon.run_daemon env w)).
Proof.
  intros Hok. destruct (run_daemon_serving env w Hok) as (_ & o & c & Ho & Hc & Hup).
  exists (load_config env), o, c. repeat split; try assumption.
  destruct (run_daemon_returns env w Hok) as [Hcfg Hlive].
  rewrite (run_daemon_without_live_daemon env w Hcfg Hlive). cbn zeta.
  destruct (fst (first_contact env)) as [me|e];
    [destruct (site_start env) | destruct (is_Exception e)]; reflexivity.
Qed.

(** X23: a [send_message] request on a daemon that serves an authorized
    session is passed on as it is: the backend is asked whether the
    session is authorized and then to send, with the entity, the message
    (the empty text when the body has none) and the reply target (none
    when the body has none) of the body, and what it says it sent is the
    answer, with ok and status 200.  Nothing is built or connected for
    the request. *)
Theorem send_message_is_passed_on (w : World) (d : dict) (entity : pyval)
    (sent : Telethon.Sent) :
  let message := Cli.get_or d "message" (PStr "") in
  let reply_to := Cli.get_or d "reply_to" PNone in
  serving w ->
  Telethon.is_user_authorized (backend env) = Ok true ->
  dict_lookup d "entity" = Some entity ->
  truthy entity = true ->
  Telethon.send_message (backend env) entity message reply_to = Ok sent ->
  Daemon.create_app env Daemon.send_message (Daemon.mkRequest (Ok (PDict d))) w
  = (Ok (Daemon.json_response
           [("ok", PBool true);
            ("message_id", PInt (Telethon.s_id sent));
            ("chat_id", opt_int (Telethon.s_chat_id sent))]
           200),
     asked_twice w Telethon.CIsUserAuthorized
       (Telethon.CSendMessage entity message reply_to)).
Proof.
  cbn zeta. intros (config & o & c & Hconfig & Hclient & Hc & Hup)
    Hauth Hentity Htrue Hsend.
  cbn [Daemon.create_app]. unfold Daemon.handle_send_message.
  unfold try_except, bind at 1, lift_res. cbn [Daemon.json].
  unfold bind at 1. cbn [py_get]. rewrite Hentity.
  unfold bind at 1. unfold bind at 1.
  replace (match dict_lookup d "message" with
           | Some v => Ok v
           | None => Ok (PStr "")
           end) with (Ok (Cli.get_or d "message" (PStr "")) : Res pyval)
    by (unfold Cli.get_or; destruct (dict_lookup d "message"); reflexivity).
  replace (match dict_lookup d "reply_to" with
           | Some v => Ok v
           | None => Ok PNone
           end) with (Ok (Cli.get_or d "reply_to" PNone) : Res pyval)
    by (unfold Cli.get_or; destruct (dict_lookup d "reply_to"); reflexivity).
  rewrite Htrue. cbn [negb].
  unfold bind at 1. rewrite get_client_unfold. cbn zeta.
  rewrite Hconfig, Hclient.
  rewrite (is_authorized_connected env _ c) by (cbn; assumption).
  rewrite Hauth. cbn [fst snd UserClient.self UserClient.trace].
  unfold bind at 1, call_client.
  cbn [w_client w_trace w_pid_file w_kills w_probes w_config].
  unfold UserClient.send_message.
  unfold bind at 1.
  rewrite (connect_connected _ c) by (cbn; assumption).
  unfold bind at 1.
  rewrite (request_cached env _ c) by (cbn; assumption).
  rewrite Hsend. unfold ret, asked_twice.
  cbn [UserClient.self UserClient.trace UserClient.sent_dict dict_update
       fold_left dict_set fst snd String.eqb Ascii.eqb Bool.eqb].
  rewrite <- app_assoc, Hconfig, Hclient. reflexivity.
Qed.

End PassedOn.

Lemma send_message_is_passed_on_witness :
  let w := snd (Daemon.run_daemon Examples.env_ok (fresh None)) in
  let d := [("entity", PStr "@ann")] in
  serving w
  /\ dict_lookup d "entity" = Some (PStr "@ann")
  /\ Daemon.create_app Examples.env_ok Daemon.send_message
       (Daemon.mkRequest (Ok (PDict d))) w
     = (Ok (Daemon.json_response
              [("ok", PBool true); ("message_id", PInt 10);
               ("chat_id", opt_int (Some 5%Z))]
              200),
        asked_twice w Telethon.CIsUserAuthorized
          (Telethon.CSendMessage (PStr "@ann") (PStr "") PNone)).
Proof.
  cbn zeta.
  assert (H : serving (snd (Daemon.run_daemon Examples.env_ok (fresh None))))
    by (apply run_daemon_leaves_serving; reflexivity).
  split; [exact H|]. split; [reflexivity|].
  exact (send_message_is_passed_on Examples.env_ok _ [("entity", PStr "@ann")]
           (PStr "@ann") (Telethon.mkSent 10 (Some 5%Z))
           H eq_refl eq_refl eq_refl eq_refl).
Defined.
